(** * Interactive face detection demo: detectors.cpp

    A shallow embedding of
    [demos/interactive_face_detection_demo/cpp/detectors.cpp]: the model
    stages (face detector, age/gender, head pose, emotions, facial
    landmarks, antispoofing), their loader and the call timer, followed by
    the properties of the specification that were checked against them.

    Conventions.
    - [float] and [double] values are IEEE-754 binary32 / binary64 numbers,
      represented by [spec_float] and computed with the correctly rounded
      operations of [SpecFloat] (round to nearest, ties to even).
    - [int] is a 32-bit signed integer carried by [Z]; an operation whose
      mathematical result leaves the range is undefined behaviour.
      [size_t] is carried by [Z] modulo 2^64.
    - A C++ call either returns, throws, or has undefined behaviour
      (null dereference, read outside a buffer, signed overflow): the
      [Outcome] monad.
    - The inference engine is an external collaborator.  A request is
      modelled by the blobs it owns; running it replaces them by what the
      network's [forward] function produces. *)

From Stdlib Require Import ZArith Lia Bool.
From Stdlib Require Import Floats.SpecFloat.
From stdpp Require Import base option list strings pretty gmap.

Open Scope Z_scope.

(** ** Machine numbers *)

Module Int.
Definition min_int : Z := - 2 ^ 31.
Definition max_int : Z := 2 ^ 31 - 1.
Definition in_range (v : Z) : bool := (min_int <=? v) && (v <=? max_int).
End Int.

Module SizeT.
Definition modulus : Z := 2 ^ 64.
(** conversion of an [int] (or of a mathematical result) to [size_t] *)
Definition wrap (v : Z) : Z := v mod modulus.
Definition add (a b : Z) : Z := wrap (a + b).
Definition mul (a b : Z) : Z := wrap (a * b).
End SizeT.

(** Operations that do not depend on the floating-point format. *)
Module Flt.
(** The integer obtained by discarding the fractional part. *)
Definition trunc (x : spec_float) : option Z :=
  match x with
  | S754_zero _ => Some 0
  | S754_finite s m e =>
      Some (cond_Zopp s (if 0 <=? e then Z.shiftl (Zpos m) e
                         else Z.shiftr (Zpos m) (- e)))
  | S754_infinity _ | S754_nan => None
  end.

(** [x < y] and [x <= y], for operands of one format. *)
Definition ltb (x y : spec_float) : bool := SFltb x y.
Definition leb (x y : spec_float) : bool := SFleb x y.

(** [x] is [+0], [-0], a positive finite number or [+inf]:
    exactly the values for which [x < 0] is false and [x] is a number. *)
Definition nonneg (x : spec_float) : bool :=
  match x with
  | S754_zero _ | S754_infinity false | S754_finite false _ _ => true
  | _ => false
  end.
End Flt.

Section FloatFormat.
(** [prec] bits of mantissa, infinities at exponent [emax]. *)
Variables prec emax : Z.

(** conversion of an integer, correctly rounded *)
Definition flt_of_Z (n : Z) : spec_float := binary_normalize prec emax n 0 false.

(** [std::floor] *)
Definition flt_floor (x : spec_float) : spec_float :=
  match x with
  | S754_finite s m e =>
      if 0 <=? e then x
      else binary_normalize prec emax (Z.shiftr (cond_Zopp s (Zpos m)) (- e)) 0 s
  | _ => x
  end.
End FloatFormat.

(** [float] *)
Module F32.
Definition prec : Z := 24.
Definition emax : Z := 128.
Definition of_Z := flt_of_Z prec emax.
Definition add := SFadd prec emax.
Definition sub := SFsub prec emax.
Definition mul := SFmul prec emax.
Definition div := SFdiv prec emax.
Definition floor := flt_floor prec emax.
End F32.

(** [double] *)
Module F64.
Definition prec : Z := 53.
Definition emax : Z := 1024.
Definition of_Z := flt_of_Z prec emax.
Definition add := SFadd prec emax.
Definition sub := SFsub prec emax.
Definition mul := SFmul prec emax.
Definition div := SFdiv prec emax.
(** The promotion of a [float] to [double]; it is exact. *)
Definition of_float (x : spec_float) : spec_float :=
  match x with
  | S754_finite s m e => binary_normalize prec emax (cond_Zopp s (Zpos m)) e s
  | _ => x
  end.
End F64.

(** ** Outcomes of a call *)

(** [std::to_string] of an unsigned number: its decimal digits. *)
Definition to_string (n : Z) : string := pretty n.

Inductive exn :=
| logic_error (what : string)      (* std::logic_error *)
| out_of_range (what : string)     (* std::out_of_range, derived from std::logic_error *)
| ie_exception (what : string).    (* an exception of the inference engine *)

(** [catch (const std::logic_error&)] catches both. *)
Definition is_logic_error (e : exn) : bool :=
  match e with
  | logic_error _ | out_of_range _ => true
  | ie_exception _ => false
  end.

Inductive Outcome (A : Type) :=
| Value (a : A)
| Thrown (e : exn)
| Undefined.
Arguments Value {A} a.
Arguments Thrown {A} e.
Arguments Undefined {A}.

#[global] Instance Outcome_ret : MRet Outcome := @Value.
#[global] Instance Outcome_bind : MBind Outcome := λ A B f m,
  match m with
  | Value a => f a
  | Thrown e => Thrown e
  | Undefined => Undefined
  end.

(** [static_cast<int>(x)] for a floating-point [x]. *)
Definition to_int (x : spec_float) : Outcome Z :=
  match Flt.trunc x with
  | Some v => if Int.in_range v then Value v else Undefined
  | None => Undefined
  end.

(** Checked [int] arithmetic. *)
Definition int_result (v : Z) : Outcome Z :=
  if Int.in_range v then Value v else Undefined.
Definition int_add (a b : Z) : Outcome Z := int_result (a + b).
Definition int_sub (a b : Z) : Outcome Z := int_result (a - b).
Definition int_mul (a b : Z) : Outcome Z := int_result (a * b).
(** [a / 2] and the like: C++ division truncates. *)
Definition int_div (a b : Z) : Outcome Z :=
  if b =? 0 then Undefined else int_result (Z.quot a b).

(** ** The inference engine, as far as the stages use it *)

Inductive Precision := FP32 | I32 | U8.

(** [cv::Mat]: only the size is inspected by this file. *)
Record Mat := { cols : Z; rows : Z; pixels : list Z }.

Inductive BlobData :=
| DataF32 (v : list spec_float)
| DataI32 (v : list Z)
| DataU8 (slots : list Mat).

(** A blob: its tensor descriptor and its memory.  [channels] is the value
    that [getTensorChannels] (utils/ocv_common.hpp, outside this file)
    reports for the descriptor, a [std::size_t]. *)
Record Blob := { dims : list Z; channels : Z; mem : BlobData }.

Definition Blobs := list (string * Blob).

Fixpoint find_blob (name : string) (bs : Blobs) : option Blob :=
  match bs with
  | [] => None
  | (n, b) :: bs' => if String.eqb n name then Some b else find_blob name bs'
  end.

Fixpoint store_blob (name : string) (b : Blob) (bs : Blobs) : Blobs :=
  match bs with
  | [] => []
  | (n, b0) :: bs' =>
      if String.eqb n name then (n, b) :: bs' else (n, b0) :: store_blob name b bs'
  end.

(** [InferenceEngine::ExecutableNetwork]: the blobs a fresh request owns and
    what one inference does to them (given the dynamic batch, if set). *)
Record ExecutableNetwork := {
  fresh_blobs : Blobs;
  forward : Blobs → option Z → Blobs
}.

(** [InferenceEngine::InferRequest] *)
Record InferRequest := {
  req_net : ExecutableNetwork;
  blobs : Blobs;
  dyn_batch : option Z;
  in_flight : bool
}.

Definition CreateInferRequest (n : ExecutableNetwork) : InferRequest :=
  {| req_net := n; blobs := fresh_blobs n; dyn_batch := None; in_flight := false |}.

Definition GetBlob (r : InferRequest) (name : string) : Outcome Blob :=
  match find_blob name (blobs r) with
  | Some b => Value b
  | None => Thrown (ie_exception "GetBlob: not found")
  end.

Definition SetBlobMemory (r : InferRequest) (name : string) (b : Blob) : InferRequest :=
  {| req_net := req_net r; blobs := store_blob name b (blobs r);
     dyn_batch := dyn_batch r; in_flight := in_flight r |}.

Definition SetBatch (r : InferRequest) (n : Z) : InferRequest :=
  {| req_net := req_net r; blobs := blobs r; dyn_batch := Some n;
     in_flight := in_flight r |}.

Definition Infer (r : InferRequest) : InferRequest :=
  {| req_net := req_net r; blobs := forward (req_net r) (blobs r) (dyn_batch r);
     dyn_batch := dyn_batch r; in_flight := false |}.

Definition StartAsync (r : InferRequest) : InferRequest :=
  {| req_net := req_net r; blobs := blobs r; dyn_batch := dyn_batch r;
     in_flight := true |}.

(** [Wait(RESULT_READY)]: the results of a started request become visible. *)
Definition Wait (r : InferRequest) : InferRequest :=
  if in_flight r then Infer r else r.

(** Reading element [i] of a mapped blob: [as<float*>()[i]]. *)
Definition read_f32 (b : Blob) (i : Z) : Outcome spec_float :=
  match mem b with
  | DataF32 v =>
      if i <? 0 then Undefined
      else match v !! Z.to_nat i with
           | Some x => Value x
           | None => Undefined
           end
  | _ => Undefined
  end.

(** [as<int32_t*>()[i]] *)
Definition read_i32 (b : Blob) (i : Z) : Outcome Z :=
  match mem b with
  | DataI32 v =>
      if i <? 0 then Undefined
      else match v !! Z.to_nat i with
           | Some x => Value x
           | None => Undefined
           end
  | _ => Undefined
  end.

(** Calls made on the engine, its networks and requests, in order. *)
Inductive BackendCall :=
| CallReadNetwork (path : string)
| CallLoadNetwork (device : string)
| CallCreateInferRequest
| CallGetBlob (name : string)
| CallSetBatch (n : Z)
| CallStartAsync
| CallInfer
| CallWait.

(** Lines written to [slog]; numbers are kept as numbers. *)
Inductive LogEvent :=
| LogAsyncMode (topo : string)
| LogDisabled (topo : string)
| LogTooManyFaces (maxBatch : Z) (who : string)
| LogDetection (i label : Z) (conf : spec_float) (x y w h : Z) (rendered : bool)
| LogNetworkInfo (path device topo : string)
| LogBatchSize (maxBatch : Z).

(** [matToBlob] (utils/ocv_common.hpp) is outside this file: it copies an
    image into the slot [batchIndex] of an input blob. *)
Class OcvCommon := {
  matToBlob : Mat → Blob → Z → Blob
}.

(** ** BaseDetection *)

Module BaseDetection.

Record t := {
  topoName : string;
  pathToModel : string;
  deviceForInference : string;
  maxBatch : Z;
  isBatchDynamic : bool;
  isAsync : bool;
  enablingChecked : bool;          (* mutable *)
  _enabled : bool;                 (* mutable *)
  doRawOutputMessages : bool;
  net : option ExecutableNetwork;  (* [None]: not loaded *)
  request : option InferRequest;   (* [None]: nullptr *)
  calls : list BackendCall;        (* calls made on the engine so far *)
  slog : list LogEvent             (* lines logged so far *)
}.

Definition set_enabling (checked en : bool) (b : t) : t :=
  {| topoName := topoName b; pathToModel := pathToModel b;
     deviceForInference := deviceForInference b; maxBatch := maxBatch b;
     isBatchDynamic := isBatchDynamic b; isAsync := isAsync b;
     enablingChecked := checked; _enabled := en;
     doRawOutputMessages := doRawOutputMessages b;
     net := net b; request := request b; calls := calls b; slog := slog b |}.

Definition set_net (n : option ExecutableNetwork) (b : t) : t :=
  {| topoName := topoName b; pathToModel := pathToModel b;
     deviceForInference := deviceForInference b; maxBatch := maxBatch b;
     isBatchDynamic := isBatchDynamic b; isAsync := isAsync b;
     enablingChecked := enablingChecked b; _enabled := _enabled b;
     doRawOutputMessages := doRawOutputMessages b;
     net := n; request := request b; calls := calls b; slog := slog b |}.

Definition set_request (r : option InferRequest) (b : t) : t :=
  {| topoName := topoName b; pathToModel := pathToModel b;
     deviceForInference := deviceForInference b; maxBatch := maxBatch b;
     isBatchDynamic := isBatchDynamic b; isAsync := isAsync b;
     enablingChecked := enablingChecked b; _enabled := _enabled b;
     doRawOutputMessages := doRawOutputMessages b;
     net := net b; request := r; calls := calls b; slog := slog b |}.

Definition called (c : BackendCall) (b : t) : t :=
  {| topoName := topoName b; pathToModel := pathToModel b;
     deviceForInference := deviceForInference b; maxBatch := maxBatch b;
     isBatchDynamic := isBatchDynamic b; isAsync := isAsync b;
     enablingChecked := enablingChecked b; _enabled := _enabled b;
     doRawOutputMessages := doRawOutputMessages b;
     net := net b; request := request b; calls := calls b ++ [c]; slog := slog b |}.

Definition logged (l : LogEvent) (b : t) : t :=
  {| topoName := topoName b; pathToModel := pathToModel b;
     deviceForInference := deviceForInference b; maxBatch := maxBatch b;
     isBatchDynamic := isBatchDynamic b; isAsync := isAsync b;
     enablingChecked := enablingChecked b; _enabled := _enabled b;
     doRawOutputMessages := doRawOutputMessages b;
     net := net b; request := request b; calls := calls b; slog := slog b ++ [l] |}.

(** The constructor. *)
Definition make (topoName pathToModel deviceForInference : string)
    (maxBatch : Z) (isBatchDynamic isAsync doRawOutputMessages : bool) : t :=
  {| topoName := topoName; pathToModel := pathToModel;
     deviceForInference := deviceForInference; maxBatch := maxBatch;
     isBatchDynamic := isBatchDynamic; isAsync := isAsync;
     enablingChecked := false; _enabled := false;
     doRawOutputMessages := doRawOutputMessages;
     net := None; request := None; calls := [];
     slog := if isAsync then [LogAsyncMode topoName] else [] |}.

(** [enabled() const]: computes the flag on the first call and caches it. *)
Definition enabled (b : t) : bool * t :=
  if enablingChecked b then (_enabled b, b)
  else
    let en := negb (String.eqb (pathToModel b) "") in
    let b1 := set_enabling (enablingChecked b) en b in
    let b2 := if en then b1 else logged (LogDisabled (topoName b)) b1 in
    (en, set_enabling true en b2).

Definition submitRequest (b : t) : t :=
  let '(en, b) := enabled b in
  if negb en then b
  else match request b with
       | None => b
       | Some r =>
           if isAsync b
           then called CallStartAsync (set_request (Some (StartAsync r)) b)
           else called CallInfer (set_request (Some (Infer r)) b)
       end.

Definition wait (b : t) : t :=
  let '(en, b) := enabled b in
  if negb en then b
  else match request b with
       | None => b
       | Some r =>
           if negb (isAsync b) then b
           else called CallWait (set_request (Some (Wait r)) b)
       end.

End BaseDetection.

(** ** Networks as read from a model file *)

Record DataInfo := { precision : Precision; info_dims : list Z }.

(** [InputsDataMap] and [OutputsDataMap] are [std::map]s: the lists hold
    their entries in iteration order, [begin()] is the head. *)
Record CNNNetwork := {
  batchSize : Z;
  inputsInfo : list (string * DataInfo);
  outputsInfo : list (string * DataInfo)
}.

Definition setBatchSize (n : Z) (c : CNNNetwork) : CNNNetwork :=
  {| batchSize := n; inputsInfo := inputsInfo c; outputsInfo := outputsInfo c |}.

Definition setPrecision (p : Precision) (i : DataInfo) : DataInfo :=
  {| precision := p; info_dims := info_dims i |}.

Definition setInputPrecision (name : string) (p : Precision) (c : CNNNetwork) : CNNNetwork :=
  {| batchSize := batchSize c;
     inputsInfo := map (λ e, if String.eqb (fst e) name
                              then (fst e, setPrecision p (snd e)) else e) (inputsInfo c);
     outputsInfo := outputsInfo c |}.

Definition setOutputPrecision (name : string) (p : Precision) (c : CNNNetwork) : CNNNetwork :=
  {| batchSize := batchSize c;
     inputsInfo := inputsInfo c;
     outputsInfo := map (λ e, if String.eqb (fst e) name
                               then (fst e, setPrecision p (snd e)) else e) (outputsInfo c) |}.

(** [InferenceEngine::Core] *)
Record Core := {
  ReadNetwork : string → Outcome CNNNetwork;
  LoadNetwork : CNNNetwork → string → list (string * string) → Outcome ExecutableNetwork
}.

(** What [Load] needs of a detector: its [BaseDetection] part and the
    virtual [read]. *)
Class Detection (T : Type) := {
  base : T → BaseDetection.t;
  with_base : BaseDetection.t → T → T;
  read : Core → T → Outcome (CNNNetwork * T)
}.

(** [deviceName.find(s) != std::string::npos] *)
Definition contains (s deviceName : string) : bool :=
  match String.index 0 s deviceName with
  | Some _ => true
  | None => false
  end.

Module Load.
Import BaseDetection.

Definition into {T} `{Detection T} (ie : Core) (deviceName : string)
    (enable_dynamic_batch : bool) (detector : T) : Outcome T :=
  let '(en, b) := enabled (base detector) in
  let detector := with_base b detector in
  if en then
    let isPossibleDynBatch := contains "CPU" deviceName || contains "GPU" deviceName in
    let config :=
      if enable_dynamic_batch && isPossibleDynBatch
      then [("DYN_BATCH_ENABLED", "YES")] else [] in
    '(network, detector) ← read ie detector;
    n ← LoadNetwork ie network deviceName config;
    let b := called (CallLoadNetwork deviceName) (base detector) in
    let b := set_net (Some n) b in
    let b := logged (LogNetworkInfo (pathToModel b) deviceName (topoName b)) b in
    let b := logged (LogBatchSize (maxBatch b)) b in
    Value (with_base b detector)
  else Value detector.
End Load.

(** ** The face-attribute stages

    [AntispoofingClassifier], [AgeGenderDetection], [HeadPoseDetection],
    [EmotionsDetection] and [FacialLandmarksDetection] each declare
    [input], [enquedFaces] and their own output names, and each define
    [submitRequest] and [enqueue] with the same body; only the text of the
    capacity warning differs.  [D] holds the fields that differ. *)

Record Stage (D : Type) := {
  sbase : BaseDetection.t;
  input : string;
  enquedFaces : Z;
  self : D
}.
Arguments sbase {D} _.
Arguments input {D} _.
Arguments enquedFaces {D} _.
Arguments self {D} _.

Module Stage.
Import BaseDetection.

Section Common.
Context {D : Type} `{OcvCommon}.

Definition set_base (b : BaseDetection.t) (s : Stage D) : Stage D :=
  {| sbase := b; input := input s; enquedFaces := enquedFaces s; self := self s |}.

Definition set_enquedFaces (n : Z) (s : Stage D) : Stage D :=
  {| sbase := sbase s; input := input s; enquedFaces := n; self := self s |}.

Definition set_input (i : string) (s : Stage D) : Stage D :=
  {| sbase := sbase s; input := i; enquedFaces := enquedFaces s; self := self s |}.

Definition set_self (d : D) (s : Stage D) : Stage D :=
  {| sbase := sbase s; input := input s; enquedFaces := enquedFaces s; self := d |}.

(** The constructor of each of the five classes. *)
Definition make (topoName pathToModel deviceForInference : string)
    (maxBatch : Z) (isBatchDynamic isAsync doRawOutputMessages : bool)
    (d : D) : Stage D :=
  {| sbase := BaseDetection.make topoName pathToModel deviceForInference
                maxBatch isBatchDynamic isAsync doRawOutputMessages;
     input := ""; enquedFaces := 0; self := d |}.

Definition submitRequest (s : Stage D) : Outcome (Stage D) :=
  if enquedFaces s =? 0 then Value s
  else
    b ← (if isBatchDynamic (sbase s) then
           match request (sbase s) with
           | None => Undefined
           | Some r =>
               Value (called (CallSetBatch (enquedFaces s))
                        (set_request (Some (SetBatch r (enquedFaces s))) (sbase s)))
           end
         else Value (sbase s));
    Value (set_enquedFaces 0 (set_base (BaseDetection.submitRequest b) s)).

(** [who] is the name the warning gives to the network. *)
Definition enqueue (who : string) (face : Mat) (s : Stage D) : Outcome (Stage D) :=
  let '(en, b) := enabled (sbase s) in
  if negb en then Value (set_base b s)
  else if enquedFaces s =? maxBatch b then
    Value (set_base (logged (LogTooManyFaces (maxBatch b) who) b) s)
  else
    '(r, b) ← match request b with
              | Some r => Value (r, b)
              | None =>
                  match net b with
                  | Some n => Value (CreateInferRequest n, called CallCreateInferRequest b)
                  | None => Thrown (ie_exception "CreateInferRequest: network not loaded")
                  end
              end;
    let b := set_request (Some r) b in
    inputBlob ← GetBlob r (input s);
    let b := called (CallGetBlob (input s)) b in
    let r := SetBlobMemory r (input s) (matToBlob face inputBlob (enquedFaces s)) in
    n ← int_add (enquedFaces s) 1;
    Value (set_enquedFaces n (set_base (set_request (Some r) b) s)).

(** [wait] is inherited. *)
Definition wait (s : Stage D) : Stage D :=
  set_base (BaseDetection.wait (sbase s)) s.

(** The request of a stage, dereferenced. *)
Definition deref_request (s : Stage D) : Outcome InferRequest :=
  match request (sbase s) with
  | Some r => Value r
  | None => Undefined
  end.
End Common.
End Stage.

(** The opening of every [read] of the five stages: read the model, set
    the batch size, require exactly one input, make it [U8] and remember
    its name.  [topo] is the name used in the message. *)
Definition read_one_input {D} (topo : string) (ie : Core) (s : Stage D)
    : Outcome (CNNNetwork * Stage D) :=
  let b := sbase s in
  network ← ReadNetwork ie (BaseDetection.pathToModel b);
  let s := Stage.set_base
             (BaseDetection.called (CallReadNetwork (BaseDetection.pathToModel b)) b) s in
  let network := setBatchSize (BaseDetection.maxBatch b) network in
  match inputsInfo network with
  | [(name, _)] => Value (setInputPrecision name U8 network, Stage.set_input name s)
  | _ => Thrown (logic_error (topo ++ " network should have only one input"))
  end.

(** [_enabled = true;] at the end of a [read]. *)
Definition mark_enabled {D} (s : Stage D) : Stage D :=
  Stage.set_base
    (BaseDetection.set_enabling (BaseDetection.enablingChecked (sbase s)) true (sbase s)) s.

(** In the [read]s below, [getName()] of an output is the key under which
    the output map holds it. *)

Module AntispoofingClassifier.
Record fields := { prob_output : string }.
Definition t := Stage fields.

Definition make (pathToModel deviceForInference : string) (maxBatch : Z)
    (isBatchDynamic isAsync doRawOutputMessages : bool) : t :=
  Stage.make "Antispoofing" pathToModel deviceForInference maxBatch
    isBatchDynamic isAsync doRawOutputMessages {| prob_output := "" |}.

Definition submitRequest : t → Outcome t := Stage.submitRequest.
Definition enqueue `{OcvCommon} : Mat → t → Outcome t :=
  Stage.enqueue "Antispoofing Classifier network".

(** [operator[]] *)
Definition decode (s : t) (idx : Z) : Outcome spec_float :=
  r ← Stage.deref_request s;
  ProbBlob ← GetBlob r (prob_output (self s));
  i ← int_mul 2 idx;
  v ← read_f32 ProbBlob i;
  Value (F32.mul v (F32.of_Z 100)).

Definition read (ie : Core) (s : t) : Outcome (CNNNetwork * t) :=
  '(network, s) ← read_one_input "Antispoofing Classifier" ie s;
  match outputsInfo network with
  | [(name, _)] =>
      Value (network, mark_enabled (Stage.set_self {| prob_output := name |} s))
  | _ => Thrown (logic_error "Antispoofing Classifier network should have one output layers")
  end.
End AntispoofingClassifier.

Module AgeGenderDetection.
Record fields := { outputAge : string; outputGender : string }.
Definition t := Stage fields.
Record Result := { age : spec_float; maleProb : spec_float }.

Definition make (pathToModel deviceForInference : string) (maxBatch : Z)
    (isBatchDynamic isAsync doRawOutputMessages : bool) : t :=
  Stage.make "Age/Gender Recognition" pathToModel deviceForInference maxBatch
    isBatchDynamic isAsync doRawOutputMessages
    {| outputAge := ""; outputGender := "" |}.

Definition submitRequest : t → Outcome t := Stage.submitRequest.
Definition enqueue `{OcvCommon} : Mat → t → Outcome t :=
  Stage.enqueue "Age/Gender Recognition network".

(** [operator[]] *)
Definition decode (s : t) (idx : Z) : Outcome Result :=
  r ← Stage.deref_request s;
  genderBlob ← GetBlob r (outputGender (self s));
  ageBlob ← GetBlob r (outputAge (self s));
  a ← read_f32 ageBlob idx;
  i ← int_mul idx 2;
  i ← int_add i 1;
  g ← read_f32 genderBlob i;
  Value {| age := F32.mul a (F32.of_Z 100); maleProb := g |}.

Definition read (ie : Core) (s : t) : Outcome (CNNNetwork * t) :=
  '(network, s) ← read_one_input "Age/Gender Recognition" ie s;
  match outputsInfo network with
  | [(nameAge, _); (nameGender, _)] =>
      Value (network,
             mark_enabled
               (Stage.set_self {| outputAge := nameAge; outputGender := nameGender |} s))
  | _ => Thrown (logic_error "Age/Gender Recognition network should have two output layers")
  end.
End AgeGenderDetection.

Module HeadPoseDetection.
Record fields := { outputAngleR : string; outputAngleP : string; outputAngleY : string }.
Definition t := Stage fields.
Record Results := { angle_r : spec_float; angle_p : spec_float; angle_y : spec_float }.

Definition make (pathToModel deviceForInference : string) (maxBatch : Z)
    (isBatchDynamic isAsync doRawOutputMessages : bool) : t :=
  Stage.make "Head Pose Estimation" pathToModel deviceForInference maxBatch
    isBatchDynamic isAsync doRawOutputMessages
    {| outputAngleR := "angle_r_fc"; outputAngleP := "angle_p_fc";
       outputAngleY := "angle_y_fc" |}.

Definition submitRequest : t → Outcome t := Stage.submitRequest.
Definition enqueue `{OcvCommon} : Mat → t → Outcome t :=
  Stage.enqueue "Head Pose estimator".

(** [operator[]] *)
Definition decode (s : t) (idx : Z) : Outcome Results :=
  r ← Stage.deref_request s;
  angleR ← GetBlob r (outputAngleR (self s));
  angleP ← GetBlob r (outputAngleP (self s));
  angleY ← GetBlob r (outputAngleY (self s));
  vr ← read_f32 angleR idx;
  vp ← read_f32 angleP idx;
  vy ← read_f32 angleY idx;
  Value {| angle_r := vr; angle_p := vp; angle_y := vy |}.

Fixpoint all_fp32 (outs : list (string * DataInfo)) : list (string * DataInfo) :=
  match outs with
  | [] => []
  | (n, d) :: outs' => (n, setPrecision FP32 d) :: all_fp32 outs'
  end.

Fixpoint has_output (name : string) (outs : list (string * DataInfo)) : bool :=
  match outs with
  | [] => false
  | (n, _) :: outs' => String.eqb n name || has_output name outs'
  end.

Fixpoint first_missing (names : list string) (outs : list (string * DataInfo))
    : option string :=
  match names with
  | [] => None
  | n :: names' => if has_output n outs then first_missing names' outs else Some n
  end.

Definition read (ie : Core) (s : t) : Outcome (CNNNetwork * t) :=
  '(network, s) ← read_one_input "Head Pose Estimation" ie s;
  let network := {| batchSize := batchSize network; inputsInfo := inputsInfo network;
                    outputsInfo := all_fp32 (outputsInfo network) |} in
  match first_missing [outputAngleR (self s); outputAngleP (self s); outputAngleY (self s)]
          (outputsInfo network) with
  | Some outName =>
      Thrown (logic_error ("There is no " ++ outName ++ " output in Head Pose Estimation network"))
  | None => Value (network, mark_enabled s)
  end.
End HeadPoseDetection.

Module EmotionsDetection.
(** [emotionsVec] is a constant member declared in detectors.hpp. *)
Record fields := { outputEmotions : string; emotionsVec : list string }.
Definition t := Stage fields.

Definition make (emotionsVec : list string) (pathToModel deviceForInference : string)
    (maxBatch : Z) (isBatchDynamic isAsync doRawOutputMessages : bool) : t :=
  Stage.make "Emotions Recognition" pathToModel deviceForInference maxBatch
    isBatchDynamic isAsync doRawOutputMessages
    {| outputEmotions := ""; emotionsVec := emotionsVec |}.

Definition submitRequest : t → Outcome t := Stage.submitRequest.
Definition enqueue `{OcvCommon} : Mat → t → Outcome t :=
  Stage.enqueue "Emotions Recognition network".

(** The loop [emotions[emotionsVec[i]] = outputIdxPos[i]], from [i] on;
    [pos] is the offset of [outputIdxPos] in the blob. *)
Fixpoint fill (labels : list string) (emotionsBlob : Blob) (pos i : Z)
    (emotions : gmap string spec_float) : Outcome (gmap string spec_float) :=
  match labels with
  | [] => Value emotions
  | l :: labels' =>
      v ← read_f32 emotionsBlob (pos + i);
      fill labels' emotionsBlob pos (i + 1) (<[l := v]> emotions)
  end.

(** [operator[]] *)
Definition decode (s : t) (idx : Z) : Outcome (gmap string spec_float) :=
  let emotionsVecSize := Z.of_nat (length (emotionsVec (self s))) in
  r ← Stage.deref_request s;
  emotionsBlob ← GetBlob r (outputEmotions (self s));
  numOfChannels ← match dims emotionsBlob !! 1%nat with
                  | Some c => Value c
                  | None => Thrown (out_of_range "vector::at")
                  end;
  if negb (numOfChannels =? emotionsVecSize) then
    Thrown (logic_error ("Output size (" ++ to_string numOfChannels
                         ++ ") of the Emotions Recognition network is not equal to used emotions vector size ("
                         ++ to_string emotionsVecSize ++ ")"))
  else
    let pos := SizeT.mul (SizeT.wrap idx) emotionsVecSize in
    fill (emotionsVec (self s)) emotionsBlob pos 0 ∅.

Definition read (ie : Core) (s : t) : Outcome (CNNNetwork * t) :=
  '(network, s) ← read_one_input "Emotions Recognition" ie s;
  match outputsInfo network with
  | [(name, _)] =>
      let network := setOutputPrecision name FP32 network in
      Value (network,
             mark_enabled
               (Stage.set_self {| outputEmotions := name;
                                  emotionsVec := emotionsVec (self s) |} s))
  | _ => Thrown (logic_error "Emotions Recognition network should have one output layer")
  end.
End EmotionsDetection.

Module FacialLandmarksDetection.
Record fields := { outputFacialLandmarksBlobName : string }.
Definition t := Stage fields.

Definition make (pathToModel deviceForInference : string) (maxBatch : Z)
    (isBatchDynamic isAsync doRawOutputMessages : bool) : t :=
  Stage.make "Facial Landmarks Estimation" pathToModel deviceForInference maxBatch
    isBatchDynamic isAsync doRawOutputMessages
    {| outputFacialLandmarksBlobName := "align_fc3" |}.

Definition submitRequest : t → Outcome t := Stage.submitRequest.
Definition enqueue `{OcvCommon} : Mat → t → Outcome t :=
  Stage.enqueue "Facial Landmarks estimator".

(** The loop over [i_lm], with [n] iterations left. *)
Fixpoint collect (n : nat) (landmarksBlob : Blob) (i_lm : Z)
    (normedLandmarks : list spec_float) : Outcome (list spec_float) :=
  match n with
  | O => Value normedLandmarks
  | S n' =>
      normed_x ← read_f32 landmarksBlob (SizeT.mul 2 i_lm);
      normed_y ← read_f32 landmarksBlob (SizeT.add (SizeT.mul 2 i_lm) 1);
      collect n' landmarksBlob (i_lm + 1) (normedLandmarks ++ [normed_x; normed_y])
  end.

(** [operator[]] *)
Definition decode (s : t) (idx : Z) : Outcome (list spec_float) :=
  r ← Stage.deref_request s;
  landmarksBlob ← GetBlob r (outputFacialLandmarksBlobName (self s));
  let n_lm := channels landmarksBlob in
  mapped ← GetBlob r (outputFacialLandmarksBlobName (self s));
  let begin := SizeT.mul (n_lm / 2) (SizeT.wrap idx) in
  let end_ := SizeT.add begin (n_lm / 2) in
  collect (Z.to_nat (end_ - begin)) mapped begin [].

(** The test on the shape of the output:
    [outSizeVector.size() != 2 && outSizeVector.back() != 70]. *)
Definition bad_shape (outSizeVector : list Z) : Outcome bool :=
  if negb (Z.of_nat (length outSizeVector) =? 2) then
    match last outSizeVector with
    | Some back => Value (negb (back =? 70))
    | None => Undefined
    end
  else Value false.

Definition read (ie : Core) (s : t) : Outcome (CNNNetwork * t) :=
  '(network, s) ← read_one_input "Facial Landmarks Estimation" ie s;
  match outputsInfo network with
  | [] => Undefined
  | (outName, data) :: _ =>
      if negb (String.eqb outName (outputFacialLandmarksBlobName (self s))) then
        Thrown (logic_error ("Facial Landmarks Estimation network output layer unknown: "
                             ++ outName ++ ", should be "
                             ++ outputFacialLandmarksBlobName (self s)))
      else
        let network := setOutputPrecision outName FP32 network in
        bad_shape (info_dims data) ≫= λ bad : bool,
        if bad then
          Thrown (logic_error "Facial Landmarks Estimation network output layer should have 2 dimensions and 70 as the last dimension")
        else Value (network, mark_enabled s)
  end.
End FacialLandmarksDetection.

(** Each of the five classes overrides [read]. *)
Definition stage_detection {D} (rd : Core → Stage D → Outcome (CNNNetwork * Stage D))
    : Detection (Stage D) :=
  {| base := sbase; with_base := Stage.set_base; read := rd |}.

#[global] Instance Antispoofing_Detection : Detection AntispoofingClassifier.t :=
  stage_detection AntispoofingClassifier.read.
#[global] Instance AgeGender_Detection : Detection AgeGenderDetection.t :=
  stage_detection AgeGenderDetection.read.
#[global] Instance HeadPose_Detection : Detection HeadPoseDetection.t :=
  stage_detection HeadPoseDetection.read.
#[global] Instance Emotions_Detection : Detection EmotionsDetection.t :=
  stage_detection EmotionsDetection.read.
#[global] Instance FacialLandmarks_Detection : Detection FacialLandmarksDetection.t :=
  stage_detection FacialLandmarksDetection.read.

(** ** FaceDetection *)

(** [cv::Rect] *)
Module Rect.
Record t := { x : Z; y : Z; width : Z; height : Z }.
End Rect.

(** Conversion of a [size_t] to [int]. *)
Definition narrow_int (v : Z) : Z := (v + 2 ^ 31) mod 2 ^ 32 - 2 ^ 31.

(** [v[i]] on a [std::vector]: no bounds check. *)
Definition vec_at (v : list Z) (i : nat) : Outcome Z :=
  match v !! i with
  | Some a => Value a
  | None => Undefined
  end.

Module FaceDetection.
Import BaseDetection.

Record Result := { label : Z; confidence : spec_float; location : Rect.t }.

Record t := {
  fbase : BaseDetection.t;
  input : string;
  output : string;
  labels_output : string;
  detectionThreshold : spec_float;       (* double *)
  maxProposalCount : Z;
  objectSize : Z;
  enquedFrames : Z;
  width : spec_float;                    (* float *)
  height : spec_float;
  network_input_width : spec_float;
  network_input_height : spec_float;
  bb_enlarge_coefficient : spec_float;
  bb_dx_coefficient : spec_float;
  bb_dy_coefficient : spec_float;
  resultsFetched : bool;
  results : list Result
}.

Definition set_base (b : BaseDetection.t) (f : t) : t :=
  {| fbase := b; input := input f; output := output f;
     labels_output := labels_output f; detectionThreshold := detectionThreshold f;
     maxProposalCount := maxProposalCount f; objectSize := objectSize f;
     enquedFrames := enquedFrames f; width := width f; height := height f;
     network_input_width := network_input_width f;
     network_input_height := network_input_height f;
     bb_enlarge_coefficient := bb_enlarge_coefficient f;
     bb_dx_coefficient := bb_dx_coefficient f;
     bb_dy_coefficient := bb_dy_coefficient f;
     resultsFetched := resultsFetched f; results := results f |}.

(** [width], [height] and [enquedFrames] *)
Definition set_frame (w h : spec_float) (n : Z) (f : t) : t :=
  {| fbase := fbase f; input := input f; output := output f;
     labels_output := labels_output f; detectionThreshold := detectionThreshold f;
     maxProposalCount := maxProposalCount f; objectSize := objectSize f;
     enquedFrames := n; width := w; height := h;
     network_input_width := network_input_width f;
     network_input_height := network_input_height f;
     bb_enlarge_coefficient := bb_enlarge_coefficient f;
     bb_dx_coefficient := bb_dx_coefficient f;
     bb_dy_coefficient := bb_dy_coefficient f;
     resultsFetched := resultsFetched f; results := results f |}.

(** [resultsFetched] and [results] *)
Definition set_fetch (fetched : bool) (res : list Result) (f : t) : t :=
  {| fbase := fbase f; input := input f; output := output f;
     labels_output := labels_output f; detectionThreshold := detectionThreshold f;
     maxProposalCount := maxProposalCount f; objectSize := objectSize f;
     enquedFrames := enquedFrames f; width := width f; height := height f;
     network_input_width := network_input_width f;
     network_input_height := network_input_height f;
     bb_enlarge_coefficient := bb_enlarge_coefficient f;
     bb_dx_coefficient := bb_dx_coefficient f;
     bb_dy_coefficient := bb_dy_coefficient f;
     resultsFetched := fetched; results := res |}.

(** What [read] learns about the network. *)
Definition set_contract (inp out lab : string) (count size : Z)
    (niw nih : spec_float) (f : t) : t :=
  {| fbase := fbase f; input := inp; output := out;
     labels_output := lab; detectionThreshold := detectionThreshold f;
     maxProposalCount := count; objectSize := size;
     enquedFrames := enquedFrames f; width := width f; height := height f;
     network_input_width := niw; network_input_height := nih;
     bb_enlarge_coefficient := bb_enlarge_coefficient f;
     bb_dx_coefficient := bb_dx_coefficient f;
     bb_dy_coefficient := bb_dy_coefficient f;
     resultsFetched := resultsFetched f; results := results f |}.

(** The constructor. *)
Definition make (pathToModel deviceForInference : string) (maxBatch : Z)
    (isBatchDynamic isAsync : bool) (detectionThreshold : spec_float)
    (doRawOutputMessages : bool)
    (bb_enlarge_coefficient bb_dx_coefficient bb_dy_coefficient : spec_float) : t :=
  {| fbase := BaseDetection.make "Face Detection" pathToModel deviceForInference
                maxBatch isBatchDynamic isAsync doRawOutputMessages;
     input := ""; output := ""; labels_output := "";
     detectionThreshold := detectionThreshold;
     maxProposalCount := 0; objectSize := 0; enquedFrames := 0;
     width := F32.of_Z 0; height := F32.of_Z 0;
     network_input_width := F32.of_Z 0; network_input_height := F32.of_Z 0;
     bb_enlarge_coefficient := bb_enlarge_coefficient;
     bb_dx_coefficient := bb_dx_coefficient;
     bb_dy_coefficient := bb_dy_coefficient;
     resultsFetched := false; results := [] |}.

Definition submitRequest (f : t) : t :=
  if enquedFrames f =? 0 then f
  else
    let f := set_frame (width f) (height f) 0 f in
    let f := set_fetch false [] f in
    set_base (BaseDetection.submitRequest (fbase f)) f.

Definition wait (f : t) : t := set_base (BaseDetection.wait (fbase f)) f.

Definition enqueue `{OcvCommon} (frame : Mat) (f : t) : Outcome t :=
  let '(en, b) := enabled (fbase f) in
  if negb en then Value (set_base b f)
  else
    '(r, b) ← match request b with
              | Some r => Value (r, b)
              | None =>
                  match net b with
                  | Some n => Value (CreateInferRequest n, called CallCreateInferRequest b)
                  | None => Thrown (ie_exception "CreateInferRequest: network not loaded")
                  end
              end;
    let b := set_request (Some r) b in
    let w := F32.of_Z (cols frame) in
    let h := F32.of_Z (rows frame) in
    inputBlob ← GetBlob r (input f);
    let b := called (CallGetBlob (input f)) b in
    let r := SetBlobMemory r (input f) (matToBlob frame inputBlob 0) in
    Value (set_frame w h 1 (set_base (set_request (Some r) b) f)).

(** The fold over the outputs when there are several. *)
Fixpoint scan_outputs (outs : list (string * DataInfo))
    (acc : string * string * Z * Z * list (string * DataInfo))
    : Outcome (string * string * Z * Z * list (string * DataInfo)) :=
  match outs with
  | [] => Value acc
  | (name, d) :: outs' =>
      let '(out, lab, count, size, seen) := acc in
      let outputDims := info_dims d in
      if (Z.of_nat (length outputDims) =? 2) && bool_decide (last outputDims = Some 5) then
        n ← vec_at outputDims 0;
        scan_outputs outs' (name, lab, narrow_int n, narrow_int 5,
                            seen ++ [(name, setPrecision FP32 d)])
      else if (Z.of_nat (length outputDims) =? 1)
              && match precision d with I32 => true | _ => false end then
        scan_outputs outs' (out, name, count, size, seen ++ [(name, d)])
      else scan_outputs outs' (out, lab, count, size, seen ++ [(name, d)])
  end.

Definition read (ie : Core) (f : t) : Outcome (CNNNetwork * t) :=
  let b := fbase f in
  network ← ReadNetwork ie (pathToModel b);
  let f := set_base (called (CallReadNetwork (pathToModel b)) b) f in
  let network := setBatchSize (maxBatch b) network in
  match inputsInfo network with
  | [(inName, inputInfoFirst)] =>
      let network := setInputPrecision inName U8 network in
      let inputDims := info_dims inputInfoFirst in
      h ← vec_at inputDims 2;
      w ← vec_at inputDims 3;
      let nih := F32.of_Z h in
      let niw := F32.of_Z w in
      match outputsInfo network with
      | [(outName, _output)] =>
          let outputDims := info_dims _output in
          count ← vec_at outputDims 2;
          size ← vec_at outputDims 3;
          let f := set_contract (input f) outName (labels_output f)
                     (narrow_int count) (narrow_int size) niw nih f in
          if negb (objectSize f =? 7) then
            Thrown (logic_error "Face Detection network output layer should have 7 as a last dimension")
          else if negb (Z.of_nat (length outputDims) =? 4) then
            Thrown (logic_error ("Face Detection network output should have 4 dimentions, but had "
                                 ++ to_string (Z.of_nat (length outputDims))))
          else
            Value (setOutputPrecision outName FP32 network,
                   set_contract inName (output f) (labels_output f)
                     (maxProposalCount f) (objectSize f) niw nih f)
      | outs =>
          '(out, lab, count, size, seen) ←
            scan_outputs outs (output f, labels_output f,
                               maxProposalCount f, objectSize f, []);
          if String.eqb out "" || String.eqb lab "" then
            Thrown (logic_error "Face Detection network must contain either single DetectionOutput or 'boxes' [nx5] and 'labels' [n] at least, where 'n' is a number of detected objects.")
          else
            Value ({| batchSize := batchSize network; inputsInfo := inputsInfo network;
                      outputsInfo := seen |},
                   set_contract inName out lab count size niw nih f)
      end
  | _ => Thrown (logic_error "Face Detection network should have only one input")
  end.

(** "Make square and enlarge face bounding box": the block that both loops
    of [fetchResults] apply to [r.location]. *)
Definition enlarge (f : t) (loc : Rect.t) : Outcome Rect.t :=
  let bb_width := Rect.width loc in
  let bb_height := Rect.height loc in
  half_w ← int_div bb_width 2;
  bb_center_x ← int_add (Rect.x loc) half_w;
  half_h ← int_div bb_height 2;
  bb_center_y ← int_add (Rect.y loc) half_h;
  let max_of_sizes := Z.max bb_width bb_height in
  bb_new_width ← to_int (F32.mul (bb_enlarge_coefficient f) (F32.of_Z max_of_sizes));
  bb_new_height ← to_int (F32.mul (bb_enlarge_coefficient f) (F32.of_Z max_of_sizes));
  off_x ← to_int (F32.floor (F32.div (F32.mul (bb_dx_coefficient f) (F32.of_Z bb_new_width))
                                     (F32.of_Z 2)));
  new_x ← int_sub bb_center_x off_x;
  off_y ← to_int (F32.floor (F32.div (F32.mul (bb_dy_coefficient f) (F32.of_Z bb_new_height))
                                     (F32.of_Z 2)));
  new_y ← int_sub bb_center_y off_y;
  Value {| Rect.x := new_x; Rect.y := new_y;
           Rect.width := bb_new_width; Rect.height := bb_new_height |}.

(** [detections[i * objectSize + k]] *)
Definition detection_at (f : t) (detections : Blob) (i k : Z) : Outcome spec_float :=
  j ← int_mul i (objectSize f);
  j ← int_add j k;
  read_f32 detections j.

(** The end of both loop bodies: the debug line and the [push_back]. *)
Definition emit (f : t) (i : Z) (r : Result) (acc : list Result * list LogEvent)
    : list Result * list LogEvent :=
  let rendered := Flt.ltb (detectionThreshold f) (F64.of_float (confidence r)) in
  let lg :=
    if doRawOutputMessages (fbase f)
    then snd acc ++ [LogDetection i (label r) (confidence r)
                       (Rect.x (location r)) (Rect.y (location r))
                       (Rect.width (location r)) (Rect.height (location r)) rendered]
    else snd acc in
  (if rendered then fst acc ++ [r] else fst acc, lg).

(** The loop over the boxes-and-labels output, with [n] proposals left. *)
Fixpoint loop_boxes (f : t) (detections labels : Blob) (n : nat) (i : Z)
    (acc : list Result * list LogEvent) : Outcome (list Result * list LogEvent) :=
  match n with
  | O => Value acc
  | S n' =>
      if negb (objectSize f =? 5) then Value acc
      else
        lbl ← read_i32 labels i;
        conf ← detection_at f detections i 4;
        if Flt.leb (F64.of_float conf) (detectionThreshold f)
           && negb (doRawOutputMessages (fbase f))
        then loop_boxes f detections labels n' (i + 1) acc
        else
          d0 ← detection_at f detections i 0;
          x ← to_int (F32.mul (F32.div d0 (network_input_width f)) (width f));
          d1 ← detection_at f detections i 1;
          y ← to_int (F32.mul (F32.div d1 (network_input_height f)) (height f));
          d2 ← detection_at f detections i 2;
          w ← to_int (F32.sub (F32.mul (F32.div d2 (network_input_width f)) (width f))
                              (F32.of_Z x));
          d3 ← detection_at f detections i 3;
          h ← to_int (F32.sub (F32.mul (F32.div d3 (network_input_height f)) (height f))
                              (F32.of_Z y));
          loc ← enlarge f {| Rect.x := x; Rect.y := y; Rect.width := w; Rect.height := h |};
          loop_boxes f detections labels n' (i + 1)
            (emit f i {| label := lbl; confidence := conf; location := loc |} acc)
  end.

(** The loop over the 7-wide output, with [n] proposals left. *)
Fixpoint loop_seven (f : t) (detections : Blob) (n : nat) (i : Z)
    (acc : list Result * list LogEvent) : Outcome (list Result * list LogEvent) :=
  match n with
  | O => Value acc
  | S n' =>
      if negb (objectSize f =? 7) then Value acc
      else
        image_id ← detection_at f detections i 0;
        if Flt.ltb image_id (F32.of_Z 0) then Value acc
        else
          lbl_f ← detection_at f detections i 1;
          lbl ← to_int lbl_f;
          conf ← detection_at f detections i 2;
          if Flt.leb (F64.of_float conf) (detectionThreshold f)
           && negb (doRawOutputMessages (fbase f))
          then loop_seven f detections n' (i + 1) acc
          else
            d3 ← detection_at f detections i 3;
            x ← to_int (F32.mul d3 (width f));
            d4 ← detection_at f detections i 4;
            y ← to_int (F32.mul d4 (height f));
            d5 ← detection_at f detections i 5;
            w ← to_int (F32.sub (F32.mul d5 (width f)) (F32.of_Z x));
            d6 ← detection_at f detections i 6;
            h ← to_int (F32.sub (F32.mul d6 (height f)) (F32.of_Z y));
            loc ← enlarge f {| Rect.x := x; Rect.y := y; Rect.width := w; Rect.height := h |};
            loop_seven f detections n' (i + 1)
              (emit f i {| label := lbl; confidence := conf; location := loc |} acc)
  end.

Definition fetchResults (f : t) : Outcome t :=
  let '(en, b) := enabled (fbase f) in
  let f := set_base b f in
  if negb en then Value f
  else
    let f := set_fetch (resultsFetched f) [] f in
    if resultsFetched f then Value f
    else
      let f := set_fetch true (results f) f in
      r ← match request (fbase f) with Some r => Value r | None => Undefined end;
      detections ← GetBlob r (output f);
      let calls1 := [CallGetBlob (output f)] in
      let n := Z.to_nat (maxProposalCount f) in
      '(acc, calls2) ←
        (if negb (String.eqb (labels_output f) "") then
           labels ← GetBlob r (labels_output f);
           acc ← loop_boxes f detections labels n 0 (results f, []);
           Value (acc, [CallGetBlob (labels_output f)])
         else Value ((results f, []), []));
      acc ← loop_seven f detections n 0 acc;
      let b := fbase f in
      let b := fold_left (λ b c, called c b) (calls1 ++ calls2) b in
      let b := fold_left (λ b l, logged l b) (snd acc) b in
      Value (set_fetch true (fst acc) (set_base b f)).
End FaceDetection.

#[global] Instance Face_Detection : Detection FaceDetection.t :=
  {| base := FaceDetection.fbase; with_base := FaceDetection.set_base;
     read := FaceDetection.read |}.

(** ** CallStat and Timer *)

(** Time points of [std::chrono::steady_clock] are tick counts in [Z]; the
    clock is read by the caller and passed as [now].  The duration type
    [ms] is declared in detectors.hpp: [ms_count d] stands for
    [std::chrono::duration_cast<ms>(d).count()], converted to [double]. *)
Class Chrono := {
  ms_count : Z → spec_float
}.

Module CallStat.

Record t := {
  _number_of_calls : Z;               (* size_t *)
  _total_duration : spec_float;       (* double *)
  _last_call_duration : spec_float;
  _smoothed_duration : spec_float;
  _last_call_start : Z
}.

(** [0.0], [1.0] and [-1.0] *)
Definition zero : spec_float := F64.of_Z 0.
Definition one : spec_float := F64.of_Z 1.
Definition minus_one : spec_float := F64.of_Z (-1).

(** The literal [0.1]: the double nearest to one tenth. *)
Definition alpha : spec_float := S754_finite false 7205759403792794 (-56).

(** The constructor. *)
Definition make : t :=
  {| _number_of_calls := 0; _total_duration := zero; _last_call_duration := zero;
     _smoothed_duration := minus_one; _last_call_start := 0 |}.

Section WithClock.
Context `{Chrono}.

Definition getSmoothedDuration (now : Z) (c : t) : spec_float :=
  if Flt.ltb (_smoothed_duration c) zero
  then ms_count (now - _last_call_start c)
  else _smoothed_duration c.

Definition getTotalDuration (c : t) : spec_float := _total_duration c.

Definition getLastCallDuration (c : t) : spec_float := _last_call_duration c.

Definition calculateDuration (now : Z) (c : t) : t :=
  let last := ms_count (now - _last_call_start c) in
  let calls := SizeT.add (_number_of_calls c) 1 in
  let total := F64.add (_total_duration c) last in
  let smoothed :=
    if Flt.ltb (_smoothed_duration c) zero then last else _smoothed_duration c in
  let smoothed := F64.add (F64.mul smoothed (F64.sub one alpha)) (F64.mul last alpha) in
  {| _number_of_calls := calls; _total_duration := total;
     _last_call_duration := last; _smoothed_duration := smoothed;
     _last_call_start := now |}.

Definition setStartTime (now : Z) (c : t) : t :=
  {| _number_of_calls := _number_of_calls c; _total_duration := _total_duration c;
     _last_call_duration := _last_call_duration c;
     _smoothed_duration := _smoothed_duration c; _last_call_start := now |}.
End WithClock.
End CallStat.

Module Timer.

(** [std::map<std::string, CallStat> _timers] *)
Abbreviation t := (gmap string CallStat.t).

Section WithClock.
Context `{Chrono}.

Definition start (name : string) (now : Z) (timers : t) : t :=
  let timers :=
    match timers !! name with
    | None => <[name := CallStat.make]> timers
    | Some _ => timers
    end in
  alter (CallStat.setStartTime now) name timers.

(** [operator[]] *)
Definition at_ (name : string) (timers : t) : Outcome CallStat.t :=
  match timers !! name with
  | None => Thrown (logic_error ("No timer with name " ++ name ++ "."))
  | Some c => Value c
  end.

Definition finish (name : string) (now : Z) (timers : t) : Outcome t :=
  timer ← at_ name timers;
  Value (<[name := CallStat.calculateDuration now timer]> timers).

(** [timer[name].getSmoothedDuration()], as the callers write it. *)
Definition smoothedDuration (name : string) (now : Z) (timers : t)
    : Outcome spec_float :=
  timer ← at_ name timers;
  Value (CallStat.getSmoothedDuration now timer).
End WithClock.
End Timer.

(** A clock whose [ms] is [std::chrono::duration<double, std::milli>] over
    nanosecond ticks: the count is the tick count divided by 1e6. *)
Definition ms_double : Chrono :=
  {| ms_count := λ d, F64.div (F64.of_Z d) (F64.of_Z 1000000) |}.

(** An image store for [matToBlob]: slot [batchIndex] of a [U8] blob
    receives the image. *)
Definition store_mat : OcvCommon :=
  {| matToBlob := λ m b i,
       match mem b with
       | DataU8 slots =>
           {| dims := dims b; channels := channels b;
              mem := DataU8 (<[Z.to_nat i := m]> slots) |}
       | _ => b
       end |}.

(** ** Sequences of calls

    What a caller does with a stage after constructing it: load it, enqueue
    images, submit, wait; and, for the face detector, fetch the results. *)

Inductive Call :=
| DoLoad (ie : Core) (deviceName : string) (enable_dynamic_batch : bool)
| DoEnqueue (image : Mat)
| DoSubmit
| DoWait.

Inductive FaceCall :=
| DoCommon (c : Call)
| DoFetch.

Section Runs.
Context `{OcvCommon}.

Section OfStage.
Context {D : Type}.
Variable rd : Core → Stage D → Outcome (CNNNetwork * Stage D).
Variable who : string.

Definition stage_step (c : Call) (s : Stage D) : Outcome (Stage D) :=
  match c with
  | DoLoad ie deviceName dyn => @Load.into _ (stage_detection rd) ie deviceName dyn s
  | DoEnqueue face => Stage.enqueue who face s
  | DoSubmit => Stage.submitRequest s
  | DoWait => Value (Stage.wait s)
  end.

Fixpoint stage_run (cs : list Call) (s : Stage D) : Outcome (Stage D) :=
  match cs with
  | [] => Value s
  | c :: cs' => s' ← stage_step c s; stage_run cs' s'
  end.

(** Only [enqueue], once for each face of the list. *)
Fixpoint enqueue_all (faces : list Mat) (s : Stage D) : Outcome (Stage D) :=
  match faces with
  | [] => Value s
  | face :: faces' => s' ← Stage.enqueue who face s; enqueue_all faces' s'
  end.
End OfStage.

Definition face_step (c : FaceCall) (f : FaceDetection.t) : Outcome FaceDetection.t :=
  match c with
  | DoCommon (DoLoad ie deviceName dyn) => Load.into ie deviceName dyn f
  | DoCommon (DoEnqueue frame) => FaceDetection.enqueue frame f
  | DoCommon DoSubmit => Value (FaceDetection.submitRequest f)
  | DoCommon DoWait => Value (FaceDetection.wait f)
  | DoFetch => FaceDetection.fetchResults f
  end.

Fixpoint face_run (cs : list FaceCall) (f : FaceDetection.t) : Outcome FaceDetection.t :=
  match cs with
  | [] => Value f
  | c :: cs' => f' ← face_step c f; face_run cs' f'
  end.
End Runs.

(** ** Concrete stages, used to run the model *)

Module Demo.
Definition blank : Mat := {| cols := 0; rows := 0; pixels := [] |}.
Definition frame : Mat := {| cols := 200; rows := 200; pixels := [] |}.

(** an engine that reads [cnn] from every path and loads [net] *)
Definition core (cnn : CNNNetwork) (net : ExecutableNetwork) : Core :=
  {| ReadNetwork := λ _, Value cnn; LoadNetwork := λ _ _ _, Value net |}.

Definition q32 (a b : Z) : spec_float := F32.div (F32.of_Z a) (F32.of_Z b).
Definition q64 (a b : Z) : spec_float := F64.div (F64.of_Z a) (F64.of_Z b).

(** A detector with a 7-wide output of two proposals on the same box
    (0, 0)-(0.5, 0.25): one of confidence 0.9, one of confidence 0.5. *)
Definition face_cnn : CNNNetwork :=
  {| batchSize := 1;
     inputsInfo := [("data", {| precision := FP32; info_dims := [1; 3; 300; 300] |})];
     outputsInfo :=
       [("detection_out", {| precision := FP32; info_dims := [1; 1; 2; 7] |})] |}.

Definition face_net : ExecutableNetwork :=
  {| fresh_blobs :=
       [("data", {| dims := [1; 3; 300; 300]; channels := 3; mem := DataU8 [blank] |});
        ("detection_out",
         {| dims := [1; 1; 2; 7]; channels := 1;
            mem := DataF32
              [F32.of_Z 0; F32.of_Z 1; q32 9 10; F32.of_Z 0; F32.of_Z 0; q32 1 2; q32 1 4;
               F32.of_Z 0; F32.of_Z 1; q32 1 2; F32.of_Z 0; F32.of_Z 0; q32 1 2; q32 1 4] |})];
     forward := λ b _, b |}.

(** threshold 0.5, enlarge coefficient [e], dx = dy = 1 *)
Definition face (e : spec_float) (raw : bool) : FaceDetection.t :=
  FaceDetection.make "face-detection.xml" "CPU" 1 false false (q64 1 2) raw
    e (F32.of_Z 1) (F32.of_Z 1).

(** loaded, one frame enqueued *)
Definition face_enqueued (e : spec_float) (raw : bool) : Outcome FaceDetection.t :=
  @face_run store_mat
    [DoCommon (DoLoad (core face_cnn face_net) "CPU" false); DoCommon (DoEnqueue frame)]
    (face e raw).

Definition face_loaded (e : spec_float) (raw : bool) : FaceDetection.t :=
  match face_enqueued e raw with
  | Value f => f
  | _ => face e raw
  end.

(** ... and submitted *)
Definition face_submitted (e : spec_float) (raw : bool) : FaceDetection.t :=
  match face_enqueued e raw with
  | Value f => FaceDetection.submitRequest f
  | _ => face e raw
  end.

Definition no_net : ExecutableNetwork := {| fresh_blobs := []; forward := λ b _, b |}.

(** An age/gender model of batch size 2. *)
Definition age_gender_cnn : CNNNetwork :=
  {| batchSize := 2;
     inputsInfo := [("data", {| precision := FP32; info_dims := [2; 3; 62; 62] |})];
     outputsInfo := [("age_conv3", {| precision := FP32; info_dims := [2; 1; 1; 1] |});
                     ("prob", {| precision := FP32; info_dims := [2; 2; 1; 1] |})] |}.

Definition age_gender_net : ExecutableNetwork :=
  {| fresh_blobs :=
       [("data", {| dims := [2; 3; 62; 62]; channels := 3; mem := DataU8 [blank; blank] |});
        ("age_conv3", {| dims := [2; 1; 1; 1]; channels := 1;
                         mem := DataF32 [q32 1 4; q32 1 2] |});
        ("prob", {| dims := [2; 2; 1; 1]; channels := 2;
                    mem := DataF32 [q32 1 10; q32 9 10; q32 4 5; q32 1 5] |})];
     forward := λ b _, b |}.

Definition age_gender : AgeGenderDetection.t :=
  AgeGenderDetection.make "age-gender.xml" "CPU" 2 false false false.

(** loaded, with [n] faces enqueued *)
Definition age_gender_enqueued (n : nat) : Outcome AgeGenderDetection.t :=
  @stage_run store_mat _ AgeGenderDetection.read "Age/Gender Recognition network"
    (DoLoad (core age_gender_cnn age_gender_net) "CPU" false
     :: replicate n (DoEnqueue frame))
    age_gender.

Definition age_gender_full : AgeGenderDetection.t :=
  match age_gender_enqueued 2 with
  | Value s => s
  | _ => age_gender
  end.

(** one face enqueued and submitted *)
Definition age_gender_submitted : AgeGenderDetection.t :=
  match age_gender_enqueued 1 ≫= Stage.submitRequest with
  | Value s => s
  | _ => age_gender
  end.

Definition request_of {D} (s : Stage D) : InferRequest :=
  match BaseDetection.request (sbase s) with
  | Some r => r
  | None => CreateInferRequest no_net
  end.

(** An emotions stage with seven labels, bound to a request whose output
    has [c] channels and holds [v]. *)
Definition seven : list string :=
  ["neutral"; "happy"; "sad"; "surprise"; "anger"; "fear"; "disgust"].

Definition emotions_request (c : Z) (v : list spec_float) : InferRequest :=
  CreateInferRequest
    {| fresh_blobs := [("prob_emotion",
                        {| dims := [2; c; 1; 1]; channels := c; mem := DataF32 v |})];
       forward := λ b _, b |}.

Definition emotions (c : Z) (v : list spec_float) : EmotionsDetection.t :=
  {| sbase := BaseDetection.set_request (Some (emotions_request c v))
                (sbase (EmotionsDetection.make seven "emotions.xml" "CPU" 2
                          false false false));
     input := "data"; enquedFaces := 0;
     self := {| EmotionsDetection.outputEmotions := "prob_emotion";
                EmotionsDetection.emotionsVec := seven |} |}.

Definition fourteen : list spec_float := map F32.of_Z (seqZ 1 14).

(** A landmarks model whose output [align_fc3] has shape [dims]. *)
Definition landmarks_cnn (dims : list Z) : CNNNetwork :=
  {| batchSize := 1;
     inputsInfo := [("data", {| precision := FP32; info_dims := [1; 3; 60; 60] |})];
     outputsInfo := [("align_fc3", {| precision := FP32; info_dims := dims |})] |}.

Definition landmarks : FacialLandmarksDetection.t :=
  FacialLandmarksDetection.make "landmarks.xml" "CPU" 16 false false false.
End Demo.

(** ** Vocabulary of the properties *)

(** What holds of a detection that [fetchResults] stores: it passed the
    threshold and its box left [enlarge]. *)
Definition emitted_ok (f : FaceDetection.t) (r : FaceDetection.Result) : Prop :=
  Flt.ltb (FaceDetection.detectionThreshold f)
          (F64.of_float (FaceDetection.confidence r)) = true ∧
  ∃ raw, FaceDetection.enlarge f raw = Value (FaceDetection.location r).

(** The flag of [enabled()] has been computed and is set. *)
Definition settled (b : BaseDetection.t) : Prop :=
  BaseDetection.enablingChecked b = true ∧ BaseDetection._enabled b = true.

(** [1.0 - alpha], the double 0.9 *)
Definition nine_tenths : spec_float := S754_finite false 8106479329266893 (-53).

(** One step of the moving average. *)
Definition ema (smoothed last : spec_float) : spec_float :=
  F64.add (F64.mul smoothed nine_tenths) (F64.mul last CallStat.alpha).

(** Histories of a timer: [reach clock timers finished] holds of the map
    [timers] left by some calls of [start] and [finish] made at
    non-decreasing readings of the clock, the last one at [clock], where
    [finished] are the names on which a [finish] has returned. *)
Inductive reach `{Chrono} : Z → gmap string CallStat.t → gset string → Prop :=
| reach_init clock : reach clock ∅ ∅
| reach_start clock timers finished name now :
    reach clock timers finished → clock ≤ now →
    reach now (Timer.start name now timers) finished
| reach_finish clock timers finished name now timers' :
    reach clock timers finished → clock ≤ now →
    Timer.finish name now timers = Value timers' →
    reach now timers' ({[name]} ∪ finished).

(** A detector constructed without a model path and not yet bound: the
    path is empty, the flag (once computed) is off, and there is neither
    a network nor a request. *)
Definition inert (b : BaseDetection.t) : Prop :=
  BaseDetection.pathToModel b = ""
  ∧ (BaseDetection.enablingChecked b = true → BaseDetection._enabled b = false)
  ∧ BaseDetection.net b = None
  ∧ BaseDetection.request b = None.

(** The request owns a float blob [name] of [rows] rows of [per_row] values. *)
Definition holds_f32 (r : InferRequest) (name : string) (per_row rows : Z) : Prop :=
  ∃ b v, GetBlob r name = Value b ∧ mem b = DataF32 v
         ∧ Z.of_nat (length v) = rows * per_row.

(** A computation that cannot throw. *)
Definition no_throw {A} (m : Outcome A) : Prop := ∀ e, m ≠ Thrown e.

(** ** What [fetchResults] stores *)

(** The raw box of row [i] of the 7-wide output: the corners, relative to
    the frame, scaled by its size. *)
Definition seven_box (f : FaceDetection.t) (detections : Blob) (i : Z) (raw : Rect.t)
    : Prop :=
  ∃ d3 d4 d5 d6,
    FaceDetection.detection_at f detections i 3 = Value d3
    ∧ to_int (F32.mul d3 (FaceDetection.width f)) = Value (Rect.x raw)
    ∧ FaceDetection.detection_at f detections i 4 = Value d4
    ∧ to_int (F32.mul d4 (FaceDetection.height f)) = Value (Rect.y raw)
    ∧ FaceDetection.detection_at f detections i 5 = Value d5
    ∧ to_int (F32.sub (F32.mul d5 (FaceDetection.width f)) (F32.of_Z (Rect.x raw)))
      = Value (Rect.width raw)
    ∧ FaceDetection.detection_at f detections i 6 = Value d6
    ∧ to_int (F32.sub (F32.mul d6 (FaceDetection.height f)) (F32.of_Z (Rect.y raw)))
      = Value (Rect.height raw).

(** Row [i] of the 7-wide output holds the detection [r]: label and
    confidence are elements 1 and 2 of the row, the location is the raw
    box enlarged. *)
Definition seven_row (f : FaceDetection.t) (detections : Blob) (i : Z)
    (r : FaceDetection.Result) : Prop :=
  (∃ lbl, FaceDetection.detection_at f detections i 1 = Value lbl
          ∧ to_int lbl = Value (FaceDetection.label r))
  ∧ FaceDetection.detection_at f detections i 2 = Value (FaceDetection.confidence r)
  ∧ ∃ raw, seven_box f detections i raw
           ∧ FaceDetection.enlarge f raw = Value (FaceDetection.location r).

(** The raw box of row [i] of the boxes output: the corners, in pixels of
    the network input, scaled to the frame. *)
Definition boxes_box (f : FaceDetection.t) (detections : Blob) (i : Z) (raw : Rect.t)
    : Prop :=
  ∃ d0 d1 d2 d3,
    FaceDetection.detection_at f detections i 0 = Value d0
    ∧ to_int (F32.mul (F32.div d0 (FaceDetection.network_input_width f))
                (FaceDetection.width f)) = Value (Rect.x raw)
    ∧ FaceDetection.detection_at f detections i 1 = Value d1
    ∧ to_int (F32.mul (F32.div d1 (FaceDetection.network_input_height f))
                (FaceDetection.height f)) = Value (Rect.y raw)
    ∧ FaceDetection.detection_at f detections i 2 = Value d2
    ∧ to_int (F32.sub (F32.mul (F32.div d2 (FaceDetection.network_input_width f))
                         (FaceDetection.width f)) (F32.of_Z (Rect.x raw)))
      = Value (Rect.width raw)
    ∧ FaceDetection.detection_at f detections i 3 = Value d3
    ∧ to_int (F32.sub (F32.mul (F32.div d3 (FaceDetection.network_input_height f))
                         (FaceDetection.height f)) (F32.of_Z (Rect.y raw)))
      = Value (Rect.height raw).

(** Row [i] of the boxes output, with element [i] of the labels output,
    holds the detection [r]. *)
Definition boxes_row (f : FaceDetection.t) (detections labels : Blob) (i : Z)
    (r : FaceDetection.Result) : Prop :=
  read_i32 labels i = Value (FaceDetection.label r)
  ∧ FaceDetection.detection_at f detections i 4 = Value (FaceDetection.confidence r)
  ∧ ∃ raw, boxes_box f detections i raw
           ∧ FaceDetection.enlarge f raw = Value (FaceDetection.location r).

(** [stored_rows threshold row first visited rs]: [rs] holds, in the order
    of the rows, the detection of every row from [first] up to [visited]
    that holds one whose confidence exceeds the threshold, and nothing
    else. *)
Inductive stored_rows (threshold : spec_float) (row : Z → FaceDetection.Result → Prop)
    : Z → Z → list FaceDetection.Result → Prop :=
| stored_none visited : stored_rows threshold row visited visited []
| stored_keep i visited r rs :
    i < visited → row i r →
    Flt.ltb threshold (F64.of_float (FaceDetection.confidence r)) = true →
    stored_rows threshold row (i + 1) visited rs →
    stored_rows threshold row i visited (r :: rs)
| stored_skip i visited rs :
    i < visited →
    (∀ r, row i r →
          Flt.ltb threshold (F64.of_float (FaceDetection.confidence r)) = false) →
    stored_rows threshold row (i + 1) visited rs →
    stored_rows threshold row i visited rs.

(** The rows of the 7-wide output that [fetchResults] visits, out of
    [n]: all of them, or those before the first row whose image id is
    negative. *)
Definition seven_visited (f : FaceDetection.t) (detections : Blob) (n visited : Z)
    : Prop :=
  0 ≤ visited ≤ n
  ∧ (∀ i, 0 ≤ i < visited →
          ∃ image_id, FaceDetection.detection_at f detections i 0 = Value image_id
                      ∧ Flt.ltb image_id (F32.of_Z 0) = false)
  ∧ (visited = n
     ∨ ∃ image_id, FaceDetection.detection_at f detections visited 0 = Value image_id
                   ∧ Flt.ltb image_id (F32.of_Z 0) = true).

(** [rs] is what the output of the request of [f] holds: in the 7-wide
    format the detections of the visited rows above the threshold; in the
    boxes-and-labels format those of all [maxProposalCount] rows; nothing
    in any other format. *)
Definition fetched_from_output (f : FaceDetection.t) (rs : list FaceDetection.Result)
    : Prop :=
  ∃ r detections,
    BaseDetection.request (FaceDetection.fbase f) = Some r
    ∧ GetBlob r (FaceDetection.output f) = Value detections
    ∧ (FaceDetection.objectSize f = 7 →
       ∃ visited,
         seven_visited f detections (Z.max 0 (FaceDetection.maxProposalCount f)) visited
         ∧ stored_rows (FaceDetection.detectionThreshold f) (seven_row f detections)
             0 visited rs)
    ∧ (FaceDetection.objectSize f = 5 → FaceDetection.labels_output f ≠ "" →
       ∃ labels,
         GetBlob r (FaceDetection.labels_output f) = Value labels
         ∧ stored_rows (FaceDetection.detectionThreshold f)
             (boxes_row f detections labels)
             0 (Z.max 0 (FaceDetection.maxProposalCount f)) rs)
    ∧ (FaceDetection.objectSize f ≠ 7 →
       FaceDetection.objectSize f ≠ 5 ∨ FaceDetection.labels_output f = "" →
       rs = []).

(** ** Vocabulary of the further properties *)

(** The request of the stage, or else the network it would be created
    from, owns the input blob of the stage. *)
Definition input_bound {D} (s : Stage D) : Prop :=
  match BaseDetection.request (sbase s) with
  | Some r => is_Some (find_blob (input s) (blobs r))
  | None => ∃ n, BaseDetection.net (sbase s) = Some n
                 ∧ is_Some (find_blob (input s) (fresh_blobs n))
  end.

(** Calls other than [Load::into]. *)
Definition not_load (c : Call) : bool :=
  match c with
  | DoLoad _ _ _ => false
  | _ => true
  end.

(** What [enqueue], [submitRequest] and [wait] keep: the count is within
    the capacity, the capacity is an [int], and faces are only counted
    once a request exists. *)
Definition batch_ok {D} (s : Stage D) : Prop :=
  0 ≤ enquedFaces s ≤ BaseDetection.maxBatch (sbase s)
  ∧ BaseDetection.maxBatch (sbase s) ≤ Int.max_int
  ∧ (enquedFaces s ≠ 0 → BaseDetection.request (sbase s) ≠ None).

(** The request of the detector, or else the network it would be created
    from, owns the input blob. *)
Definition face_input_bound (f : FaceDetection.t) : Prop :=
  match BaseDetection.request (FaceDetection.fbase f) with
  | Some r => is_Some (find_blob (FaceDetection.input f) (blobs r))
  | None => ∃ n, BaseDetection.net (FaceDetection.fbase f) = Some n
                 ∧ is_Some (find_blob (FaceDetection.input f) (fresh_blobs n))
  end.

(** The detector with [doRawOutputMessages] set to [raw]. *)
Definition with_raw (raw : bool) (f : FaceDetection.t) : FaceDetection.t :=
  let b := FaceDetection.fbase f in
  FaceDetection.set_base
    {| BaseDetection.topoName := BaseDetection.topoName b;
       BaseDetection.pathToModel := BaseDetection.pathToModel b;
       BaseDetection.deviceForInference := BaseDetection.deviceForInference b;
       BaseDetection.maxBatch := BaseDetection.maxBatch b;
       BaseDetection.isBatchDynamic := BaseDetection.isBatchDynamic b;
       BaseDetection.isAsync := BaseDetection.isAsync b;
       BaseDetection.enablingChecked := BaseDetection.enablingChecked b;
       BaseDetection._enabled := BaseDetection._enabled b;
       BaseDetection.doRawOutputMessages := raw;
       BaseDetection.net := BaseDetection.net b;
       BaseDetection.request := BaseDetection.request b;
       BaseDetection.calls := BaseDetection.calls b;
       BaseDetection.slog := BaseDetection.slog b |} f.

(** Two detectors that differ at most in what [fetchResults] does not read
    when it decodes a proposal, the first logging raw output and the
    second not. *)
Definition raw_and_quiet (fr fn : FaceDetection.t) : Prop :=
  FaceDetection.objectSize fr = FaceDetection.objectSize fn
  ∧ FaceDetection.detectionThreshold fr = FaceDetection.detectionThreshold fn
  ∧ FaceDetection.width fr = FaceDetection.width fn
  ∧ FaceDetection.height fr = FaceDetection.height fn
  ∧ FaceDetection.network_input_width fr = FaceDetection.network_input_width fn
  ∧ FaceDetection.network_input_height fr = FaceDetection.network_input_height fn
  ∧ FaceDetection.bb_enlarge_coefficient fr = FaceDetection.bb_enlarge_coefficient fn
  ∧ FaceDetection.bb_dx_coefficient fr = FaceDetection.bb_dx_coefficient fn
  ∧ FaceDetection.bb_dy_coefficient fr = FaceDetection.bb_dy_coefficient fn
  ∧ BaseDetection.doRawOutputMessages (FaceDetection.fbase fr) = true
  ∧ BaseDetection.doRawOutputMessages (FaceDetection.fbase fn) = false.

(** An output the loop of [read] takes for the boxes: two dimensions, the
    last one 5. *)
Definition is_boxes (e : string * DataInfo) : bool :=
  (Z.of_nat (length (info_dims e.2)) =? 2) && bool_decide (last (info_dims e.2) = Some 5).

(** An output the loop of [read] takes for the labels: one dimension,
    precision [I32]. *)
Definition is_labels (e : string * DataInfo) : bool :=
  (Z.of_nat (length (info_dims e.2)) =? 1)
  && match precision e.2 with I32 => true | _ => false end.

(** The last entry of a list that passes a test. *)
Definition pick {A} (P : A → bool) (l : list A) : option A := last (List.filter P l).

(** [outputDims[0]], converted to [int]. *)
Definition first_dim (e : string * DataInfo) : Z :=
  narrow_int (default 0 (head (info_dims e.2))).

(** The outputs as the loop of [read] leaves them. *)
Definition fp32_if_boxes (e : string * DataInfo) : string * DataInfo :=
  if is_boxes e then (e.1, setPrecision FP32 e.2) else e.

(** ** More concrete stages *)

Module Sample.
(** the age/gender stage of [Demo], loaded, with nothing enqueued *)
Definition age_gender_loaded : AgeGenderDetection.t :=
  match Demo.age_gender_enqueued 0 with
  | Value s => s
  | _ => Demo.age_gender
  end.

(** a 7-wide output of one proposal whose image id is -1 *)
Definition sentinel : Blob :=
  {| dims := [1; 1; 1; 7]; channels := 1;
     mem := DataF32 (F32.of_Z (-1) :: replicate 6 (F32.of_Z 0)) |}.

(** A head pose model with its three angle outputs. *)
Definition head_pose_cnn : CNNNetwork :=
  {| batchSize := 1;
     inputsInfo := [("data", {| precision := FP32; info_dims := [1; 3; 60; 60] |})];
     outputsInfo := [("angle_p_fc", {| precision := FP32; info_dims := [1; 1] |});
                     ("angle_r_fc", {| precision := FP32; info_dims := [1; 1] |});
                     ("angle_y_fc", {| precision := FP32; info_dims := [1; 1] |})] |}.

Definition head_pose : HeadPoseDetection.t :=
  HeadPoseDetection.make "head-pose.xml" "CPU" 16 false false false.

(** A landmarks stage bound to a request whose output has two rows of
    four channels and holds 1, ..., 8. *)
Definition landmarks_blob : Blob :=
  {| dims := [2; 4]; channels := 4; mem := DataF32 (map F32.of_Z (seqZ 1 8)) |}.

Definition landmarks_request : InferRequest :=
  CreateInferRequest
    {| fresh_blobs := [("align_fc3", landmarks_blob)]; forward := λ b _, b |}.

Definition landmarks : FacialLandmarksDetection.t :=
  {| sbase := BaseDetection.set_request (Some landmarks_request) (sbase Demo.landmarks);
     input := "data"; enquedFaces := 0; self := self Demo.landmarks |}.

(** A face detection model with a boxes and a labels output. *)
Definition boxes_cnn : CNNNetwork :=
  {| batchSize := 1;
     inputsInfo := [("image", {| precision := FP32; info_dims := [1; 3; 384; 672] |})];
     outputsInfo := [("boxes", {| precision := FP32; info_dims := [100; 5] |});
                     ("labels", {| precision := I32; info_dims := [100] |})] |}.
End Sample.

(** A boxes-and-labels detector: two boxes (0, 0)-(336, 96) in a
    672 x 384 input, of confidence 0.9 and 0.5, with labels 1 and 2. *)
Module Boxes.
Definition cnn : CNNNetwork :=
  {| batchSize := 1;
     inputsInfo := [("image", {| precision := FP32; info_dims := [1; 3; 384; 672] |})];
     outputsInfo := [("boxes", {| precision := FP32; info_dims := [2; 5] |});
                     ("labels", {| precision := I32; info_dims := [2] |})] |}.

Definition net : ExecutableNetwork :=
  {| fresh_blobs :=
       [("image", {| dims := [1; 3; 384; 672]; channels := 3;
                     mem := DataU8 [Demo.blank] |});
        ("boxes",
         {| dims := [2; 5]; channels := 5;
            mem := DataF32
              [F32.of_Z 0; F32.of_Z 0; F32.of_Z 336; F32.of_Z 96; Demo.q32 9 10;
               F32.of_Z 0; F32.of_Z 0; F32.of_Z 336; F32.of_Z 96; Demo.q32 1 2] |});
        ("labels", {| dims := [2]; channels := 1; mem := DataI32 [1; 2] |})];
     forward := λ b _, b |}.

(** loaded, one frame enqueued *)
Definition face_loaded (raw : bool) : FaceDetection.t :=
  match @face_run store_mat
          [DoCommon (DoLoad (Demo.core cnn net) "CPU" false);
           DoCommon (DoEnqueue Demo.frame)]
          (Demo.face (Demo.q32 7 5) raw) with
  | Value f => f
  | _ => Demo.face (Demo.q32 7 5) raw
  end.
End Boxes.

(** * Properties *)

(** ** Reasoning about outcomes *)

Lemma bind_Value {A B} (m : Outcome A) (k : A → Outcome B) (v : B) :
  m ≫= k = Value v → ∃ a, m = Value a ∧ k a = Value v.
Proof. destruct m as [a| |]; simpl; intros E; [eauto | discriminate..]. Qed.

Lemma int_result_Value v r : int_result v = Value r → r = v ∧ Int.in_range v = true.
Proof. unfold int_result. destruct (Int.in_range v); [|discriminate]. intros [= <-]. done. Qed.

(** Splits a hypothesis [H : (x ← m; k) = Value v] as far as it goes. *)
Ltac bind_inv H :=
  repeat lazymatch type of H with
    | mbind _ _ = Value _ =>
        let a := fresh "a" in let E := fresh "E" in
        apply bind_Value in H; destruct H as (a & E & H)
    | (let '(_, _) := ?p in _) = Value _ => destruct p
    end.

(** Cases on the test of a hypothesis [H : (if c then _ else _) = _]. *)
Ltac if_inv H :=
  lazymatch type of H with
  | (if ?c then _ else _) = _ => destruct c eqn:?
  end.

Section FaceDetectionFacts.
Import FaceDetection.


Lemma emit_ok f i r acc :
  (∃ raw, enlarge f raw = Value (location r)) →
  Forall (emitted_ok f) (fst acc) →
  Forall (emitted_ok f) (fst (emit f i r acc)).
Proof.
  intros Hr Hacc. unfold emit. simpl.
  destruct (Flt.ltb (detectionThreshold f) (F64.of_float (confidence r))) eqn:Hlt;
    [|exact Hacc].
  apply Forall_app. split; [exact Hacc|].
  constructor; [|constructor]. split; assumption.
Qed.

Lemma loop_seven_ok f detections n : ∀ i acc acc',
  loop_seven f detections n i acc = Value acc' →
  Forall (emitted_ok f) (fst acc) → Forall (emitted_ok f) (fst acc').
Proof.
  induction n as [|n IH]; intros i acc acc' H Hacc; simpl in H.
  - by injection H as <-.
  - if_inv H; try by injection H as <-.
    apply bind_Value in H as (image_id & _ & H).
    if_inv H; try by injection H as <-.
    apply bind_Value in H as (lbl_f & _ & H).
    apply bind_Value in H as (lbl & _ & H).
    apply bind_Value in H as (conf & _ & H).
    if_inv H.
    + by eapply IH.
    + bind_inv H.
      eapply IH; [exact H|]. apply emit_ok; [|exact Hacc]. simpl. eauto.
Qed.

Lemma loop_boxes_ok f detections labels n : ∀ i acc acc',
  loop_boxes f detections labels n i acc = Value acc' →
  Forall (emitted_ok f) (fst acc) → Forall (emitted_ok f) (fst acc').
Proof.
  induction n as [|n IH]; intros i acc acc' H Hacc; simpl in H.
  - by injection H as <-.
  - if_inv H; try by injection H as <-.
    apply bind_Value in H as (lbl & _ & H).
    apply bind_Value in H as (conf & _ & H).
    if_inv H.
    + by eapply IH.
    + bind_inv H.
      eapply IH; [exact H|]. apply emit_ok; [|exact Hacc]. simpl. eauto.
Qed.

Lemma fetchResults_ok f f' :
  fst (BaseDetection.enabled (fbase f)) = true →
  fetchResults f = Value f' → Forall (emitted_ok f) (results f').
Proof.
  unfold fetchResults. destruct (BaseDetection.enabled (fbase f)) as [en b].
  simpl. intros ->. simpl.
  destruct (resultsFetched f); simpl; [intros [= <-]; constructor|].
  intros H.
  apply bind_Value in H as (r & _ & H).
  apply bind_Value in H as (detections & _ & H).
  apply bind_Value in H as ([acc calls2] & Hacc & H).
  apply bind_Value in H as (acc' & Hloop & H).
  injection H as <-. simpl.
  apply loop_seven_ok in Hloop.
  - exact Hloop.
  - destruct (negb (String.eqb (labels_output f) "")).
    + apply bind_Value in Hacc as (labels & _ & Hacc).
      apply bind_Value in Hacc as (acc0 & Hb & Hacc).
      injection Hacc as <- _.
      apply loop_boxes_ok in Hb; [exact Hb|constructor].
    + injection Hacc as <- _. constructor.
Qed.
Lemma loop_seven_other_size f detections n i acc :
  objectSize f ≠ 7 → loop_seven f detections n i acc = Value acc.
Proof.
  intros Hne. destruct n as [|n]; simpl; [done|].
  by destruct (Z.eqb_spec (objectSize f) 7).
Qed.

Lemma loop_boxes_other_size f detections labels n i acc :
  objectSize f ≠ 5 → loop_boxes f detections labels n i acc = Value acc.
Proof.
  intros Hne. destruct n as [|n]; simpl; [done|].
  by destruct (Z.eqb_spec (objectSize f) 5).
Qed.
End FaceDetectionFacts.


(** ** Signs of rounded results *)

Section Signs.
Variables prec emax : Z.

Lemma shr_1_nonneg mrs : 0 ≤ shr_m mrs → 0 ≤ shr_m (shr_1 mrs).
Proof.
  destruct mrs as [m r s]. simpl.
  destruct m as [|p|p]; [simpl; lia | | lia].
  intros _. destruct p; simpl; lia.
Qed.

Lemma iter_shr_1_nonneg p : ∀ mrs, 0 ≤ shr_m mrs → 0 ≤ shr_m (SpecFloat.iter_pos shr_1 p mrs).
Proof.
  induction p as [p IH|p IH|]; intros mrs Hm; simpl.
  - apply IH, IH, shr_1_nonneg, Hm.
  - apply IH, IH, Hm.
  - apply shr_1_nonneg, Hm.
Qed.

Lemma shr_fexp_nonneg m e l : 0 ≤ m → 0 ≤ shr_m (fst (shr_fexp prec emax m e l)).
Proof.
  intros Hm. unfold shr_fexp, shr.
  assert (H0 : 0 ≤ shr_m (shr_record_of_loc m l))
    by (destruct l as [|[| |]]; exact Hm).
  destruct (fexp prec emax (Zdigits2 m + e) - e); simpl; try exact H0.
  by apply iter_shr_1_nonneg.
Qed.

Lemma round_nearest_even_nonneg m l : 0 ≤ m → 0 ≤ round_nearest_even m l.
Proof.
  intros Hm. destruct l as [|[| |]]; simpl; try lia.
  destruct (Z.even m); lia.
Qed.

Lemma binary_round_aux_nonneg mx ex lx :
  0 ≤ mx → Flt.nonneg (binary_round_aux prec emax false mx ex lx) = true.
Proof.
  intros Hm. unfold binary_round_aux.
  pose proof (shr_fexp_nonneg mx ex lx Hm) as H1.
  destruct (shr_fexp prec emax mx ex lx) as [mrs' e']. simpl in H1.
  pose proof (shr_fexp_nonneg
                (round_nearest_even (shr_m mrs') (loc_of_shr_record mrs')) e' loc_Exact
                (round_nearest_even_nonneg _ _ H1)) as H2.
  destruct (shr_fexp prec emax _ e' loc_Exact) as [mrs'' e'']. simpl in H2.
  destruct (shr_m mrs'') as [|p|p]; [reflexivity | | lia].
  by destruct (e'' <=? emax - prec).
Qed.

Lemma binary_round_nonneg m e :
  Flt.nonneg (binary_round prec emax false m e) = true.
Proof.
  unfold binary_round.
  destruct (shl_align m e _) as [mz ez]. by apply binary_round_aux_nonneg.
Qed.

Lemma binary_normalize_nonneg m e :
  0 ≤ m → Flt.nonneg (binary_normalize prec emax m e false) = true.
Proof.
  intros Hm. destruct m as [|p|p]; [reflexivity | | lia].
  apply binary_round_nonneg.
Qed.

(** The product of a non-negative number and a positive finite one. *)
Lemma SFmul_nonneg x my ey :
  Flt.nonneg x = true → Flt.nonneg (SFmul prec emax x (S754_finite false my ey)) = true.
Proof.
  destruct x as [s|[|]| |[|] m e]; simpl; try done.
  intros _. by apply binary_round_aux_nonneg.
Qed.

Lemma SFadd_nonneg x y :
  Flt.nonneg x = true → Flt.nonneg y = true → Flt.nonneg (SFadd prec emax x y) = true.
Proof.
  destruct x as [sx|[|]| |[|] mx ex]; destruct y as [sy|[|]| |[|] my ey]; simpl; try done.
  - by destruct sx, sy.
  - intros _ _. apply binary_round_nonneg.
Qed.

(** The quotient of a non-negative number by a positive finite one. *)
Lemma SFdiv_nonneg x my ey :
  Flt.nonneg x = true → Flt.nonneg (SFdiv prec emax x (S754_finite false my ey)) = true.
Proof.
  destruct x as [s|[|]| |[|] m e]; simpl; try done.
  intros _. unfold SFdiv_core_binary.
  set (m' := match _ - _ - _ with 0 => _ | Z.pos _ => _ | Z.neg _ => _ end).
  assert (Hm' : 0 ≤ m').
  { subst m'. destruct (_ - _ - _); try lia. apply Z.shiftl_nonneg. lia. }
  pose proof (Z_div_mod m' (Z.pos my) ltac:(lia)) as Hdiv.
  destruct (Z.div_eucl m' (Z.pos my)) as [q r].
  apply binary_round_aux_nonneg. nia.
Qed.
End Signs.

Lemma nonneg_not_lt_zero x : Flt.nonneg x = true → Flt.ltb x CallStat.zero = false.
Proof. by destruct x as [s|[|]| |[|] m e]. Qed.

Lemma ltb_irrefl x : Flt.ltb x x = false.
Proof.
  unfold Flt.ltb, SFltb.
  destruct x as [s|[|]| |[|] m e]; simpl; try done;
    by rewrite Z.compare_refl, Pos.compare_cont_refl.
Qed.

Lemma SFcompare_antisym x y :
  SFcompare y x = option_map CompOpp (SFcompare x y).
Proof.
  destruct x as [sx|sx| |sx mx ex], y as [sy|sy| |sy my ey]; simpl;
    try done; try (by destruct sx); try (by destruct sy);
    try (by destruct sx, sy).
  destruct sx, sy; simpl; try done.
  - rewrite (Z.compare_antisym ex ey).
    destruct (ex ?= ey); simpl; try done.
    by rewrite (Pos.compare_cont_antisym my mx Eq), CompOpp_involutive.
  - rewrite (Z.compare_antisym ex ey).
    destruct (ex ?= ey); simpl; try done.
    by rewrite (Pos.compare_cont_antisym mx my Eq).
Qed.

Lemma leb_not_ltb x y : Flt.leb x y = true → Flt.ltb y x = false.
Proof.
  unfold Flt.leb, Flt.ltb, SFleb, SFltb. rewrite (SFcompare_antisym x y).
  by destruct (SFcompare x y) as [[| |]|].
Qed.

(** ** The face detector *)

Section FaceDetectionBoxes.
Import FaceDetection.

Lemma int_div_2 a r : int_div a 2 = Value r → r = Z.quot a 2.
Proof. unfold int_div. simpl. intros H. by apply int_result_Value in H as [-> _]. Qed.

(** What [enlarge] computes when it returns. *)
Lemma enlarge_Value f raw box :
  enlarge f raw = Value box →
  ∃ newSize off_x off_y,
    to_int (F32.mul (bb_enlarge_coefficient f)
              (F32.of_Z (Z.max (Rect.width raw) (Rect.height raw)))) = Value newSize ∧
    Rect.width box = newSize ∧ Rect.height box = newSize ∧
    to_int (F32.floor (F32.div (F32.mul (bb_dx_coefficient f) (F32.of_Z newSize))
                               (F32.of_Z 2))) = Value off_x ∧
    to_int (F32.floor (F32.div (F32.mul (bb_dy_coefficient f) (F32.of_Z newSize))
                               (F32.of_Z 2))) = Value off_y ∧
    Rect.x box = Rect.x raw + Z.quot (Rect.width raw) 2 - off_x ∧
    Rect.y box = Rect.y raw + Z.quot (Rect.height raw) 2 - off_y.
Proof.
  unfold enlarge. intros H.
  apply bind_Value in H as (half_w & Ehw & H).
  apply bind_Value in H as (cx & Ecx & H).
  apply bind_Value in H as (half_h & Ehh & H).
  apply bind_Value in H as (cy & Ecy & H).
  apply bind_Value in H as (nw & Enw & H).
  apply bind_Value in H as (nh & Enh & H).
  apply bind_Value in H as (ox & Eox & H).
  apply bind_Value in H as (nx & Enx & H).
  apply bind_Value in H as (oy & Eoy & H).
  apply bind_Value in H as (ny & Eny & H).
  injection H as <-. simpl.
  apply int_div_2 in Ehw, Ehh.
  apply int_result_Value in Ecx as [-> _], Ecy as [-> _], Enx as [-> _], Eny as [-> _].
  assert (nh = nw) as -> by congruence.
  subst. exists nw, ox, oy. repeat split; assumption.
Qed.
End FaceDetectionBoxes.

(** C5.  Every detection that [fetchResults] of an enabled detector stores
    has a confidence strictly above the threshold, in either output format
    and whatever [doRawOutputMessages] is: a confidence equal to the
    threshold is not stored. *)
Theorem fetched_confidence_above_threshold
    (f f' : FaceDetection.t) (r : FaceDetection.Result) :
  fst (BaseDetection.enabled (FaceDetection.fbase f)) = true →
  FaceDetection.fetchResults f = Value f' →
  r ∈ FaceDetection.results f' →
  Flt.ltb (FaceDetection.detectionThreshold f)
          (F64.of_float (FaceDetection.confidence r)) = true
  ∧ F64.of_float (FaceDetection.confidence r) ≠ FaceDetection.detectionThreshold f.
Proof.
  intros Hen Hfetch Hr.
  pose proof (fetchResults_ok f f' Hen Hfetch) as Hall.
  rewrite Forall_forall in Hall. destruct (Hall r Hr) as [Hlt _].
  split; [exact Hlt|].
  intros Heq. rewrite Heq, ltb_irrefl in Hlt. discriminate.
Qed.

(** With raw output on, both proposals of [Demo.face_net] are logged, and
    only the one of confidence 0.9 is stored: the other has confidence 0.5,
    the threshold itself. *)
Example fetch_excludes_the_threshold_itself :
  ∃ f' r,
    FaceDetection.fetchResults (Demo.face_submitted (Demo.q32 7 5) true) = Value f'
    ∧ FaceDetection.results f' = [r]
    ∧ FaceDetection.confidence r = Demo.q32 9 10
    ∧ FaceDetection.location r
      = {| Rect.x := -20; Rect.y := -45; Rect.width := 140; Rect.height := 140 |}
    ∧ BaseDetection.slog (FaceDetection.fbase f')
      = [LogNetworkInfo "face-detection.xml" "CPU" "Face Detection"; LogBatchSize 1;
         LogDetection 0 1 (Demo.q32 9 10) (-20) (-45) 140 140 true;
         LogDetection 1 1 (Demo.q32 1 2) (-20) (-45) 140 140 false].
Proof. vm_compute. eexists _, _. split_and!; reflexivity. Qed.

Lemma fetched_confidence_above_threshold_witness :
  ∃ f' r,
    FaceDetection.fetchResults (Demo.face_submitted (Demo.q32 7 5) true) = Value f'
    ∧ r ∈ FaceDetection.results f'
    ∧ Flt.ltb (Demo.q64 1 2) (F64.of_float (FaceDetection.confidence r)) = true.
Proof.
  assert (E : ∃ f', FaceDetection.fetchResults
                      (Demo.face_submitted (Demo.q32 7 5) true) = Value f'
                    ∧ ∃ r, r ∈ FaceDetection.results f').
  { vm_compute. eexists. split; [reflexivity|]. eexists. left. }
  destruct E as (f' & E & r & Hr).
  exists f', r. split; [exact E|]. split; [exact Hr|].
  apply (fetched_confidence_above_threshold
           (Demo.face_submitted (Demo.q32 7 5) true) f' r);
    [vm_compute; reflexivity | exact E | exact Hr].
Defined.

(** C4, as amended.  [enlarge] makes the box square with side
    [static_cast<int>(e * max(w, h))] (the float product, truncated) and puts
    its origin at [(x + w / 2 - floor(dx * side / 2),
    y + h / 2 - floor(dy * side / 2))], with truncating integer halves;
    every detection that [fetchResults] stores carries such a box; and the
    box (0, 0, 100, 50) with e = 1.4, dx = dy = 1 becomes 140 x 140 at
    (-20, -45). *)
Theorem emitted_box_enlarged :
  (∀ (f : FaceDetection.t) (raw box : Rect.t),
     FaceDetection.enlarge f raw = Value box →
     ∃ newSize off_x off_y,
       to_int (F32.mul (FaceDetection.bb_enlarge_coefficient f)
                 (F32.of_Z (Z.max (Rect.width raw) (Rect.height raw)))) = Value newSize ∧
       Rect.width box = newSize ∧ Rect.height box = newSize ∧
       to_int (F32.floor (F32.div (F32.mul (FaceDetection.bb_dx_coefficient f)
                                     (F32.of_Z newSize)) (F32.of_Z 2))) = Value off_x ∧
       to_int (F32.floor (F32.div (F32.mul (FaceDetection.bb_dy_coefficient f)
                                     (F32.of_Z newSize)) (F32.of_Z 2))) = Value off_y ∧
       Rect.x box = Rect.x raw + Z.quot (Rect.width raw) 2 - off_x ∧
       Rect.y box = Rect.y raw + Z.quot (Rect.height raw) 2 - off_y)
  ∧ (∀ (f f' : FaceDetection.t) (r : FaceDetection.Result),
       fst (BaseDetection.enabled (FaceDetection.fbase f)) = true →
       FaceDetection.fetchResults f = Value f' →
       r ∈ FaceDetection.results f' →
       ∃ raw, FaceDetection.enlarge f raw = Value (FaceDetection.location r))
  ∧ FaceDetection.enlarge (Demo.face (Demo.q32 7 5) false)
      {| Rect.x := 0; Rect.y := 0; Rect.width := 100; Rect.height := 50 |}
    = Value {| Rect.x := -20; Rect.y := -45; Rect.width := 140; Rect.height := 140 |}.
Proof.
  split; [|split].
  - apply enlarge_Value.
  - intros f f' r Hen Hfetch Hr.
    pose proof (fetchResults_ok f f' Hen Hfetch) as Hall.
    rewrite Forall_forall in Hall. by destruct (Hall r Hr) as [_ Hraw].
  - vm_compute. reflexivity.
Qed.

Lemma emitted_box_enlarged_witness :
  ∃ newSize off_x off_y,
    to_int (F32.mul (Demo.q32 6 5) (F32.of_Z (Z.max 101 33))) = Value newSize
    ∧ to_int (F32.floor (F32.div (F32.mul (F32.of_Z 1) (F32.of_Z newSize)) (F32.of_Z 2)))
      = Value off_x
    ∧ to_int (F32.floor (F32.div (F32.mul (F32.of_Z 1) (F32.of_Z newSize)) (F32.of_Z 2)))
      = Value off_y
    ∧ newSize = 121 ∧ 0 = 10 + Z.quot 101 2 - off_x ∧ -24 = 20 + Z.quot 33 2 - off_y.
Proof.
  destruct (proj1 emitted_box_enlarged (Demo.face (Demo.q32 6 5) false)
              {| Rect.x := 10; Rect.y := 20; Rect.width := 101; Rect.height := 33 |}
              {| Rect.x := 0; Rect.y := -24; Rect.width := 121; Rect.height := 121 |}
              ltac:(vm_compute; reflexivity))
    as (n & ox & oy & Hn & Hw & Hh & Hox & Hoy & Hx & Hy).
  exists n, ox, oy. simpl in Hw, Hx, Hy.
  split; [exact Hn|]. split; [exact Hox|]. split; [exact Hoy|].
  split; [by symmetry|]. split; assumption.
Defined.

(** The claim C4 as stated fails where [e * max(w, h)] is not an integer:
    the box (0, 0, 3, 3) with e = 1.5 gets side 4, and 4 is not 1.5 * 3 = 4.5;
    its centre is taken at 0 + 3 / 2 = 1, not at 1.5. *)
Lemma emitted_box_not_exact_product :
  FaceDetection.enlarge (Demo.face (Demo.q32 3 2) false)
    {| Rect.x := 0; Rect.y := 0; Rect.width := 3; Rect.height := 3 |}
  = Value {| Rect.x := -1; Rect.y := -1; Rect.width := 4; Rect.height := 4 |}
  ∧ SFeqb (F32.of_Z 4) (F32.mul (Demo.q32 3 2) (F32.of_Z (Z.max 3 3))) = false
  ∧ F32.mul (Demo.q32 3 2) (F32.of_Z (Z.max 3 3)) = Demo.q32 9 2
  ∧ 2 * (0 + Z.quot 3 2) ≠ 2 * 0 + 3.
Proof. vm_compute. split_and!; (reflexivity || discriminate). Qed.

(** ** The cached flag *)

Section EnabledFlag.
Import BaseDetection.


Lemma enabled_settled b : settled b → enabled b = (true, b).
Proof. intros [H1 H2]. unfold enabled. by rewrite H1, H2. Qed.

Lemma enabled_true_settled b : fst (enabled b) = true → settled (snd (enabled b)).
Proof.
  unfold enabled, settled.
  destruct (enablingChecked b) eqn:E; simpl; [by intros ->|].
  by intros ->.
Qed.

Lemma settled_called c b : settled b → settled (called c b).
Proof. done. Qed.

Lemma settled_logged l b : settled b → settled (logged l b).
Proof. done. Qed.

Lemma settled_set_request r b : settled b → settled (set_request r b).
Proof. done. Qed.

Lemma settled_calls cs : ∀ b, settled b → settled (fold_left (λ b c, called c b) cs b).
Proof. induction cs as [|c cs IH]; intros b Hb; simpl; [done|]. by apply IH. Qed.

Lemma settled_logs ls : ∀ b, settled b → settled (fold_left (λ b l, logged l b) ls b).
Proof. induction ls as [|l ls IH]; intros b Hb; simpl; [done|]. by apply IH. Qed.

Lemma submitRequest_settled b :
  fst (enabled b) = true → settled (BaseDetection.submitRequest b).
Proof.
  intros Hen. unfold BaseDetection.submitRequest.
  pose proof (enabled_true_settled b Hen) as Hs.
  destruct (enabled b) as [en b']. simpl in *. subst en. simpl.
  destruct (request b'); [destruct (isAsync b')|]; done.
Qed.
End EnabledFlag.

Section FetchedRows.
Import BaseDetection FaceDetection.

Lemma stored_rows_first thr row first visited rs :
  stored_rows thr row first visited rs → first ≤ visited.
Proof. induction 1; lia. Qed.

(** The loop over the 7-wide output stores the rows it visits. *)
Lemma loop_seven_rows f detections n : ∀ i acc acc',
  objectSize f = 7 →
  loop_seven f detections n i acc = Value acc' →
  ∃ visited rs,
    fst acc' = fst acc ++ rs
    ∧ i ≤ visited ≤ i + Z.of_nat n
    ∧ (∀ j, i ≤ j < visited →
            ∃ image_id, detection_at f detections j 0 = Value image_id
                        ∧ Flt.ltb image_id (F32.of_Z 0) = false)
    ∧ (visited = i + Z.of_nat n
       ∨ ∃ image_id, detection_at f detections visited 0 = Value image_id
                     ∧ Flt.ltb image_id (F32.of_Z 0) = true)
    ∧ stored_rows (detectionThreshold f) (seven_row f detections) i visited rs.
Proof.
  induction n as [|n IH]; intros i acc acc' H7 H.
  - simpl in H. injection H as <-. exists i, [].
    rewrite app_nil_r. split_and!; [done|lia|lia|intros; lia|left; lia|constructor].
  - cbn [loop_seven] in H. rewrite H7 in H. change (negb (7 =? 7)) with false in H.
    cbn beta iota in H.
    apply bind_Value in H as (image_id & Hid & H).
    destruct (Flt.ltb image_id (F32.of_Z 0)) eqn:Hneg.
    { injection H as <-. exists i, []. rewrite app_nil_r.
      split_and!; [done|lia|lia|intros; lia|right; eauto|constructor]. }
    apply bind_Value in H as (lbl_f & Hlf & H).
    apply bind_Value in H as (lbl & Hl & H).
    apply bind_Value in H as (conf & Hc & H).
    assert (Hfirst : ∀ visited j, i ≤ j < visited →
              (∀ j, i + 1 ≤ j < visited →
                    ∃ image_id, detection_at f detections j 0 = Value image_id
                                ∧ Flt.ltb image_id (F32.of_Z 0) = false) →
              ∃ image_id, detection_at f detections j 0 = Value image_id
                          ∧ Flt.ltb image_id (F32.of_Z 0) = false).
    { intros visited j Hj Hrest. destruct (decide (j = i)) as [->|Hne]; [eauto|].
      apply Hrest. lia. }
    destruct (Flt.leb (F64.of_float conf) (detectionThreshold f)
              && negb (doRawOutputMessages (fbase f))) eqn:Hskip.
    + apply andb_prop in Hskip as [Hle _].
      destruct (IH _ _ _ H7 H) as (visited & rs & Hacc & Hv & Hids & Hend & Hrows).
      exists visited, rs.
      split_and!; [done|lia|lia|by eauto|
                   |].
      * destruct Hend as [->|?]; [left; lia|by right].
      * apply stored_skip; [lia| |done].
        intros r (_ & Hcr & _). rewrite Hc in Hcr. injection Hcr as <-.
        by apply leb_not_ltb.
    + bind_inv H.
      match type of H with
      | loop_seven _ _ _ _ (emit _ _ ?r0 _) = _ => set (r := r0) in *
      end.
      assert (Hrow : seven_row f detections i r).
      { split; [by eauto|]. split; [done|].
        eexists {| Rect.x := _; Rect.y := _; Rect.width := _; Rect.height := _ |}.
        split; [|eassumption]. unfold seven_box. simpl. eauto 12. }
      destruct (IH _ _ _ H7 H) as (visited & rs & Hacc & Hv & Hids & Hend & Hrows).
      assert (Hend' : visited = i + Z.of_nat (S n)
                      ∨ ∃ image_id, detection_at f detections visited 0 = Value image_id
                                    ∧ Flt.ltb image_id (F32.of_Z 0) = true).
      { destruct Hend as [->|?]; [left; lia|by right]. }
      unfold emit in Hacc. cbn [fst] in Hacc.
      destruct (Flt.ltb (detectionThreshold f) (F64.of_float (confidence r))) eqn:Hr.
      * exists visited, (r :: rs).
        split_and!; [by rewrite Hacc, <- app_assoc|lia|lia|by eauto|done|].
        apply stored_keep; [lia|done|done|done].
      * exists visited, rs.
        split_and!; [done|lia|lia|by eauto|done|].
        apply stored_skip; [lia| |done].
        intros r' (_ & Hcr & _). simpl in Hr. rewrite Hc in Hcr.
        injection Hcr as <-. exact Hr.
Qed.

(** The loop over the boxes output stores all its rows. *)
Lemma loop_boxes_rows f detections labels n : ∀ i acc acc',
  objectSize f = 5 →
  loop_boxes f detections labels n i acc = Value acc' →
  ∃ rs, fst acc' = fst acc ++ rs
        ∧ stored_rows (detectionThreshold f) (boxes_row f detections labels) i (i + Z.of_nat n) rs.
Proof.
  induction n as [|n IH]; intros i acc acc' H5 H.
  - simpl in H. injection H as <-. exists [].
    rewrite app_nil_r. split; [done|].
    replace (i + Z.of_nat 0) with i by lia. constructor.
  - cbn [loop_boxes] in H. rewrite H5 in H. change (negb (5 =? 5)) with false in H.
    cbn beta iota in H.
    apply bind_Value in H as (lbl & Hl & H).
    apply bind_Value in H as (conf & Hc & H).
    replace (i + Z.of_nat (S n)) with (i + 1 + Z.of_nat n) by lia.
    destruct (Flt.leb (F64.of_float conf) (detectionThreshold f)
              && negb (doRawOutputMessages (fbase f))) eqn:Hskip.
    + apply andb_prop in Hskip as [Hle _].
      destruct (IH _ _ _ H5 H) as (rs & Hacc & Hrows).
      exists rs. split; [done|].
      apply stored_skip; [lia| |done].
      intros r (_ & Hcr & _). rewrite Hc in Hcr. injection Hcr as <-.
      by apply leb_not_ltb.
    + bind_inv H.
      match type of H with
      | loop_boxes _ _ _ _ _ (emit _ _ ?r0 _) = _ => set (r := r0) in *
      end.
      assert (Hrow : boxes_row f detections labels i r).
      { split; [done|]. split; [done|].
        eexists {| Rect.x := _; Rect.y := _; Rect.width := _; Rect.height := _ |}.
        split; [|eassumption]. unfold boxes_box. simpl. eauto 12. }
      destruct (IH _ _ _ H5 H) as (rs & Hacc & Hrows).
      unfold emit in Hacc. cbn [fst] in Hacc.
      destruct (Flt.ltb (detectionThreshold f) (F64.of_float (confidence r))) eqn:Hr.
      * exists (r :: rs). split; [by rewrite Hacc, <- app_assoc|].
        apply stored_keep; [lia|done|done|done].
      * exists rs. split; [done|].
        apply stored_skip; [lia| |done].
        intros r' (_ & Hcr & _). simpl in Hr. rewrite Hc in Hcr.
        injection Hcr as <-. exact Hr.
Qed.

(** The first [fetchResults] after [submitRequest]: what it stores. *)
Lemma fetchResults_rows f f1 :
  settled (fbase f) → resultsFetched f = false →
  fetchResults f = Value f1 →
  fetched_from_output f (results f1).
Proof.
  intros Hs Hnf. unfold fetched_from_output, fetchResults.
  rewrite (enabled_settled _ Hs). simpl. rewrite Hnf. simpl.
  destruct (request (fbase f)) as [r|]; simpl; [|done].
  destruct (GetBlob r (output f)) as [detections| |] eqn:Hdet; simpl; [|done..].
  intros Hrun. exists r, detections. split; [done|]. split; [done|].
  apply bind_Value in Hrun as ([acc calls2] & Hacc & Hrun).
  apply bind_Value in Hrun as (acc' & Hloop & Hrun).
  injection Hrun as <-. simpl.
  set (f' := set_fetch true [] (set_base (fbase f) f)) in *.
  assert (Hmax : Z.of_nat (Z.to_nat (maxProposalCount f)) = Z.max 0 (maxProposalCount f))
    by lia.
  split_and!.
  - intros H7.
    assert (Hb : fst acc = []).
    { destruct (String.eqb (labels_output f) ""); simpl in Hacc.
      - by injection Hacc as <- _.
      - apply bind_Value in Hacc as (labels & _ & Hacc).
        apply bind_Value in Hacc as (acc0 & Hboxes & Hacc).
        injection Hacc as <- _.
        rewrite loop_boxes_other_size in Hboxes by (simpl; lia).
        by injection Hboxes as <-. }
    destruct (loop_seven_rows f' detections _ _ _ _ H7 Hloop)
      as (visited & rs & Hres & Hv & Hids & Hend & Hrows).
    rewrite Hb in Hres. simpl in Hres. rewrite Hres.
    exists visited. split; [|exact Hrows].
    unfold seven_visited. rewrite <- Hmax. split_and!; [lia|lia|exact Hids|exact Hend].
  - intros H5 Hlab.
    rewrite loop_seven_other_size in Hloop by (simpl; lia).
    injection Hloop as <-.
    destruct (String.eqb_spec (labels_output f) "") as [|_]; [done|]. simpl in Hacc.
    apply bind_Value in Hacc as (labels & Hlabels & Hacc).
    apply bind_Value in Hacc as (acc0 & Hboxes & Hacc).
    injection Hacc as <- _.
    destruct (loop_boxes_rows f' detections labels _ _ _ _ H5 Hboxes)
      as (rs & Hres & Hrows).
    simpl in Hres. rewrite Hres. exists labels. split; [done|].
    rewrite <- Hmax. exact Hrows.
  - intros H7 Hother.
    rewrite loop_seven_other_size in Hloop by done. injection Hloop as <-.
    destruct (String.eqb_spec (labels_output f) "") as [E|E]; simpl in Hacc.
    + by injection Hacc as <- _.
    + apply bind_Value in Hacc as (labels & _ & Hacc).
      apply bind_Value in Hacc as (acc0 & Hboxes & Hacc).
      injection Hacc as <- _.
      destruct Hother as [H5|?]; [|done].
      rewrite loop_boxes_other_size in Hboxes by done. by injection Hboxes as <-.
Qed.
End FetchedRows.

(** C10.  After [submitRequest] of an enabled detector with a frame
    enqueued, the first [fetchResults] fills [results] from the output of
    the request (the rows above the threshold, decoded, in either format)
    and sets [resultsFetched]; every later [fetchResults] before the next
    [submitRequest] clears [results] and returns at the test of
    [resultsFetched], so it leaves the list empty and changes nothing
    else. *)
Theorem fetchResults_again_is_empty `{OcvCommon} (f0 f1 : FaceDetection.t) (n : nat) :
  fst (BaseDetection.enabled (FaceDetection.fbase f0)) = true →
  FaceDetection.enquedFrames f0 ≠ 0 →
  FaceDetection.fetchResults (FaceDetection.submitRequest f0) = Value f1 →
  FaceDetection.resultsFetched (FaceDetection.submitRequest f0) = false
  ∧ FaceDetection.results (FaceDetection.submitRequest f0) = []
  ∧ FaceDetection.resultsFetched f1 = true
  ∧ fetched_from_output (FaceDetection.submitRequest f0) (FaceDetection.results f1)
  ∧ face_run (replicate (S n) DoFetch) f1 = Value (FaceDetection.set_fetch true [] f1).
Proof.
  intros Hen Hq Hfetch.
  assert (Hsub : FaceDetection.resultsFetched (FaceDetection.submitRequest f0) = false
                 ∧ FaceDetection.results (FaceDetection.submitRequest f0) = []
                 ∧ settled (FaceDetection.fbase (FaceDetection.submitRequest f0))).
  { unfold FaceDetection.submitRequest.
    destruct (Z.eqb_spec (FaceDetection.enquedFrames f0) 0) as [|_]; [done|]. simpl.
    repeat split; by apply submitRequest_settled. }
  destruct Hsub as (Hsub1 & Hsub2 & Hsub3).
  split; [exact Hsub1|]. split; [exact Hsub2|].
  set (f := FaceDetection.submitRequest f0) in *. clearbody f.
  (* the state after the first fetch *)
  assert (Hf1 : FaceDetection.resultsFetched f1 = true
                ∧ settled (FaceDetection.fbase f1)).
  { revert Hfetch. unfold FaceDetection.fetchResults.
    rewrite (enabled_settled _ Hsub3). simpl. rewrite Hsub1. simpl. intros Hrun.
    apply bind_Value in Hrun as (r & _ & Hrun).
    apply bind_Value in Hrun as (detections & _ & Hrun).
    apply bind_Value in Hrun as ([acc calls2] & _ & Hrun).
    apply bind_Value in Hrun as (acc' & _ & Hrun).
    injection Hrun as <-. simpl.
    split; [reflexivity|]. by apply settled_logs, settled_calls. }
  destruct Hf1 as (Hfetched & Hs1).
  split; [exact Hfetched|].
  split; [by apply fetchResults_rows|].
  (* one more fetch, and any number after it *)
  assert (Hstep : ∀ g, FaceDetection.resultsFetched g = true →
                   settled (FaceDetection.fbase g) →
                   FaceDetection.fetchResults g = Value (FaceDetection.set_fetch true [] g)).
  { intros g Hg1 Hg2. unfold FaceDetection.fetchResults.
    rewrite (enabled_settled _ Hg2). simpl. rewrite Hg1.
    destruct g; simpl in *. by subst. }
  clear Hfetch. revert f1 Hfetched Hs1.
  induction n as [|n IH]; intros g Hg1 Hg2.
  - simpl. by rewrite Hstep.
  - change (replicate (S (S n)) DoFetch) with (DoFetch :: replicate (S n) DoFetch).
    cbn [face_run face_step]. rewrite Hstep by assumption.
    change (face_run (replicate (S n) DoFetch) (FaceDetection.set_fetch true [] g)
            = Value (FaceDetection.set_fetch true [] g)).
    by rewrite IH.
Qed.

Lemma fetchResults_again_is_empty_witness :
  (∃ f1 r,
     FaceDetection.fetchResults
       (FaceDetection.submitRequest (Demo.face_loaded (Demo.q32 7 5) false)) = Value f1
     ∧ FaceDetection.results f1 = [r]
     ∧ FaceDetection.confidence r = Demo.q32 9 10
     ∧ fetched_from_output
         (FaceDetection.submitRequest (Demo.face_loaded (Demo.q32 7 5) false))
         (FaceDetection.results f1)
     ∧ @face_run store_mat [DoFetch] f1 = Value (FaceDetection.set_fetch true [] f1)
     ∧ @face_run store_mat [DoFetch; DoFetch; DoFetch] f1
       = Value (FaceDetection.set_fetch true [] f1))
  ∧ ∃ f1 r,
      FaceDetection.fetchResults
        (FaceDetection.submitRequest (Boxes.face_loaded false)) = Value f1
      ∧ FaceDetection.results f1 = [r]
      ∧ FaceDetection.label r = 1
      ∧ FaceDetection.confidence r = Demo.q32 9 10
      ∧ FaceDetection.location r
        = {| Rect.x := -20; Rect.y := -45; Rect.width := 140; Rect.height := 140 |}
      ∧ fetched_from_output (FaceDetection.submitRequest (Boxes.face_loaded false))
          (FaceDetection.results f1)
      ∧ @face_run store_mat [DoFetch; DoFetch] f1
        = Value (FaceDetection.set_fetch true [] f1).
Proof.
  split.
  - assert (E : ∃ f1, FaceDetection.fetchResults
                        (FaceDetection.submitRequest
                           (Demo.face_loaded (Demo.q32 7 5) false))
                      = Value f1
                      ∧ ∃ r, FaceDetection.results f1 = [r]
                             ∧ FaceDetection.confidence r = Demo.q32 9 10).
    { vm_compute. eexists. split; [reflexivity|]. eexists. split; reflexivity. }
    destruct E as (f1 & E & r & Hr & Hc).
    exists f1, r. split; [exact E|]. split; [exact Hr|]. split; [exact Hc|].
    split_and!.
    + apply (@fetchResults_again_is_empty store_mat
               (Demo.face_loaded (Demo.q32 7 5) false) f1 0);
        [vm_compute; reflexivity | vm_compute; discriminate | exact E].
    + apply (@fetchResults_again_is_empty store_mat
               (Demo.face_loaded (Demo.q32 7 5) false) f1 0);
        [vm_compute; reflexivity | vm_compute; discriminate | exact E].
    + apply (@fetchResults_again_is_empty store_mat
               (Demo.face_loaded (Demo.q32 7 5) false) f1 2);
        [vm_compute; reflexivity | vm_compute; discriminate | exact E].
  - assert (E : ∃ f1, FaceDetection.fetchResults
                        (FaceDetection.submitRequest (Boxes.face_loaded false))
                      = Value f1
                      ∧ ∃ r, FaceDetection.results f1 = [r]
                             ∧ FaceDetection.label r = 1
                             ∧ FaceDetection.confidence r = Demo.q32 9 10
                             ∧ FaceDetection.location r
                               = {| Rect.x := -20; Rect.y := -45;
                                    Rect.width := 140; Rect.height := 140 |}).
    { vm_compute. eexists. split; [reflexivity|]. eexists. split_and!; reflexivity. }
    destruct E as (f1 & E & r & Hr & Hl & Hc & Hloc).
    exists f1, r. split; [exact E|]. split; [exact Hr|]. split; [exact Hl|].
    split; [exact Hc|]. split; [exact Hloc|]. split.
    + apply (@fetchResults_again_is_empty store_mat (Boxes.face_loaded false) f1 0);
        [vm_compute; reflexivity | vm_compute; discriminate | exact E].
    + apply (@fetchResults_again_is_empty store_mat (Boxes.face_loaded false) f1 1);
        [vm_compute; reflexivity | vm_compute; discriminate | exact E].
Defined.

(** ** The facial landmarks stage *)

(** The shape test of [FacialLandmarksDetection::read] rejects an output
    only if it has both a rank other than 2 and a last dimension other
    than 70. *)
Lemma bad_shape_iff (outSizeVector : list Z) (back : Z) :
  last outSizeVector = Some back →
  FacialLandmarksDetection.bad_shape outSizeVector = Value true
  ↔ length outSizeVector ≠ 2%nat ∧ back ≠ 70.
Proof.
  intros Hlast. unfold FacialLandmarksDetection.bad_shape. rewrite Hlast.
  destruct (Z.eqb_spec (Z.of_nat (length outSizeVector)) 2) as [E|E]; simpl.
  - split; [discriminate|]. intros [Hn _]. lia.
  - destruct (Z.eqb_spec back 70) as [E'|E']; simpl.
    + split; [discriminate|]. by intros [_ Hn].
    + split; [|done]. intros _. split; [lia|done].
Qed.

(** C2: the code at the failing input.  A model whose output [align_fc3]
    has shape [1, 68] (rank 2, last dimension 68) passes [read], which marks
    the stage enabled; so does one of shape [1, 70, 1, 1] (rank 4). *)
Theorem landmarks_read_accepts_wrong_shape :
  (∃ network s,
     FacialLandmarksDetection.read
       (Demo.core (Demo.landmarks_cnn [1; 68]) Demo.no_net) Demo.landmarks
     = Value (network, s)
     ∧ BaseDetection._enabled (sbase s) = true)
  ∧ (∃ network s,
       FacialLandmarksDetection.read
         (Demo.core (Demo.landmarks_cnn [1; 1; 1; 70]) Demo.no_net) Demo.landmarks
       = Value (network, s)
       ∧ BaseDetection._enabled (sbase s) = true)
  ∧ (∃ what,
       FacialLandmarksDetection.read
         (Demo.core (Demo.landmarks_cnn [1; 1; 1; 68]) Demo.no_net) Demo.landmarks
       = Thrown (logic_error what)).
Proof.
  split; [|split]; vm_compute; eexists; try eexists; try split; reflexivity.
Qed.

(** ** The call timer *)

Section TimerFacts.
Context `{Chrono}.
Import CallStat.


Lemma one_minus_alpha : F64.sub one alpha = nine_tenths.
Proof. vm_compute. reflexivity. Qed.

Lemma alpha_is_tenth : alpha = F64.div (F64.of_Z 1) (F64.of_Z 10).
Proof. vm_compute. reflexivity. Qed.


Lemma ema_nonneg s l : Flt.nonneg s = true → Flt.nonneg l = true → Flt.nonneg (ema s l) = true.
Proof.
  intros Hs Hl. unfold ema, F64.add, F64.mul, nine_tenths, alpha.
  apply SFadd_nonneg; by apply SFmul_nonneg.
Qed.

Lemma calculateDuration_seed now c :
  Flt.ltb (_smoothed_duration c) zero = true →
  _smoothed_duration (calculateDuration now c)
  = ema (ms_count (now - _last_call_start c)) (ms_count (now - _last_call_start c)).
Proof.
  intros Hlt. unfold calculateDuration. cbn [_smoothed_duration].
  by rewrite Hlt, one_minus_alpha.
Qed.

Lemma calculateDuration_update now c :
  Flt.ltb (_smoothed_duration c) zero = false →
  _smoothed_duration (calculateDuration now c)
  = ema (_smoothed_duration c) (ms_count (now - _last_call_start c)).
Proof.
  intros Hlt. unfold calculateDuration. cbn [_smoothed_duration].
  by rewrite Hlt, one_minus_alpha.
Qed.

Lemma start_lookup name now (timers : gmap string CallStat.t) :
  Timer.start name now timers !! name
  = Some (setStartTime now (default CallStat.make (timers !! name))).
Proof.
  unfold Timer.start. destruct (timers !! name) as [c|] eqn:E; simpl.
  - by rewrite lookup_alter_eq, E.
  - by rewrite lookup_alter_eq, lookup_insert_eq.
Qed.

Lemma start_lookup_ne name other now (timers : gmap string CallStat.t) :
  name ≠ other → Timer.start name now timers !! other = timers !! other.
Proof.
  intros Hne. unfold Timer.start. rewrite lookup_alter_ne by done.
  destruct (timers !! name); [done|]. by rewrite lookup_insert_ne.
Qed.

Lemma finish_Value name now (timers : gmap string CallStat.t) c :
  timers !! name = Some c →
  Timer.finish name now timers = Value (<[name := calculateDuration now c]> timers).
Proof. intros E. unfold Timer.finish, Timer.at_. by rewrite E. Qed.
End TimerFacts.


Section TimerHistories.
Context `{Chrono}.
Import CallStat.

(** The readings of a monotonic clock give durations that are not negative. *)
Hypothesis ms_count_nonneg : ∀ d, 0 ≤ d → Flt.nonneg (ms_count d) = true.

Lemma elem_of_add_other (name0 name : string) (X : gset string) :
  name0 ≠ name → name ∈ {[name0]} ∪ X ↔ name ∈ X.
Proof. intros Hne. rewrite elem_of_union, elem_of_singleton. intuition congruence. Qed.

Lemma elem_of_add_same (name : string) (X : gset string) : name ∈ {[name]} ∪ X.
Proof. apply elem_of_union_l, elem_of_singleton. reflexivity. Qed.

(** A name on which [finish] has returned has a record. *)
Lemma reach_finished_known clock timers finished name :
  reach clock timers finished → name ∈ finished → is_Some (timers !! name).
Proof.
  induction 1 as [clock|clock timers finished name0 now Hr IH Hle
                 |clock timers finished name0 now timers' Hr IH Hle Hfin];
    intros Hin.
  - by apply elem_of_empty in Hin.
  - destruct (decide (name0 = name)) as [->|Hne].
    + rewrite start_lookup. eauto.
    + rewrite start_lookup_ne by done. by apply IH.
  - unfold Timer.finish, Timer.at_ in Hfin.
    destruct (timers !! name0) as [c0|] eqn:E0; [|discriminate].
    injection Hfin as <-.
    destruct (decide (name0 = name)) as [->|Hne].
    + rewrite lookup_insert_eq. eauto.
    + rewrite lookup_insert_ne by done. apply IH. by apply (elem_of_add_other name0).
Qed.

Lemma reach_invariant clock timers finished :
  reach clock timers finished →
  ∀ name c, timers !! name = Some c →
    _last_call_start c ≤ clock
    ∧ (name ∈ finished → Flt.nonneg (_smoothed_duration c) = true)
    ∧ (name ∉ finished → _smoothed_duration c = minus_one).
Proof.
  induction 1 as [clock|clock timers finished name0 now Hr IH Hle
                 |clock timers finished name0 now timers' Hr IH Hle Hfin];
    intros name c Hc.
  - by rewrite lookup_empty in Hc.
  - destruct (decide (name0 = name)) as [->|Hne].
    + rewrite start_lookup in Hc. injection Hc as <-. simpl.
      split; [lia|].
      destruct (timers !! name) as [c0|] eqn:E; simpl.
      * destruct (IH name c0 E) as (_ & H1 & H2). by split.
      * split; [|done]. intros Hin.
        destruct (reach_finished_known _ _ _ name Hr Hin) as [c0 E0]. congruence.
    + rewrite start_lookup_ne in Hc by done.
      destruct (IH name c Hc) as (H0 & H1 & H2). split_and!; [lia|done..].
  - unfold Timer.finish, Timer.at_ in Hfin.
    destruct (timers !! name0) as [c0|] eqn:E0; [|discriminate].
    injection Hfin as <-.
    destruct (decide (name0 = name)) as [->|Hne].
    + rewrite lookup_insert_eq in Hc. injection Hc as <-.
      destruct (IH name c0 E0) as (H0 & H1 & H2).
      split; [simpl; lia|]. split; [|by intros []; apply elem_of_add_same]. intros _.
      assert (Hd : Flt.nonneg (ms_count (now - _last_call_start c0)) = true)
        by (apply ms_count_nonneg; lia).
      destruct (decide (name ∈ finished)) as [Hin|Hnin].
      * rewrite calculateDuration_update by (apply nonneg_not_lt_zero; auto).
        apply ema_nonneg; auto.
      * rewrite calculateDuration_seed by (by rewrite (H2 Hnin)).
        by apply ema_nonneg.
    + rewrite lookup_insert_ne in Hc by done.
      destruct (IH name c Hc) as (H0 & H1 & H2).
      split; [lia|]. split; [intros Hin; apply H1|intros Hnin; apply H2];
        by rewrite <- (elem_of_add_other name0).
Qed.

(** C9.  In a timer reached with a monotonic clock, for a name that has
    been started: while no [finish] on it has returned, the smoothed
    duration still holds the negative sentinel and [smoothedDuration]
    returns the time elapsed since the last [start], which is not
    negative; once a [finish] has returned it returns the stored moving
    average. *)
Theorem smoothedDuration_live_then_stored
    (clock now : Z) (timers : gmap string CallStat.t) (finished : gset string)
    (name : string) (c : CallStat.t) :
  reach clock timers finished →
  timers !! name = Some c →
  clock ≤ now →
  (name ∉ finished →
     Flt.ltb (_smoothed_duration c) zero = true
     ∧ Timer.smoothedDuration name now timers
       = Value (ms_count (now - _last_call_start c))
     ∧ Flt.nonneg (ms_count (now - _last_call_start c)) = true)
  ∧ (name ∈ finished →
       Flt.ltb (_smoothed_duration c) zero = false
       ∧ Timer.smoothedDuration name now timers = Value (_smoothed_duration c)).
Proof.
  intros Hr Hc Hle.
  destruct (reach_invariant _ _ _ Hr name c Hc) as (H0 & H1 & H2).
  unfold Timer.smoothedDuration, Timer.at_. rewrite Hc. simpl.
  unfold getSmoothedDuration.
  split.
  - intros Hnin. rewrite (H2 Hnin).
    change (Flt.ltb minus_one zero) with true.
    split_and!; [done..|]. apply ms_count_nonneg. lia.
  - intros Hin. by rewrite (nonneg_not_lt_zero _ (H1 Hin)).
Qed.

(** C6, as amended.  The first [finish] on a name seeds the smoothed
    duration with the raw duration [d1] and then applies the update to it:
    the result is [d1 * 0.9 + d1 * 0.1] in double arithmetic.  The second
    applies the update to that value and the raw duration [d2]. *)
Theorem smoothed_after_two_finishes
    (name : string) (timers : gmap string CallStat.t) (t0 t1 t2 t3 : Z) :
  timers !! name = None →
  t0 ≤ t1 →
  ∃ T1 T2 c1 c2,
    Timer.finish name t1 (Timer.start name t0 timers) = Value T1
    ∧ T1 !! name = Some c1
    ∧ _last_call_duration c1 = ms_count (t1 - t0)
    ∧ _smoothed_duration c1 = ema (ms_count (t1 - t0)) (ms_count (t1 - t0))
    ∧ Timer.finish name t3 (Timer.start name t2 T1) = Value T2
    ∧ T2 !! name = Some c2
    ∧ _last_call_duration c2 = ms_count (t3 - t2)
    ∧ _smoothed_duration c2
      = ema (ema (ms_count (t1 - t0)) (ms_count (t1 - t0))) (ms_count (t3 - t2)).
Proof.
  intros Hnew Hle.
  set (c0 := setStartTime t0 CallStat.make).
  assert (E0 : Timer.start name t0 timers !! name = Some c0)
    by (by rewrite start_lookup, Hnew).
  set (c1 := calculateDuration t1 c0).
  set (T1 := <[name := c1]> (Timer.start name t0 timers)).
  assert (E1 : T1 !! name = Some c1) by apply lookup_insert_eq.
  set (c1' := setStartTime t2 c1).
  assert (E2 : Timer.start name t2 T1 !! name = Some c1')
    by (by rewrite start_lookup, E1).
  set (c2 := calculateDuration t3 c1').
  exists T1, (<[name := c2]> (Timer.start name t2 T1)), c1, c2.
  assert (Hs1 : _smoothed_duration c1 = ema (ms_count (t1 - t0)) (ms_count (t1 - t0))).
  { subst c1. by rewrite calculateDuration_seed. }
  split_and!.
  - by apply finish_Value.
  - exact E1.
  - reflexivity.
  - exact Hs1.
  - by apply finish_Value.
  - apply lookup_insert_eq.
  - reflexivity.
  - assert (Hs1' : _smoothed_duration c1'
                   = ema (ms_count (t1 - t0)) (ms_count (t1 - t0))) by exact Hs1.
    subst c2. rewrite calculateDuration_update.
    + by rewrite Hs1'.
    + rewrite Hs1'. apply nonneg_not_lt_zero.
      assert (Flt.nonneg (ms_count (t1 - t0)) = true) by (apply ms_count_nonneg; lia).
      by apply ema_nonneg.
Qed.
End TimerHistories.

(** ** Capacity of a stage *)

Section StageCapacity.
Context `{OcvCommon} {D : Type}.
Import BaseDetection.

Lemma enabled_keeps b :
  maxBatch (snd (enabled b)) = maxBatch b
  ∧ request (snd (enabled b)) = request b
  ∧ net (snd (enabled b)) = net b
  ∧ calls (snd (enabled b)) = calls b
  ∧ pathToModel (snd (enabled b)) = pathToModel b
  ∧ (fst (enabled b) = true → slog (snd (enabled b)) = slog b).
Proof.
  unfold enabled. destruct (enablingChecked b); simpl; [done|].
  destruct (negb _); simpl; split_and!; done.
Qed.

Lemma enqueue_keeps_bound who face (s s' : Stage D) :
  0 ≤ enquedFaces s ≤ maxBatch (sbase s) →
  Stage.enqueue who face s = Value s' →
  0 ≤ enquedFaces s' ≤ maxBatch (sbase s') ∧ maxBatch (sbase s') = maxBatch (sbase s).
Proof.
  intros Hb. unfold Stage.enqueue.
  pose proof (enabled_keeps (sbase s)) as (Hm & _).
  destruct (enabled (sbase s)) as [en b]. simpl in Hm.
  destruct en; simpl.
  - destruct (Z.eqb_spec (enquedFaces s) (maxBatch b)) as [E|E].
    + intros [= <-]. simpl. lia.
    + intros Hrun.
      apply bind_Value in Hrun as ([r b1] & Hreq & Hrun).
      apply bind_Value in Hrun as (inputBlob & _ & Hrun).
      apply bind_Value in Hrun as (n & Hn & Hrun).
      injection Hrun as <-. simpl.
      apply int_result_Value in Hn as [-> _].
      assert (maxBatch b1 = maxBatch b) as ->.
      { destruct (request b); [by injection Hreq as _ <-|].
        destruct (net b); [by injection Hreq as _ <-|discriminate]. }
      lia.
  - intros [= <-]. simpl. lia.
Qed.
End StageCapacity.

(** C8.  On an enabled stage whose [enquedFaces] equals [maxBatch],
    [enqueue] returns without throwing: it logs the warning and leaves
    [enquedFaces], the request and the calls made on the engine as they
    were.  And from a state with [0 <= enquedFaces <= maxBatch], no
    sequence of [enqueue] calls takes [enquedFaces] above [maxBatch]. *)
Theorem enqueue_never_exceeds_maxBatch `{OcvCommon} {D : Type}
    (who : string) (s : Stage D) :
  fst (BaseDetection.enabled (sbase s)) = true →
  (∀ face, enquedFaces s = BaseDetection.maxBatch (sbase s) →
     ∃ s', Stage.enqueue who face s = Value s'
           ∧ enquedFaces s' = enquedFaces s
           ∧ BaseDetection.slog (sbase s')
             = BaseDetection.slog (sbase s)
               ++ [LogTooManyFaces (BaseDetection.maxBatch (sbase s)) who]
           ∧ BaseDetection.request (sbase s') = BaseDetection.request (sbase s)
           ∧ BaseDetection.calls (sbase s') = BaseDetection.calls (sbase s))
  ∧ (0 ≤ enquedFaces s ≤ BaseDetection.maxBatch (sbase s) →
     ∀ faces s', enqueue_all who faces s = Value s' →
       0 ≤ enquedFaces s' ≤ BaseDetection.maxBatch (sbase s')
       ∧ BaseDetection.maxBatch (sbase s') = BaseDetection.maxBatch (sbase s)).
Proof.
  intros Hen. split.
  - intros face Hfull. unfold Stage.enqueue.
    pose proof (enabled_keeps (sbase s)) as (Hm & Hr & _ & Hc & _ & Hl).
    specialize (Hl Hen).
    destruct (BaseDetection.enabled (sbase s)) as [en b]. simpl in *. subst en. simpl.
    rewrite Hm, Hfull, Z.eqb_refl.
    eexists. split; [reflexivity|]. simpl. by rewrite Hl.
  - clear Hen. intros Hb faces. revert s Hb.
    induction faces as [|face faces IH]; intros s Hb s' Hrun; simpl in Hrun.
    + injection Hrun as <-. by split.
    + apply bind_Value in Hrun as (s1 & H1 & Hrun).
      destruct (enqueue_keeps_bound who face s s1 Hb H1) as [Hb1 Hm1].
      destruct (IH s1 Hb1 s' Hrun) as [Hb' Hm']. split; [exact Hb'|congruence].
Qed.

(** ** Disabled stages *)


Section Disabled.
Context `{OcvCommon}.
Import BaseDetection.

Lemma make_inert topo device maxBatch dyn async raw :
  inert (BaseDetection.make topo "" device maxBatch dyn async raw)
  ∧ calls (BaseDetection.make topo "" device maxBatch dyn async raw) = [].
Proof. by unfold inert. Qed.

Lemma inert_enabled b :
  inert b →
  fst (enabled b) = false ∧ inert (snd (enabled b))
  ∧ calls (snd (enabled b)) = calls b.
Proof.
  intros (Hp & He & Hn & Hr). unfold enabled, inert.
  destruct (enablingChecked b) eqn:E; simpl.
  - by rewrite He.
  - rewrite Hp. simpl. by split_and!.
Qed.

Lemma inert_submitRequest b : inert b → BaseDetection.submitRequest b = snd (enabled b).
Proof.
  intros Hb. unfold BaseDetection.submitRequest.
  destruct (inert_enabled b Hb) as (Hf & _).
  destruct (enabled b) as [en b']. simpl in *. by subst en.
Qed.

Lemma inert_wait b : inert b → BaseDetection.wait b = snd (enabled b).
Proof.
  intros Hb. unfold BaseDetection.wait.
  destruct (inert_enabled b Hb) as (Hf & _).
  destruct (enabled b) as [en b']. simpl in *. by subst en.
Qed.

Section OfStage.
Context {D : Type}.
Variable rd : Core → Stage D → Outcome (CNNNetwork * Stage D).
Variable who : string.

Lemma inert_stage_step c (s : Stage D) :
  inert (sbase s) → enquedFaces s = 0 →
  ∃ s', stage_step rd who c s = Value s'
        ∧ inert (sbase s') ∧ enquedFaces s' = 0
        ∧ calls (sbase s') = calls (sbase s)
        ∧ self s' = self s ∧ input s' = input s.
Proof.
  intros Hb Hq.
  destruct (inert_enabled _ Hb) as (Hf & Hi & Hc).
  destruct c as [ie deviceName dyn|face| |]; simpl.
  - unfold Load.into. simpl.
    destruct (enabled (sbase s)) as [en b]. simpl in *. subst en.
    eexists. split; [reflexivity|]. by simpl.
  - unfold Stage.enqueue.
    destruct (enabled (sbase s)) as [en b]. simpl in *. subst en. simpl.
    eexists. split; [reflexivity|]. by simpl.
  - unfold Stage.submitRequest. rewrite Hq. simpl.
    eexists. split; [reflexivity|]. by destruct Hb.
  - unfold Stage.wait. rewrite inert_wait by done.
    eexists. split; [reflexivity|]. by simpl.
Qed.

Lemma inert_stage_run cs : ∀ (s : Stage D),
  inert (sbase s) → enquedFaces s = 0 →
  ∃ s', stage_run rd who cs s = Value s'
        ∧ inert (sbase s') ∧ enquedFaces s' = 0
        ∧ calls (sbase s') = calls (sbase s)
        ∧ self s' = self s ∧ input s' = input s.
Proof.
  induction cs as [|c cs IH]; intros s Hb Hq; simpl.
  - by exists s.
  - destruct (inert_stage_step c s Hb Hq) as (s1 & -> & Hb1 & Hq1 & Hc1 & Hs1 & Hi1).
    simpl.
    destruct (IH s1 Hb1 Hq1) as (s' & -> & Hb' & Hq' & Hc' & Hs' & Hi').
    exists s'. split_and!; [done..|congruence|congruence|congruence].
Qed.
End OfStage.

Lemma inert_face_step c (f : FaceDetection.t) :
  inert (FaceDetection.fbase f) → FaceDetection.enquedFrames f = 0 →
  ∃ f', face_step c f = Value f'
        ∧ inert (FaceDetection.fbase f') ∧ FaceDetection.enquedFrames f' = 0
        ∧ calls (FaceDetection.fbase f') = calls (FaceDetection.fbase f)
        ∧ FaceDetection.results f' = FaceDetection.results f.
Proof.
  intros Hb Hq.
  destruct (inert_enabled _ Hb) as (Hf & Hi & Hc).
  destruct c as [[ie deviceName dyn|frame| |]|]; simpl.
  - unfold Load.into. simpl.
    destruct (enabled (FaceDetection.fbase f)) as [en b]. simpl in *. subst en.
    eexists. split; [reflexivity|]. by simpl.
  - unfold FaceDetection.enqueue.
    destruct (enabled (FaceDetection.fbase f)) as [en b]. simpl in *. subst en. simpl.
    eexists. split; [reflexivity|]. by simpl.
  - unfold FaceDetection.submitRequest. rewrite Hq. simpl.
    eexists. split; [reflexivity|]. by destruct Hb.
  - unfold FaceDetection.wait. rewrite inert_wait by done.
    eexists. split; [reflexivity|]. by simpl.
  - unfold FaceDetection.fetchResults.
    destruct (enabled (FaceDetection.fbase f)) as [en b]. simpl in *. subst en. simpl.
    eexists. split; [reflexivity|]. by simpl.
Qed.

Lemma inert_face_run cs : ∀ (f : FaceDetection.t),
  inert (FaceDetection.fbase f) → FaceDetection.enquedFrames f = 0 →
  ∃ f', face_run cs f = Value f'
        ∧ inert (FaceDetection.fbase f') ∧ FaceDetection.enquedFrames f' = 0
        ∧ calls (FaceDetection.fbase f') = calls (FaceDetection.fbase f)
        ∧ FaceDetection.results f' = FaceDetection.results f.
Proof.
  induction cs as [|c cs IH]; intros f Hb Hq; simpl.
  - by exists f.
  - destruct (inert_face_step c f Hb Hq) as (f1 & -> & Hb1 & Hq1 & Hc1 & Hr1).
    simpl.
    destruct (IH f1 Hb1 Hq1) as (f' & -> & Hb' & Hq' & Hc' & Hr').
    exists f'. split_and!; [done..|congruence|congruence].
Qed.
End Disabled.

(** C3, as amended.  A stage constructed with an empty model path is
    inert, and stays so under every sequence of [Load::into], [enqueue],
    [submitRequest] and [wait] (and [fetchResults] for the face detector):
    each call returns, [enabled()] answers false, no call is made on the
    engine, and no network or request is ever bound. *)
Theorem disabled_stage_stays_inert `{OcvCommon} :
  (∀ (D : Type) (rd : Core → Stage D → Outcome (CNNNetwork * Stage D)) (who : string)
     (cs : list Call) (s : Stage D),
     inert (sbase s) → enquedFaces s = 0 →
     ∃ s', stage_run rd who cs s = Value s'
           ∧ fst (BaseDetection.enabled (sbase s')) = false
           ∧ inert (sbase s') ∧ enquedFaces s' = 0
           ∧ BaseDetection.calls (sbase s') = BaseDetection.calls (sbase s))
  ∧ (∀ (cs : list FaceCall) (f : FaceDetection.t),
       inert (FaceDetection.fbase f) → FaceDetection.enquedFrames f = 0 →
       ∃ f', face_run cs f = Value f'
             ∧ fst (BaseDetection.enabled (FaceDetection.fbase f')) = false
             ∧ inert (FaceDetection.fbase f') ∧ FaceDetection.enquedFrames f' = 0
             ∧ BaseDetection.calls (FaceDetection.fbase f')
               = BaseDetection.calls (FaceDetection.fbase f)
             ∧ FaceDetection.results f' = FaceDetection.results f)
  ∧ (∀ topo device maxBatch dyn async raw,
       inert (BaseDetection.make topo "" device maxBatch dyn async raw)
       ∧ BaseDetection.calls (BaseDetection.make topo "" device maxBatch dyn async raw) = []).
Proof.
  split; [|split].
  - intros D rd who cs s Hb Hq.
    destruct (inert_stage_run rd who cs s Hb Hq) as (s' & Hrun & Hb' & Hq' & Hc' & _).
    exists s'. split_and!; try done. by apply inert_enabled.
  - intros cs f Hb Hq.
    destruct (inert_face_run cs f Hb Hq) as (f' & Hrun & Hb' & Hq' & Hc' & Hr').
    exists f'. split_and!; try done. by apply inert_enabled.
  - apply make_inert.
Qed.

(** The claim C3 as stated includes [decode]; the [operator[]] of the five
    stages does not test [enabled()]: on a disabled stage it dereferences
    the null request. *)
Lemma disabled_stage_decode_dereferences_null :
  AntispoofingClassifier.decode
    (AntispoofingClassifier.make "" "CPU" 16 false false false) 0 = Undefined
  ∧ AgeGenderDetection.decode
      (AgeGenderDetection.make "" "CPU" 16 false false false) 0 = Undefined
  ∧ fst (BaseDetection.enabled
           (sbase (AntispoofingClassifier.make "" "CPU" 16 false false false))) = false.
Proof. by vm_compute. Qed.

(** ** Decoding by index *)



Section Decoding.

Lemma no_throw_Value {A} (a : A) : no_throw (Value a).
Proof. by intros e. Qed.

Lemma no_throw_bind {A B} (m : Outcome A) (k : A → Outcome B) :
  no_throw m → (∀ a, no_throw (k a)) → no_throw (m ≫= k).
Proof.
  intros Hm Hk e. destruct m as [a|e0|]; simpl; [apply Hk| |done].
  by destruct (Hm e0).
Qed.

Lemma no_throw_read_f32 b i : no_throw (read_f32 b i).
Proof.
  intros e. unfold read_f32.
  destruct (mem b); try done. destruct (i <? 0); [done|]. by destruct (_ !! _).
Qed.

Lemma no_throw_int_result v : no_throw (int_result v).
Proof. intros e. unfold int_result. by destruct (Int.in_range v). Qed.

(** An exception of [m ≫= k] comes from [m] when [k] cannot throw. *)
Lemma thrown_by_prefix {A B} (m : Outcome A) (k k' : A → Outcome B) e :
  (∀ a, no_throw (k a)) → m ≫= k = Thrown e → m ≫= k' = Thrown e.
Proof. intros Hk. destruct m as [a| |]; simpl; [by intros ?%Hk|done..]. Qed.

Lemma read_f32_Value b v i :
  mem b = DataF32 v → 0 ≤ i < Z.of_nat (length v) →
  ∃ x, v !! Z.to_nat i = Some x ∧ read_f32 b i = Value x.
Proof.
  intros Hm Hi. unfold read_f32. rewrite Hm.
  destruct (Z.ltb_spec i 0) as [?|_]; [lia|].
  destruct (lookup_lt_is_Some_2 v (Z.to_nat i)) as [x Hx]; [lia|].
  exists x. by rewrite Hx.
Qed.

Lemma read_f32_outside b v i :
  mem b = DataF32 v → i < 0 ∨ Z.of_nat (length v) ≤ i → read_f32 b i = Undefined.
Proof.
  intros Hm Hi. unfold read_f32. rewrite Hm.
  destruct (Z.ltb_spec i 0) as [?|?]; [done|].
  rewrite lookup_ge_None_2; [done|lia].
Qed.

Lemma int_result_in_range v :
  Int.min_int ≤ v ≤ Int.max_int → int_result v = Value v.
Proof.
  intros Hv. unfold int_result, Int.in_range.
  destruct (Z.leb_spec Int.min_int v); [|lia].
  destruct (Z.leb_spec v Int.max_int); [done|lia].
Qed.

Lemma no_throw_fill labels b pos : ∀ i m,
  no_throw (EmotionsDetection.fill labels b pos i m).
Proof.
  induction labels as [|l labels IH]; intros i m; simpl.
  - apply no_throw_Value.
  - apply no_throw_bind; [apply no_throw_read_f32|]. intros a. apply IH.
Qed.

Lemma no_throw_collect n b : ∀ i acc,
  no_throw (FacialLandmarksDetection.collect n b i acc).
Proof.
  induction n as [|n IH]; intros i acc; simpl.
  - apply no_throw_Value.
  - repeat (apply no_throw_bind; [apply no_throw_read_f32|]; intros ?). apply IH.
Qed.

(** The exceptions of the five [operator[]] do not depend on the index. *)

Lemma antispoofing_throw_any_index s idx idx' e :
  AntispoofingClassifier.decode s idx = Thrown e →
  AntispoofingClassifier.decode s idx' = Thrown e.
Proof.
  unfold AntispoofingClassifier.decode.
  destruct (Stage.deref_request s) as [r| |]; simpl; [|done..].
  apply thrown_by_prefix. intros b.
  apply no_throw_bind; [apply no_throw_int_result|]. intros i.
  apply no_throw_bind; [apply no_throw_read_f32|]. intros v. apply no_throw_Value.
Qed.

Lemma age_gender_throw_any_index s idx idx' e :
  AgeGenderDetection.decode s idx = Thrown e →
  AgeGenderDetection.decode s idx' = Thrown e.
Proof.
  unfold AgeGenderDetection.decode.
  destruct (Stage.deref_request s) as [r| |]; simpl; [|done..].
  destruct (GetBlob r _) as [g| |]; simpl; [|done..].
  apply thrown_by_prefix. intros b.
  apply no_throw_bind; [apply no_throw_read_f32|]. intros a.
  apply no_throw_bind; [apply no_throw_int_result|]. intros i.
  apply no_throw_bind; [apply no_throw_int_result|]. intros j.
  apply no_throw_bind; [apply no_throw_read_f32|]. intros v. apply no_throw_Value.
Qed.

Lemma head_pose_throw_any_index s idx idx' e :
  HeadPoseDetection.decode s idx = Thrown e →
  HeadPoseDetection.decode s idx' = Thrown e.
Proof.
  unfold HeadPoseDetection.decode.
  destruct (Stage.deref_request s) as [r| |]; simpl; [|done..].
  destruct (GetBlob r _) as [br| |]; simpl; [|done..].
  destruct (GetBlob r _) as [bp| |]; simpl; [|done..].
  apply thrown_by_prefix. intros b.
  repeat (apply no_throw_bind; [apply no_throw_read_f32|]; intros ?).
  apply no_throw_Value.
Qed.

Lemma emotions_throw_any_index s idx idx' e :
  EmotionsDetection.decode s idx = Thrown e →
  EmotionsDetection.decode s idx' = Thrown e.
Proof.
  unfold EmotionsDetection.decode.
  destruct (Stage.deref_request s) as [r| |]; simpl; [|done..].
  destruct (GetBlob r _) as [b| |]; simpl; [|done..].
  destruct (dims b !! 1%nat) as [c|]; simpl; [|done].
  destruct (negb _); [done|].
  by intros ?%no_throw_fill.
Qed.

Lemma landmarks_throw_any_index s idx idx' e :
  FacialLandmarksDetection.decode s idx = Thrown e →
  FacialLandmarksDetection.decode s idx' = Thrown e.
Proof.
  unfold FacialLandmarksDetection.decode.
  destruct (Stage.deref_request s) as [r| |]; simpl; [|done..].
  destruct (GetBlob r _) as [b| |]; simpl; [|done..].
  by intros ?%no_throw_collect.
Qed.
End Decoding.

Section DecodingInBounds.

Lemma int_bounds : Int.min_int = -2147483648 ∧ Int.max_int = 2147483647.
Proof. done. Qed.

Lemma size_bound : SizeT.modulus = 18446744073709551616.
Proof. done. Qed.

Lemma antispoofing_in_bounds s r N idx :
  BaseDetection.request (sbase s) = Some r →
  holds_f32 r (AntispoofingClassifier.prob_output (self s)) 2 N →
  2 * N ≤ Int.max_int → 0 ≤ idx < N →
  ∃ v, AntispoofingClassifier.decode s idx = Value v.
Proof.
  intros Hr (b & v & Hb & Hm & Hl) HN Hi.
  destruct int_bounds as [Hmin Hmax].
  unfold AntispoofingClassifier.decode, Stage.deref_request. rewrite Hr. simpl.
  rewrite Hb. simpl. unfold int_mul. rewrite int_result_in_range by lia. simpl.
  destruct (read_f32_Value b v (2 * idx) Hm ltac:(lia)) as (x & _ & ->). simpl. eauto.
Qed.

Lemma antispoofing_outside s r N idx :
  BaseDetection.request (sbase s) = Some r →
  holds_f32 r (AntispoofingClassifier.prob_output (self s)) 2 N →
  idx < 0 ∨ N ≤ idx →
  AntispoofingClassifier.decode s idx = Undefined.
Proof.
  intros Hr (b & v & Hb & Hm & Hl) Hi.
  unfold AntispoofingClassifier.decode, Stage.deref_request. rewrite Hr. simpl.
  rewrite Hb. simpl. unfold int_mul, int_result.
  destruct (Int.in_range (2 * idx)); [|done]. simpl.
  rewrite (read_f32_outside b v) by (done || lia). done.
Qed.

Lemma age_gender_in_bounds s r N idx :
  BaseDetection.request (sbase s) = Some r →
  holds_f32 r (AgeGenderDetection.outputAge (self s)) 1 N →
  holds_f32 r (AgeGenderDetection.outputGender (self s)) 2 N →
  2 * N ≤ Int.max_int → 0 ≤ idx < N →
  ∃ v, AgeGenderDetection.decode s idx = Value v.
Proof.
  intros Hr (ba & va & Hba & Hma & Hla) (bg & vg & Hbg & Hmg & Hlg) HN Hi.
  destruct int_bounds as [Hmin Hmax].
  unfold AgeGenderDetection.decode, Stage.deref_request. rewrite Hr. simpl.
  rewrite Hbg. simpl. rewrite Hba. simpl.
  destruct (read_f32_Value ba va idx Hma ltac:(lia)) as (a & _ & ->). simpl.
  unfold int_mul, int_add. rewrite int_result_in_range by lia. simpl.
  rewrite int_result_in_range by lia. simpl.
  destruct (read_f32_Value bg vg (idx * 2 + 1) Hmg ltac:(lia)) as (g & _ & ->). simpl.
  eauto.
Qed.

Lemma age_gender_outside s r N idx :
  BaseDetection.request (sbase s) = Some r →
  holds_f32 r (AgeGenderDetection.outputAge (self s)) 1 N →
  holds_f32 r (AgeGenderDetection.outputGender (self s)) 2 N →
  idx < 0 ∨ N ≤ idx →
  AgeGenderDetection.decode s idx = Undefined.
Proof.
  intros Hr (ba & va & Hba & Hma & Hla) (bg & vg & Hbg & Hmg & Hlg) Hi.
  unfold AgeGenderDetection.decode, Stage.deref_request. rewrite Hr. simpl.
  rewrite Hbg. simpl. rewrite Hba. simpl.
  rewrite (read_f32_outside ba va) by (done || lia). done.
Qed.

Lemma head_pose_in_bounds s r N idx :
  BaseDetection.request (sbase s) = Some r →
  holds_f32 r (HeadPoseDetection.outputAngleR (self s)) 1 N →
  holds_f32 r (HeadPoseDetection.outputAngleP (self s)) 1 N →
  holds_f32 r (HeadPoseDetection.outputAngleY (self s)) 1 N →
  0 ≤ idx < N →
  ∃ v, HeadPoseDetection.decode s idx = Value v.
Proof.
  intros Hr (br & vr & Hbr & Hmr & Hlr) (bp & vp & Hbp & Hmp & Hlp)
         (by_ & vy & Hby & Hmy & Hly) Hi.
  unfold HeadPoseDetection.decode, Stage.deref_request. rewrite Hr. simpl.
  rewrite Hbr. simpl. rewrite Hbp. simpl. rewrite Hby. simpl.
  destruct (read_f32_Value br vr idx Hmr ltac:(lia)) as (a & _ & ->). simpl.
  destruct (read_f32_Value bp vp idx Hmp ltac:(lia)) as (b & _ & ->). simpl.
  destruct (read_f32_Value by_ vy idx Hmy ltac:(lia)) as (c & _ & ->). simpl.
  eauto.
Qed.

Lemma head_pose_outside s r N idx :
  BaseDetection.request (sbase s) = Some r →
  holds_f32 r (HeadPoseDetection.outputAngleR (self s)) 1 N →
  holds_f32 r (HeadPoseDetection.outputAngleP (self s)) 1 N →
  holds_f32 r (HeadPoseDetection.outputAngleY (self s)) 1 N →
  idx < 0 ∨ N ≤ idx →
  HeadPoseDetection.decode s idx = Undefined.
Proof.
  intros Hr (br & vr & Hbr & Hmr & Hlr) (bp & vp & Hbp & Hmp & Hlp)
         (by_ & vy & Hby & Hmy & Hly) Hi.
  unfold HeadPoseDetection.decode, Stage.deref_request. rewrite Hr. simpl.
  rewrite Hbr. simpl. rewrite Hbp. simpl. rewrite Hby. simpl.
  rewrite (read_f32_outside br vr) by (done || lia). done.
Qed.

(** The loop of [EmotionsDetection::operator[]] over a row that lies in
    the blob. *)
Lemma fill_Value labels b v pos :
  mem b = DataF32 v →
  ∀ i (m0 : gmap string spec_float),
    0 ≤ pos + i →
    pos + i + Z.of_nat (length labels) ≤ Z.of_nat (length v) →
    ∃ m, EmotionsDetection.fill labels b pos i m0 = Value m
         ∧ dom m = dom m0 ∪ list_to_set labels
         ∧ (∀ l, l ∉ labels → m !! l = m0 !! l)
         ∧ (NoDup labels → ∀ (j : nat) l, labels !! j = Some l →
              is_Some (m !! l) ∧ m !! l = v !! Z.to_nat (pos + i + Z.of_nat j)).
Proof.
  intros Hm. induction labels as [|l labels IH]; intros i m0 H0 Hlen; simpl.
  - exists m0. split_and!; [done| |done|].
    + simpl. by rewrite (right_id_L ∅ (∪)).
    + intros _ j l Hj. by destruct j.
  - simpl in Hlen.
    destruct (read_f32_Value b v (pos + i) Hm ltac:(lia)) as (x & Hx & ->). simpl.
    destruct (IH (i + 1) (<[l := x]> m0) ltac:(lia) ltac:(lia))
      as (m & Hrun & Hdom & Hout & Hin).
    exists m. split; [exact Hrun|]. split; [|split].
    + rewrite Hdom, dom_insert_L, (assoc_L (∪)).
      by rewrite (comm_L (∪) (dom m0) {[l]}).
    + intros l' Hl'. apply not_elem_of_cons in Hl' as [Hne Hl'].
      rewrite Hout by done. by apply lookup_insert_ne.
    + intros Hnd j l' Hj. apply NoDup_cons in Hnd as [Hl Hnd].
      destruct j as [|j]; simpl in Hj.
      * injection Hj as <-. rewrite Hout by done. rewrite lookup_insert_eq.
        replace (pos + i + Z.of_nat 0) with (pos + i) by lia. by rewrite Hx.
      * destruct (Hin Hnd j l' Hj) as [Hs Heq]. split; [exact Hs|].
        rewrite Heq. f_equal. lia.
Qed.

(** The loop of [FacialLandmarksDetection::operator[]] over landmarks that
    lie in the blob. *)
Lemma collect_Value n b v :
  mem b = DataF32 v →
  ∀ i acc,
    0 ≤ i →
    2 * (i + Z.of_nat n) ≤ Z.of_nat (length v) →
    2 * (i + Z.of_nat n) < SizeT.modulus →
    ∃ l, FacialLandmarksDetection.collect n b i acc = Value l
         ∧ length l = (length acc + 2 * n)%nat.
Proof.
  intros Hm. rewrite size_bound.
  induction n as [|n IH]; intros i acc H0 Hlen Hsz; simpl.
  - exists acc. split; [done|lia].
  - assert (E1 : SizeT.mul 2 i = 2 * i).
    { unfold SizeT.mul, SizeT.wrap. rewrite size_bound. apply Z.mod_small. lia. }
    assert (E2 : SizeT.add (2 * i) 1 = 2 * i + 1).
    { unfold SizeT.add, SizeT.wrap. rewrite size_bound. apply Z.mod_small. lia. }
    rewrite E1, E2.
    destruct (read_f32_Value b v (2 * i) Hm ltac:(lia)) as (x & _ & ->). simpl.
    destruct (read_f32_Value b v (2 * i + 1) Hm ltac:(lia)) as (y & _ & ->). simpl.
    destruct (IH (i + 1) (acc ++ [x; y]) ltac:(lia) ltac:(lia) ltac:(lia))
      as (l & Hrun & Hl).
    exists l. split; [exact Hrun|]. rewrite Hl, length_app. simpl. lia.
Qed.

Lemma landmarks_in_bounds s r b v N idx :
  BaseDetection.request (sbase s) = Some r →
  GetBlob r (FacialLandmarksDetection.outputFacialLandmarksBlobName (self s)) = Value b →
  mem b = DataF32 v →
  0 ≤ channels b →
  Z.of_nat (length v) = N * channels b →
  N * channels b < SizeT.modulus →
  0 ≤ idx < N → idx ≤ Int.max_int →
  ∃ l, FacialLandmarksDetection.decode s idx = Value l
       ∧ Z.of_nat (length l) = 2 * (channels b / 2).
Proof.
  intros Hr Hb Hm Hc Hl Hsz Hi Hint.
  destruct int_bounds as [Hmin Hmax].
  unfold FacialLandmarksDetection.decode, Stage.deref_request. rewrite Hr. simpl.
  rewrite Hb. simpl.
  set (c := channels b) in *. set (k := c / 2).
  assert (Hk : 0 ≤ k ∧ 2 * k ≤ c).
  { subst k. split; [by apply Z.div_pos|]. apply Z.mul_div_le. lia. }
  rewrite size_bound in Hsz.
  assert (Hw : SizeT.wrap idx = idx).
  { unfold SizeT.wrap. rewrite size_bound. apply Z.mod_small. lia. }
  assert (Hbegin : SizeT.mul k (SizeT.wrap idx) = k * idx).
  { rewrite Hw. unfold SizeT.mul, SizeT.wrap. rewrite size_bound.
    apply Z.mod_small. nia. }
  assert (Hend : SizeT.add (k * idx) k = k * idx + k).
  { unfold SizeT.add, SizeT.wrap. rewrite size_bound. apply Z.mod_small. nia. }
  rewrite Hbegin, Hend.
  replace (k * idx + k - k * idx) with k by lia.
  destruct (collect_Value (Z.to_nat k) b v Hm (k * idx) [] ltac:(nia)
              ltac:(nia) ltac:(rewrite size_bound; nia)) as (l & Hrun & Hlen).
  exists l. split; [exact Hrun|]. rewrite Hlen. simpl. lia.
Qed.
End DecodingInBounds.

Section EmotionsDecoding.
Import EmotionsDetection.

Lemma emotions_row s r b v idx :
  BaseDetection.request (sbase s) = Some r →
  GetBlob r (outputEmotions (self s)) = Value b →
  dims b !! 1%nat = Some (Z.of_nat (length (emotionsVec (self s)))) →
  mem b = DataF32 v →
  0 ≤ idx ≤ Int.max_int →
  (idx + 1) * Z.of_nat (length (emotionsVec (self s))) ≤ Z.of_nat (length v) →
  Z.of_nat (length v) < SizeT.modulus →
  ∃ m, decode s idx = Value m
       ∧ dom m = list_to_set (emotionsVec (self s))
       ∧ (NoDup (emotionsVec (self s)) →
          size m = length (emotionsVec (self s))
          ∧ ∀ (i : nat) l, emotionsVec (self s) !! i = Some l →
              is_Some (m !! l)
              ∧ m !! l = v !! Z.to_nat (idx * Z.of_nat (length (emotionsVec (self s)))
                                        + Z.of_nat i)).
Proof.
  intros Hr Hb Hd Hm Hi Hrow Hsz.
  destruct int_bounds as [Hmin Hmax]. rewrite size_bound in Hsz.
  unfold decode, Stage.deref_request. rewrite Hr. simpl. rewrite Hb. simpl.
  rewrite Hd. simpl. rewrite Z.eqb_refl. simpl.
  set (C := Z.of_nat (length (emotionsVec (self s)))) in *.
  assert (Hpos : SizeT.mul (SizeT.wrap idx) C = idx * C).
  { unfold SizeT.mul, SizeT.wrap. rewrite size_bound.
    rewrite (Z.mod_small idx) by lia. apply Z.mod_small. nia. }
  rewrite Hpos.
  destruct (fill_Value (emotionsVec (self s)) b v (idx * C) Hm 0 ∅ ltac:(nia)
              ltac:(fold C; lia)) as (m & Hrun & Hdom & _ & Hin).
  exists m. split; [exact Hrun|].
  split; [by rewrite Hdom, dom_empty_L, (left_id_L ∅ (∪))|].
  intros Hnd. split.
  - rewrite <- size_dom, Hdom, dom_empty_L, (left_id_L ∅ (∪)).
    by apply size_list_to_set.
  - intros i l Hl. destruct (Hin Hnd i l Hl) as [Hs Heq]. split; [exact Hs|].
    rewrite Heq. f_equal. lia.
Qed.
End EmotionsDecoding.

(** C7.  With seven labels and a bound output blob: [operator[]] throws a
    [std::logic_error] exactly when the channel dimension of the blob is
    not 7; when it is 7 and row [idx] lies in the blob, the result maps
    exactly the labels, has seven entries when the labels are distinct,
    and the entry of the i-th label is element [idx * 7 + i] of the blob. *)
Theorem emotions_decode_contract
    (s : EmotionsDetection.t) (r : InferRequest) (b : Blob) (idx : Z) :
  length (EmotionsDetection.emotionsVec (self s)) = 7%nat →
  BaseDetection.request (sbase s) = Some r →
  GetBlob r (EmotionsDetection.outputEmotions (self s)) = Value b →
  ((∃ e, EmotionsDetection.decode s idx = Thrown e ∧ is_logic_error e = true)
   ↔ dims b !! 1%nat ≠ Some 7)
  ∧ (dims b !! 1%nat = Some 7 →
     ∀ v, mem b = DataF32 v →
       0 ≤ idx ≤ Int.max_int →
       (idx + 1) * 7 ≤ Z.of_nat (length v) →
       Z.of_nat (length v) < SizeT.modulus →
       ∃ m, EmotionsDetection.decode s idx = Value m
            ∧ dom m = list_to_set (EmotionsDetection.emotionsVec (self s))
            ∧ (NoDup (EmotionsDetection.emotionsVec (self s)) →
               size m = 7%nat
               ∧ ∀ (i : nat) l,
                   EmotionsDetection.emotionsVec (self s) !! i = Some l →
                   is_Some (m !! l)
                   ∧ m !! l = v !! Z.to_nat (idx * 7 + Z.of_nat i))).
Proof.
  intros H7 Hr Hb. split.
  - unfold EmotionsDetection.decode, Stage.deref_request.
    rewrite Hr. simpl. rewrite Hb. simpl. rewrite H7.
    destruct (dims b !! 1%nat) as [c|] eqn:Ed; simpl.
    + destruct (Z.eqb_spec c (Z.of_nat 7)) as [->|Hne]; simpl.
      * split; [|done]. intros (e & He & _). by apply no_throw_fill in He.
      * split; [intros _ [= ->]; lia|]. intros _. eexists. by split.
    + split; [done|]. intros _. eexists. by split.
  - intros Hd v Hm Hi Hrow Hsz.
    destruct (emotions_row s r b v idx Hr Hb) as (m & Hrun & Hdom & Hnd);
      rewrite ?H7; try done.
    exists m. split; [exact Hrun|]. split; [exact Hdom|].
    intros Hdistinct. destruct (Hnd Hdistinct) as [Hsize Hval].
    rewrite H7 in Hsize, Hval. by split.
Qed.

Lemma emotions_decode_contract_witness :
  (∃ e, EmotionsDetection.decode (Demo.emotions 5 Demo.fourteen) 1 = Thrown e
        ∧ is_logic_error e = true)
  ∧ ∃ m, EmotionsDetection.decode (Demo.emotions 7 Demo.fourteen) 1 = Value m
         ∧ size m = 7%nat
         ∧ m !! "neutral" = Some (F32.of_Z 8)
         ∧ m !! "disgust" = Some (F32.of_Z 14).
Proof.
  split.
  - apply (emotions_decode_contract (Demo.emotions 5 Demo.fourteen)
             (Demo.emotions_request 5 Demo.fourteen)
             {| dims := [2; 5; 1; 1]; channels := 5; mem := DataF32 Demo.fourteen |} 1);
      [reflexivity | reflexivity | reflexivity | discriminate].
  - destruct (proj2 (emotions_decode_contract (Demo.emotions 7 Demo.fourteen)
                       (Demo.emotions_request 7 Demo.fourteen)
                       {| dims := [2; 7; 1; 1]; channels := 7; mem := DataF32 Demo.fourteen |}
                       1 eq_refl eq_refl eq_refl)
                eq_refl Demo.fourteen eq_refl)
      as (m & Hrun & Hdom & Hnd).
    + vm_compute. split; discriminate.
    + vm_compute. discriminate.
    + reflexivity.
    + exists m. split; [exact Hrun|].
      destruct Hnd as [Hsize Hval].
      { apply (bool_decide_unpack (NoDup Demo.seven)). vm_compute. exact I. }
      split; [exact Hsize|]. split.
      * destruct (Hval 0%nat "neutral" eq_refl) as [_ ->]. reflexivity.
      * destruct (Hval 6%nat "disgust" eq_refl) as [_ ->]. reflexivity.
Defined.

Lemma emotions_in_bounds (s : EmotionsDetection.t) r b v N idx :
  BaseDetection.request (sbase s) = Some r →
  GetBlob r (EmotionsDetection.outputEmotions (self s)) = Value b →
  dims b !! 1%nat = Some (Z.of_nat (length (EmotionsDetection.emotionsVec (self s)))) →
  mem b = DataF32 v →
  Z.of_nat (length v) = N * Z.of_nat (length (EmotionsDetection.emotionsVec (self s))) →
  Z.of_nat (length v) < SizeT.modulus →
  0 ≤ idx < N → idx ≤ Int.max_int →
  ∃ m, EmotionsDetection.decode s idx = Value m.
Proof.
  intros Hr Hb Hd Hm Hl Hsz Hi Hint.
  destruct (emotions_row s r b v idx Hr Hb Hd Hm) as (m & Hrun & _); [lia|nia|done|].
  by exists m.
Qed.

(** C1, as amended.  The [operator[]] of the five stages has no check of
    the index: an exception it throws does not depend on the index (it
    comes from [GetBlob] or, for emotions, from the channel test).  For an
    index within the rows that the bound output blobs hold, every read
    lies in its blob and a result is returned; for age/gender, head pose
    and antispoofing an index outside these rows is a read outside the
    blob, undefined behaviour rather than an error. *)
Theorem decode_without_index_check :
  ((∀ s idx idx' e, AntispoofingClassifier.decode s idx = Thrown e →
                    AntispoofingClassifier.decode s idx' = Thrown e)
   ∧ (∀ s idx idx' e, AgeGenderDetection.decode s idx = Thrown e →
                      AgeGenderDetection.decode s idx' = Thrown e)
   ∧ (∀ s idx idx' e, HeadPoseDetection.decode s idx = Thrown e →
                      HeadPoseDetection.decode s idx' = Thrown e)
   ∧ (∀ s idx idx' e, EmotionsDetection.decode s idx = Thrown e →
                      EmotionsDetection.decode s idx' = Thrown e)
   ∧ (∀ s idx idx' e, FacialLandmarksDetection.decode s idx = Thrown e →
                      FacialLandmarksDetection.decode s idx' = Thrown e))
  ∧ ((∀ s r N idx,
        BaseDetection.request (sbase s) = Some r →
        holds_f32 r (AntispoofingClassifier.prob_output (self s)) 2 N →
        2 * N ≤ Int.max_int →
        (0 ≤ idx < N → ∃ v, AntispoofingClassifier.decode s idx = Value v)
        ∧ (idx < 0 ∨ N ≤ idx → AntispoofingClassifier.decode s idx = Undefined))
     ∧ (∀ s r N idx,
          BaseDetection.request (sbase s) = Some r →
          holds_f32 r (AgeGenderDetection.outputAge (self s)) 1 N →
          holds_f32 r (AgeGenderDetection.outputGender (self s)) 2 N →
          2 * N ≤ Int.max_int →
          (0 ≤ idx < N → ∃ v, AgeGenderDetection.decode s idx = Value v)
          ∧ (idx < 0 ∨ N ≤ idx → AgeGenderDetection.decode s idx = Undefined))
     ∧ (∀ s r N idx,
          BaseDetection.request (sbase s) = Some r →
          holds_f32 r (HeadPoseDetection.outputAngleR (self s)) 1 N →
          holds_f32 r (HeadPoseDetection.outputAngleP (self s)) 1 N →
          holds_f32 r (HeadPoseDetection.outputAngleY (self s)) 1 N →
          (0 ≤ idx < N → ∃ v, HeadPoseDetection.decode s idx = Value v)
          ∧ (idx < 0 ∨ N ≤ idx → HeadPoseDetection.decode s idx = Undefined))
     ∧ (∀ (s : EmotionsDetection.t) r b v N idx,
          BaseDetection.request (sbase s) = Some r →
          GetBlob r (EmotionsDetection.outputEmotions (self s)) = Value b →
          dims b !! 1%nat
          = Some (Z.of_nat (length (EmotionsDetection.emotionsVec (self s)))) →
          mem b = DataF32 v →
          Z.of_nat (length v)
          = N * Z.of_nat (length (EmotionsDetection.emotionsVec (self s))) →
          Z.of_nat (length v) < SizeT.modulus →
          0 ≤ idx < N → idx ≤ Int.max_int →
          ∃ m, EmotionsDetection.decode s idx = Value m)
     ∧ (∀ (s : FacialLandmarksDetection.t) r b v N idx,
          BaseDetection.request (sbase s) = Some r →
          GetBlob r (FacialLandmarksDetection.outputFacialLandmarksBlobName (self s))
          = Value b →
          mem b = DataF32 v →
          0 ≤ channels b →
          Z.of_nat (length v) = N * channels b →
          N * channels b < SizeT.modulus →
          0 ≤ idx < N → idx ≤ Int.max_int →
          ∃ l, FacialLandmarksDetection.decode s idx = Value l
               ∧ Z.of_nat (length l) = 2 * (channels b / 2))).
Proof.
  split.
  - split_and!.
    + apply antispoofing_throw_any_index.
    + apply age_gender_throw_any_index.
    + apply head_pose_throw_any_index.
    + apply emotions_throw_any_index.
    + apply landmarks_throw_any_index.
  - split_and!.
    + intros s r N idx Hr Hb HN. split.
      * by eapply antispoofing_in_bounds.
      * by eapply antispoofing_outside.
    + intros s r N idx Hr Ha Hg HN. split.
      * by eapply age_gender_in_bounds.
      * by eapply age_gender_outside.
    + intros s r N idx Hr H1 H2 H3. split.
      * by eapply head_pose_in_bounds.
      * by eapply head_pose_outside.
    + apply emotions_in_bounds.
    + apply landmarks_in_bounds.
Qed.

Lemma decode_without_index_check_witness :
  (∃ v, AgeGenderDetection.decode Demo.age_gender_submitted 0 = Value v)
  ∧ (∃ v, AgeGenderDetection.decode Demo.age_gender_submitted 1 = Value v)
  ∧ AgeGenderDetection.decode Demo.age_gender_submitted 2 = Undefined.
Proof.
  pose proof (proj1 (proj2 (proj2 decode_without_index_check))) as T.
  assert (Hr : BaseDetection.request (sbase Demo.age_gender_submitted)
               = Some (Demo.request_of Demo.age_gender_submitted))
    by (vm_compute; reflexivity).
  assert (Ha : holds_f32 (Demo.request_of Demo.age_gender_submitted)
                 (AgeGenderDetection.outputAge (self Demo.age_gender_submitted)) 1 2)
    by (eexists _, _; split_and!; vm_compute; reflexivity).
  assert (Hg : holds_f32 (Demo.request_of Demo.age_gender_submitted)
                 (AgeGenderDetection.outputGender (self Demo.age_gender_submitted)) 2 2)
    by (eexists _, _; split_and!; vm_compute; reflexivity).
  assert (HN : 2 * 2 ≤ Int.max_int) by (vm_compute; discriminate).
  split_and!.
  - apply (T _ _ 2 0 Hr Ha Hg HN). lia.
  - apply (T _ _ 2 1 Hr Ha Hg HN). lia.
  - apply (T _ _ 2 2 Hr Ha Hg HN). lia.
Defined.

(** The claim C1 as stated fails: with one face submitted, index 1 is
    outside [0, 1), yet [operator[]] reads row 1 of the blobs and returns
    it; index 2 is a read outside the blob.  Neither is an exception. *)
Lemma decode_beyond_submitted_batch :
  ∃ s0 s,
    Demo.age_gender_enqueued 1 = Value s0
    ∧ enquedFaces s0 = 1
    ∧ Stage.submitRequest s0 = Value s
    ∧ AgeGenderDetection.decode s 1
      = Value {| AgeGenderDetection.age := F32.of_Z 50;
                 AgeGenderDetection.maleProb := Demo.q32 1 5 |}
    ∧ AgeGenderDetection.decode s 2 = Undefined
    ∧ AgeGenderDetection.decode s (-1) = Undefined.
Proof. vm_compute. eexists _, _. split_and!; reflexivity. Qed.

Lemma enqueue_never_exceeds_maxBatch_witness :
  (∃ s', AgeGenderDetection.enqueue (H := store_mat) Demo.frame Demo.age_gender_full
         = Value s'
         ∧ enquedFaces s' = 2)
  ∧ ∃ s', @enqueue_all store_mat _ "Age/Gender Recognition network"
            [Demo.frame; Demo.frame; Demo.frame] Demo.age_gender_full = Value s'
          ∧ 0 ≤ enquedFaces s' ≤ 2.
Proof.
  destruct (@enqueue_never_exceeds_maxBatch store_mat _
              "Age/Gender Recognition network" Demo.age_gender_full)
    as [Hfull Hall]; [vm_compute; reflexivity|].
  split.
  - destruct (Hfull Demo.frame) as (s' & Hrun & Hq & _); [vm_compute; reflexivity|].
    exists s'. split; [exact Hrun|]. rewrite Hq. vm_compute. reflexivity.
  - assert (E : ∃ s', @enqueue_all store_mat _ "Age/Gender Recognition network"
                        [Demo.frame; Demo.frame; Demo.frame] Demo.age_gender_full
                      = Value s')
      by (vm_compute; eexists; reflexivity).
    destruct E as (s' & E). exists s'. split; [exact E|].
    destruct (Hall ltac:(vm_compute; split; discriminate) _ _ E) as [Hb Hm].
    rewrite Hm in Hb. exact Hb.
Defined.

Lemma disabled_stage_stays_inert_witness :
  ∃ s',
    @stage_run store_mat _ AgeGenderDetection.read "Age/Gender Recognition network"
      [DoLoad (Demo.core Demo.age_gender_cnn Demo.age_gender_net) "CPU" true;
       DoEnqueue Demo.frame; DoEnqueue Demo.frame; DoSubmit; DoWait; DoEnqueue Demo.frame]
      (AgeGenderDetection.make "" "CPU" 16 true true false)
    = Value s'
    ∧ fst (BaseDetection.enabled (sbase s')) = false
    ∧ enquedFaces s' = 0
    ∧ BaseDetection.calls (sbase s') = [].
Proof.
  destruct (proj1 (@disabled_stage_stays_inert store_mat) _ AgeGenderDetection.read
              "Age/Gender Recognition network"
              [DoLoad (Demo.core Demo.age_gender_cnn Demo.age_gender_net) "CPU" true;
               DoEnqueue Demo.frame; DoEnqueue Demo.frame; DoSubmit; DoWait;
               DoEnqueue Demo.frame]
              (AgeGenderDetection.make "" "CPU" 16 true true false))
    as (s' & Hrun & Hen & _ & Hq & Hc).
  - apply (proj2 (proj2 (@disabled_stage_stays_inert store_mat))).
  - reflexivity.
  - exists s'. split_and!; done.
Defined.

(** With [double] milliseconds over nanosecond ticks, a duration that is
    not negative has a count that is not negative. *)
Lemma ms_double_nonneg (d : Z) : 0 ≤ d → Flt.nonneg (@ms_count ms_double d) = true.
Proof.
  intros Hd. simpl. unfold F64.div.
  change (F64.of_Z 1000000) with (S754_finite false 8388608000000000 (-33)).
  apply SFdiv_nonneg. by apply binary_normalize_nonneg.
Qed.

Lemma smoothedDuration_live_then_stored_witness :
  @Timer.smoothedDuration ms_double "face" 9000000 (Timer.start "face" 5000000 ∅)
  = Value (F64.of_Z 4).
Proof.
  destruct (@smoothedDuration_live_then_stored ms_double ms_double_nonneg
              5000000 9000000 (Timer.start "face" 5000000 ∅) ∅ "face"
              (CallStat.setStartTime 5000000 CallStat.make))
    as [Hlive _].
  - apply (@reach_start ms_double 5000000); [apply reach_init | lia].
  - by rewrite start_lookup.
  - lia.
  - destruct Hlive as (_ & -> & _); [apply not_elem_of_empty|]. vm_compute. reflexivity.
Defined.

Lemma smoothed_after_two_finishes_witness :
  ∃ T1 T2 c1 c2,
    @Timer.finish ms_double "face" 8000000 (Timer.start "face" 0 ∅) = Value T1
    ∧ T1 !! "face" = Some c1
    ∧ CallStat._smoothed_duration c1 = F64.of_Z 8
    ∧ @Timer.finish ms_double "face" 36000000 (Timer.start "face" 20000000 T1)
      = Value T2
    ∧ T2 !! "face" = Some c2
    ∧ CallStat._smoothed_duration c2 = Demo.q64 44 5.
Proof.
  destruct (@smoothed_after_two_finishes ms_double ms_double_nonneg "face" ∅
              0 8000000 20000000 36000000)
    as (T1 & T2 & c1 & c2 & H1 & H2 & _ & H3 & H4 & H5 & _ & H6).
  - apply lookup_empty.
  - lia.
  - exists T1, T2, c1, c2.
    split_and!;
      [exact H1 | exact H2 | rewrite H3; vm_compute; reflexivity
      | exact H4 | exact H5 | rewrite H6; vm_compute; reflexivity].
Defined.

(** The claim C6 as stated fails: after a first [finish] 13 ms after
    [start], the raw duration is 13.0 and the smoothed duration is the next
    double above it. *)
Lemma smoothed_after_first_finish_not_raw :
  ∃ T1 c1,
    @Timer.finish ms_double "face" 13000000 (Timer.start "face" 0 ∅) = Value T1
    ∧ T1 !! "face" = Some c1
    ∧ CallStat._last_call_duration c1 = F64.of_Z 13
    ∧ CallStat._smoothed_duration c1 = S754_finite false 7318349394477057 (-49)
    ∧ SFeqb (CallStat._smoothed_duration c1) (CallStat._last_call_duration c1) = false.
Proof.
  eexists _, _. split; [|split].
  - apply (@finish_Value ms_double). by rewrite start_lookup.
  - apply lookup_insert_eq.
  - vm_compute. split_and!; reflexivity.
Qed.

(** * Further properties of the code *)

(** ** The call timer, continued *)

Section TimerNames.
Context `{Chrono}.
Import CallStat.

(** X1.  [Timer::finish] and [Timer::operator[]] throw [std::logic_error]
    exactly on a name that has no record; [start] gives its name a record
    and [finish] keeps the set of names, so a name once started can be
    finished ever after. *)
Theorem timer_known_names (name : string) (now : Z) (timers : gmap string CallStat.t) :
  (timers !! name = None
   ↔ Timer.finish name now timers
     = Thrown (logic_error ("No timer with name " ++ name ++ ".")))
  ∧ (timers !! name = None
     ↔ Timer.at_ name timers
       = Thrown (logic_error ("No timer with name " ++ name ++ ".")))
  ∧ (∀ started, dom (Timer.start started now timers) = {[started]} ∪ dom timers)
  ∧ (∀ timers', Timer.finish name now timers = Value timers' → dom timers' = dom timers)
  ∧ (∀ started t0, name ∈ dom timers ∨ name = started →
       ∃ timers', Timer.finish name now (Timer.start started t0 timers) = Value timers').
Proof.
  split_and!.
  - unfold Timer.finish, Timer.at_. destruct (timers !! name); simpl; split; done.
  - unfold Timer.at_. destruct (timers !! name); simpl; split; done.
  - intros started. unfold Timer.start.
    destruct (timers !! started) as [c|] eqn:E.
    + rewrite dom_alter_L. apply elem_of_dom_2 in E.
      apply set_eq. intros x. rewrite elem_of_union, elem_of_singleton.
      split; [by right|]. by intros [->|].
    + by rewrite dom_alter_L, dom_insert_L.
  - intros timers'. unfold Timer.finish, Timer.at_.
    destruct (timers !! name) as [c|] eqn:E; simpl; [|done].
    intros [= <-]. rewrite dom_insert_L. apply elem_of_dom_2 in E.
    apply set_eq. intros x. rewrite elem_of_union, elem_of_singleton.
    split; [by intros [->|]|by right].
  - intros started t0 Hk.
    assert (Hs : is_Some (Timer.start started t0 timers !! name)).
    { destruct (decide (started = name)) as [->|Hne].
      - rewrite start_lookup. eauto.
      - rewrite start_lookup_ne by done. destruct Hk as [Hk|Hk]; [|congruence].
        by apply elem_of_dom. }
    destruct Hs as [c Hc]. eexists. by apply finish_Value.
Qed.

(** X2.  [start] and [finish] on one name leave the records of all other
    names as they are, whether or not the name had a record before. *)
Theorem timer_other_records_kept
    (name other : string) (now : Z) (timers : gmap string CallStat.t) :
  name ≠ other →
  Timer.start name now timers !! other = timers !! other
  ∧ ∀ timers', Timer.finish name now timers = Value timers' →
               timers' !! other = timers !! other.
Proof.
  intros Hne. split; [by apply start_lookup_ne|].
  intros timers' Hfin. unfold Timer.finish, Timer.at_ in Hfin.
  destruct (timers !! name) as [c|]; [|discriminate].
  injection Hfin as <-. by apply lookup_insert_ne.
Qed.

(** X3.  [start] on a name that has a record moves only its start time: the
    count, the total, the last and the smoothed duration stay.  [finish]
    moves the start time to its own reading of the clock, so a [finish] that
    follows a [finish] measures the time since that one. *)
Theorem timer_finish_restarts
    (name : string) (t1 t2 : Z) (timers timers1 : gmap string CallStat.t)
    (c : CallStat.t) :
  timers !! name = Some c →
  Timer.finish name t1 timers = Value timers1 →
  (∀ t, Timer.start name t timers !! name
        = Some {| _number_of_calls := _number_of_calls c;
                  _total_duration := _total_duration c;
                  _last_call_duration := _last_call_duration c;
                  _smoothed_duration := _smoothed_duration c;
                  _last_call_start := t |})
  ∧ ∃ timers2 c1 c2,
      timers1 !! name = Some c1
      ∧ _last_call_start c1 = t1
      ∧ _last_call_duration c1 = ms_count (t1 - _last_call_start c)
      ∧ _number_of_calls c1 = SizeT.add (_number_of_calls c) 1
      ∧ _total_duration c1 = F64.add (_total_duration c) (_last_call_duration c1)
      ∧ Timer.finish name t2 timers1 = Value timers2
      ∧ timers2 !! name = Some c2
      ∧ _last_call_duration c2 = ms_count (t2 - t1)
      ∧ _total_duration c2 = F64.add (_total_duration c1) (ms_count (t2 - t1)).
Proof.
  intros Hc Hfin. split.
  - intros t. by rewrite start_lookup, Hc.
  - rewrite (finish_Value _ _ _ _ Hc) in Hfin. injection Hfin as <-.
    set (c1 := calculateDuration t1 c).
    assert (E1 : <[name := c1]> timers !! name = Some c1) by apply lookup_insert_eq.
    exists (<[name := calculateDuration t2 c1]> (<[name := c1]> timers)), c1,
           (calculateDuration t2 c1).
    split_and!; try done.
    + by apply finish_Value.
    + apply lookup_insert_eq.
Qed.
End TimerNames.

Section TimerTotals.
Context `{Chrono}.
Import CallStat.
Hypothesis ms_count_nonneg : ∀ d, 0 ≤ d → Flt.nonneg (ms_count d) = true.

(** X4.  In a timer reached with a monotonic clock, the last and the total
    duration of every record are numbers that are not negative, the count is
    a [size_t], and a record whose name has not been finished still has the
    values of the constructor. *)
Theorem timer_durations_not_negative
    (clock : Z) (timers : gmap string CallStat.t) (finished : gset string)
    (name : string) (c : CallStat.t) :
  reach clock timers finished →
  timers !! name = Some c →
  Flt.nonneg (getLastCallDuration c) = true
  ∧ Flt.nonneg (getTotalDuration c) = true
  ∧ 0 ≤ _number_of_calls c < SizeT.modulus
  ∧ (name ∉ finished →
     _number_of_calls c = 0 ∧ getTotalDuration c = zero ∧ getLastCallDuration c = zero).
Proof.
  intros Hr. revert name c.
  induction Hr as [clock|clock timers finished name0 now Hr IH Hle
                  |clock timers finished name0 now timers' Hr IH Hle Hfin];
    intros name c Hc.
  - by rewrite lookup_empty in Hc.
  - destruct (decide (name0 = name)) as [->|Hne].
    + rewrite start_lookup in Hc. injection Hc as <-.
      destruct (timers !! name) as [c0|] eqn:E; simpl.
      * apply (IH name c0 E).
      * split_and!; done.
    + rewrite start_lookup_ne in Hc by done. by apply IH.
  - pose proof (reach_invariant ms_count_nonneg _ _ _ Hr) as Hinv.
    unfold Timer.finish, Timer.at_ in Hfin.
    destruct (timers !! name0) as [c0|] eqn:E0; [|discriminate].
    injection Hfin as <-.
    destruct (decide (name0 = name)) as [->|Hne].
    + rewrite lookup_insert_eq in Hc. injection Hc as <-.
      destruct (IH name c0 E0) as (Hl & Ht & Hn & _).
      destruct (Hinv name c0 E0) as (Hstart & _).
      assert (Hd : Flt.nonneg (ms_count (now - _last_call_start c0)) = true)
        by (apply ms_count_nonneg; lia).
      unfold getLastCallDuration, getTotalDuration in *. simpl.
      split_and!.
      * exact Hd.
      * by apply SFadd_nonneg.
      * unfold SizeT.add, SizeT.wrap. apply Z.mod_pos_bound. done.
      * unfold SizeT.add, SizeT.wrap. apply Z.mod_pos_bound. done.
      * intros []. apply elem_of_add_same.
    + rewrite lookup_insert_ne in Hc by done.
      destruct (IH name c Hc) as (Hl & Ht & Hn & H0).
      split_and!; [done|done|lia|lia|]. intros Hnin. apply H0.
      by rewrite <- (elem_of_add_other name0).
Qed.
End TimerTotals.

(** ** The face-attribute stages, continued *)




Section StageBatches.
Context `{OcvCommon} {D : Type}.
Import BaseDetection.

Lemma find_store_blob name b bs :
  is_Some (find_blob name bs) → find_blob name (store_blob name b bs) = Some b.
Proof.
  induction bs as [|[n b0] bs IH]; simpl; [by intros [? ?]|].
  destruct (String.eqb n name) eqn:E; simpl; rewrite E; [done|exact IH].
Qed.

Lemma enabled_true b :
  fst (enabled b) = true → enabled b = (true, set_enabling true true b).
Proof.
  destruct b. unfold enabled. simpl.
  destruct enablingChecked0; simpl; [by intros ->|].
  by intros ->.
Qed.

(** X5.  [submitRequest] with nothing enqueued does nothing.  With [n] faces
    enqueued on an enabled stage that has a request, it sets the batch of
    the request to [n] when the batch is dynamic, then starts the request
    (asynchronous stage) or runs it (synchronous stage), and resets the
    count to 0: these are the only calls it makes. *)
Theorem stage_submitRequest_runs_batch (s : Stage D) (r : InferRequest) :
  fst (enabled (sbase s)) = true →
  request (sbase s) = Some r →
  (enquedFaces s = 0 → Stage.submitRequest s = Value s)
  ∧ (enquedFaces s ≠ 0 →
     ∃ s', Stage.submitRequest s = Value s'
           ∧ enquedFaces s' = 0
           ∧ calls (sbase s')
             = calls (sbase s)
               ++ (if isBatchDynamic (sbase s) then [CallSetBatch (enquedFaces s)] else [])
               ++ [if isAsync (sbase s) then CallStartAsync else CallInfer]
           ∧ request (sbase s')
             = Some ((if isAsync (sbase s) then StartAsync else Infer)
                       (if isBatchDynamic (sbase s) then SetBatch r (enquedFaces s) else r))
           ∧ slog (sbase s') = slog (sbase s)
           ∧ input s' = input s ∧ self s' = self s).
Proof.
  intros Hen Hr. unfold Stage.submitRequest. split.
  - by intros ->.
  - intros Hn. destruct (Z.eqb_spec (enquedFaces s) 0) as [|_]; [done|].
    rewrite Hr. unfold BaseDetection.submitRequest.
    destruct (isBatchDynamic (sbase s)) eqn:Hdyn; simpl.
    + rewrite enabled_true by (revert Hen; unfold enabled; simpl;
                               by destruct (enablingChecked (sbase s))).
      simpl. destruct (isAsync (sbase s)); simpl;
        (eexists; split; [reflexivity|]; simpl; split_and!; try done;
         by rewrite <- app_assoc).
    + rewrite (enabled_true _ Hen). simpl. rewrite Hr.
      destruct (isAsync (sbase s)); simpl;
        (eexists; split; [reflexivity|]; simpl; split_and!; done).
Qed.

(** One [enqueue] below the capacity. *)
Lemma enqueue_accepts who face (s : Stage D) :
  fst (enabled (sbase s)) = true →
  input_bound s →
  enquedFaces s ≠ maxBatch (sbase s) →
  Int.min_int ≤ enquedFaces s + 1 ≤ Int.max_int →
  ∃ s' r' old,
    Stage.enqueue who face s = Value s'
    ∧ enquedFaces s' = enquedFaces s + 1
    ∧ maxBatch (sbase s') = maxBatch (sbase s)
    ∧ input s' = input s ∧ self s' = self s
    ∧ settled (sbase s')
    ∧ request (sbase s') = Some r'
    ∧ find_blob (input s)
        (match request (sbase s) with
         | Some r => blobs r
         | None => match net (sbase s) with Some n => fresh_blobs n | None => [] end
         end) = Some old
    ∧ find_blob (input s) (blobs r') = Some (matToBlob face old (enquedFaces s))
    ∧ slog (sbase s') = slog (sbase s)
    ∧ calls (sbase s')
      = calls (sbase s)
        ++ match request (sbase s) with
           | Some _ => []
           | None => [CallCreateInferRequest]
           end
        ++ [CallGetBlob (input s)].
Proof.
  intros Hen Hin Hne Hrange. unfold Stage.enqueue.
  rewrite (enabled_true _ Hen). simpl.
  destruct (Z.eqb_spec (enquedFaces s) (maxBatch (sbase s))) as [|_]; [done|].
  unfold input_bound in Hin. unfold int_add. rewrite int_result_in_range by done.
  destruct (request (sbase s)) as [r|] eqn:Hr; simpl.
  - destruct Hin as [old Hold]. unfold GetBlob. rewrite Hold. simpl.
    eexists _, _, old. split; [reflexivity|]. simpl.
    split_and!; try done. by apply find_store_blob.
  - destruct Hin as (n & Hn & [old Hold]). rewrite Hn. simpl.
    unfold GetBlob. simpl. rewrite Hold. simpl.
    eexists _, _, old. split; [reflexivity|]. simpl.
    split_and!; try done.
    + by apply find_store_blob.
    + by rewrite <- app_assoc.
Qed.

(** One [enqueue] at the capacity. *)
Lemma enqueue_drops who face (s : Stage D) :
  fst (enabled (sbase s)) = true →
  enquedFaces s = maxBatch (sbase s) →
  Stage.enqueue who face s
  = Value (Stage.set_base
             (logged (LogTooManyFaces (maxBatch (sbase s)) who)
                (set_enabling true true (sbase s))) s).
Proof.
  intros Hen Hfull. unfold Stage.enqueue.
  rewrite (enabled_true _ Hen). simpl. by rewrite Hfull, Z.eqb_refl.
Qed.

(** X6.  One [enqueue] on an enabled stage.  Below the capacity, the face
    goes to slot [enquedFaces] of the input blob and the count grows by one;
    the request is created on the first use and kept afterwards.  At the
    capacity the face is dropped with one warning and nothing else changes.
    Without a request and without a loaded network the creation of the
    request throws. *)
Theorem stage_enqueue_contract (who : string) (face : Mat) (s : Stage D) :
  fst (enabled (sbase s)) = true →
  (input_bound s →
   enquedFaces s ≠ maxBatch (sbase s) →
   Int.min_int ≤ enquedFaces s + 1 ≤ Int.max_int →
   ∃ s' r' old,
     Stage.enqueue who face s = Value s'
     ∧ enquedFaces s' = enquedFaces s + 1
     ∧ request (sbase s') = Some r'
     ∧ find_blob (input s)
         (match request (sbase s) with
          | Some r => blobs r
          | None => match net (sbase s) with Some n => fresh_blobs n | None => [] end
          end) = Some old
     ∧ find_blob (input s) (blobs r') = Some (matToBlob face old (enquedFaces s))
     ∧ slog (sbase s') = slog (sbase s)
     ∧ calls (sbase s')
       = calls (sbase s)
         ++ match request (sbase s) with
            | Some _ => []
            | None => [CallCreateInferRequest]
            end
         ++ [CallGetBlob (input s)])
  ∧ (enquedFaces s = maxBatch (sbase s) →
     ∃ s', Stage.enqueue who face s = Value s'
           ∧ enquedFaces s' = enquedFaces s
           ∧ request (sbase s') = request (sbase s)
           ∧ calls (sbase s') = calls (sbase s)
           ∧ slog (sbase s')
             = slog (sbase s) ++ [LogTooManyFaces (maxBatch (sbase s)) who])
  ∧ (enquedFaces s ≠ maxBatch (sbase s) →
     request (sbase s) = None → net (sbase s) = None →
     ∃ what, Stage.enqueue who face s = Thrown (ie_exception what)).
Proof.
  intros Hen. split_and!.
  - intros Hin Hroom Hrange.
    destruct (enqueue_accepts who face s Hen Hin Hroom Hrange)
      as (s' & r' & old & Hrun & Hq & _ & _ & _ & _ & Hr & Hold & Hnew & Hlog & Hcalls).
    exists s', r', old. by split_and!.
  - intros Hfull. rewrite (enqueue_drops who face s Hen Hfull).
    eexists. split; [reflexivity|]. by simpl.
  - intros Hroom Hr Hn. unfold Stage.enqueue.
    rewrite (enabled_true _ Hen). simpl.
    destruct (Z.eqb_spec (enquedFaces s) (maxBatch (sbase s))) as [|_]; [done|].
    rewrite Hr, Hn. simpl. by eexists.
Qed.

(** X7.  Enqueueing a list of faces on an enabled stage whose input blob is
    bound: the first faces are accepted until the count reaches [maxBatch];
    each of the others is dropped with one warning.  The count ends at the
    minimum of [maxBatch] and the number of faces offered. *)
Theorem enqueue_all_fills_to_capacity (who : string) (faces : list Mat) (s : Stage D) :
  fst (enabled (sbase s)) = true →
  input_bound s →
  batch_ok s →
  ∃ s',
    enqueue_all who faces s = Value s'
    ∧ enquedFaces s'
      = Z.min (enquedFaces s + Z.of_nat (length faces)) (maxBatch (sbase s))
    ∧ slog (sbase s')
      = slog (sbase s)
        ++ replicate (Z.to_nat (enquedFaces s + Z.of_nat (length faces) - enquedFaces s'))
             (LogTooManyFaces (maxBatch (sbase s)) who)
    ∧ batch_ok s'
    ∧ maxBatch (sbase s') = maxBatch (sbase s).
Proof.
  revert s. induction faces as [|face faces IH]; intros s Hen Hin Hok.
  - exists s. simpl. split; [done|].
    destruct Hok as (Hb & Hmax & Hreq).
    change (Z.of_nat 0) with 0. rewrite Z.add_0_r, Z.min_l by lia.
    rewrite Z.sub_diag. simpl. rewrite app_nil_r. by split_and!.
  - destruct Hok as (Hb & Hmax & Hreq).
    destruct int_bounds as [Hmin Hmx].
    cbn [enqueue_all length].
    destruct (decide (enquedFaces s = maxBatch (sbase s))) as [Hfull|Hroom].
    + rewrite (enqueue_drops who face s Hen Hfull). simpl.
      set (s1 := Stage.set_base _ s).
      destruct (IH s1) as (s' & Hrun & Hq & Hlog & Hok' & Hm').
      { done. }
      { unfold input_bound in *. simpl. exact Hin. }
      { unfold batch_ok. simpl. split_and!; [lia|lia|lia|done]. }
      exists s'. split; [exact Hrun|]. simpl in Hq, Hlog, Hm'.
      split; [lia|]. split; [|by split].
      rewrite Hlog. simpl. rewrite <- app_assoc. f_equal.
      replace (Z.to_nat (enquedFaces s + Z.of_nat (S (length faces)) - enquedFaces s'))
        with (S (Z.to_nat (enquedFaces s + Z.of_nat (length faces) - enquedFaces s')))
        by lia.
      reflexivity.
    + destruct (enqueue_accepts who face s Hen Hin Hroom ltac:(lia))
        as (s1 & r1 & old & Hrun1 & Hq1 & Hm1 & Hi1 & _ & Hs1 & Hr1 & _ & Hf1 & Hl1 & _).
      rewrite Hrun1. simpl.
      destruct (IH s1) as (s' & Hrun & Hq & Hlog & Hok' & Hm').
      { by rewrite (enabled_settled _ Hs1). }
      { unfold input_bound. rewrite Hr1, Hi1, Hf1. eauto. }
      { unfold batch_ok. rewrite Hq1, Hm1, Hr1. split_and!; [lia|lia|done|done]. }
      exists s'. split; [exact Hrun|].
      rewrite Hq1, Hm1 in Hq. rewrite Hm1, Hl1, Hq1 in Hlog. rewrite Hm1 in Hm'.
      split; [lia|]. split; [|by split].
      rewrite Hlog. do 2 f_equal. lia.
Qed.

(** X8.  The calls [enqueue], [submitRequest] and [wait], in any order and
    number, starting with a count within the capacity: none of them has
    undefined behaviour (no null request is dereferenced, the count does not
    overflow), and the count stays within the capacity. *)
Theorem stage_calls_are_defined
    (rd : Core → Stage D → Outcome (CNNNetwork * Stage D)) (who : string)
    (cs : list Call) (s : Stage D) :
  forallb not_load cs = true →
  batch_ok s →
  stage_run rd who cs s ≠ Undefined
  ∧ ∀ s', stage_run rd who cs s = Value s' → batch_ok s'.
Proof.
  revert s. induction cs as [|c cs IH]; intros s Hcs Hok; simpl.
  - split; [done|]. by intros s' [= <-].
  - simpl in Hcs. apply andb_prop in Hcs as [Hc Hcs].
    assert (Hstep : stage_step rd who c s ≠ Undefined
                    ∧ ∀ s1, stage_step rd who c s = Value s1 → batch_ok s1).
    { destruct Hok as (Hb & Hmax & Hreq). destruct int_bounds as [Hmin Hmx].
      destruct c as [ie dev dyn|face| |]; simpl; [done| | |].
      - (* enqueue *)
        unfold Stage.enqueue.
        pose proof (enabled_keeps (sbase s)) as (Hm & Hr & Hn & _).
        destruct (enabled (sbase s)) as [en b]. simpl in *.
        destruct en; simpl.
        + destruct (Z.eqb_spec (enquedFaces s) (maxBatch b)) as [E|E].
          * split; [done|]. intros s1 [= <-]. unfold batch_ok. simpl.
            rewrite Hm, Hr. split_and!; [lia|lia|lia|done].
          * unfold int_add. rewrite int_result_in_range by lia.
            destruct (request b) as [r|]; simpl.
            -- unfold GetBlob. destruct (find_blob _ _); simpl; split; try done.
               intros s1 [= <-]. unfold batch_ok. simpl. rewrite Hm.
               split_and!; [lia|lia|done|done].
            -- destruct (net b) as [n|]; simpl; [|by split].
               unfold GetBlob. destruct (find_blob _ _); simpl; split; try done.
               intros s1 [= <-]. unfold batch_ok. simpl. rewrite Hm.
               split_and!; [lia|lia|done|done].
        + split; [done|]. intros s1 [= <-]. unfold batch_ok. simpl.
          rewrite Hm, Hr. split_and!; [lia|lia|lia|done].
      - (* submitRequest *)
        unfold Stage.submitRequest.
        destruct (Z.eqb_spec (enquedFaces s) 0) as [E|E].
        + split; [done|]. intros s1 [= <-]. exact (conj Hb (conj Hmax Hreq)).
        + destruct (request (sbase s)) as [r|] eqn:Hr; [|by destruct (Hreq E)].
          destruct (isBatchDynamic (sbase s)); simpl; split; try done;
            intros s1 [= <-]; unfold batch_ok; simpl.
          * assert (maxBatch (BaseDetection.submitRequest
                                (called (CallSetBatch (enquedFaces s))
                                   (set_request (Some (SetBatch r (enquedFaces s)))
                                      (sbase s))))
                    = maxBatch (sbase s)) as ->.
            { unfold BaseDetection.submitRequest.
              pose proof (enabled_keeps (called (CallSetBatch (enquedFaces s))
                                           (set_request (Some (SetBatch r (enquedFaces s)))
                                              (sbase s)))) as (Hm & _).
              destruct (enabled _) as [en b]. simpl in *.
              destruct en; simpl; [|done].
              destruct (request b); [destruct (isAsync b)|]; done. }
            split_and!; [lia|lia|done|done].
          * assert (maxBatch (BaseDetection.submitRequest (sbase s))
                    = maxBatch (sbase s)) as ->.
            { unfold BaseDetection.submitRequest.
              pose proof (enabled_keeps (sbase s)) as (Hm & _).
              destruct (enabled _) as [en b]. simpl in *.
              destruct en; simpl; [|done].
              destruct (request b); [destruct (isAsync b)|]; done. }
            split_and!; [lia|lia|done|done].
      - (* wait *)
        split; [done|]. intros s1 [= <-]. unfold batch_ok, Stage.wait. simpl.
        assert (maxBatch (BaseDetection.wait (sbase s)) = maxBatch (sbase s)
                ∧ (request (sbase s) ≠ None →
                   request (BaseDetection.wait (sbase s)) ≠ None)) as [-> Hw].
        { unfold BaseDetection.wait.
          pose proof (enabled_keeps (sbase s)) as (Hm & Hr & _).
          destruct (enabled _) as [en b]. simpl in *.
          destruct en; simpl; [|by rewrite Hr].
          destruct (request b) eqn:Hb'; [|by rewrite <- Hr].
          destruct (isAsync b); simpl; [done|]. by rewrite Hb'. }
        split_and!; [lia|lia|done|auto]. }
    destruct Hstep as [Hdef Hnext].
    destruct (stage_step rd who c s) as [s1| |]; simpl; [|done..].
    by apply IH, Hnext.
Qed.
End StageBatches.

(** ** The face detector, continued *)


Section FaceFrames.
Context `{OcvCommon}.
Import BaseDetection FaceDetection.

(** X9.  [FaceDetection::enqueue] on an enabled detector whose input blob is
    bound: the frame goes to slot 0 of the input blob, whatever was there;
    [width] and [height] become the size of the frame and [enquedFrames]
    becomes 1, however many frames were enqueued before.  The results of the
    previous frame stay until [submitRequest]. *)
Theorem face_enqueue_replaces_frame (frame : Mat) (f : FaceDetection.t) :
  fst (enabled (fbase f)) = true →
  face_input_bound f →
  ∃ f' r' old,
    FaceDetection.enqueue frame f = Value f'
    ∧ enquedFrames f' = 1
    ∧ width f' = F32.of_Z (cols frame) ∧ height f' = F32.of_Z (rows frame)
    ∧ results f' = results f ∧ resultsFetched f' = resultsFetched f
    ∧ request (fbase f') = Some r'
    ∧ find_blob (input f)
        (match request (fbase f) with
         | Some r => blobs r
         | None => match net (fbase f) with Some n => fresh_blobs n | None => [] end
         end) = Some old
    ∧ find_blob (input f') (blobs r') = Some (matToBlob frame old 0)
    ∧ fst (enabled (fbase f')) = true
    ∧ face_input_bound f'.
Proof.
  intros Hen Hin. unfold FaceDetection.enqueue.
  rewrite (enabled_true _ Hen). simpl.
  unfold face_input_bound in Hin.
  destruct (request (fbase f)) as [r|] eqn:Hr; simpl.
  - destruct Hin as [old Hold]. unfold GetBlob. rewrite Hold. simpl.
    eexists _, _, old. split; [reflexivity|]. simpl.
    assert (Hst := find_store_blob (input f) (matToBlob frame old 0) (blobs r)
                     (mk_is_Some _ _ Hold)).
    split_and!; try done. unfold face_input_bound. simpl. by rewrite Hst.
  - destruct Hin as (n & Hn & [old Hold]). rewrite Hn. simpl.
    unfold GetBlob. simpl. rewrite Hold. simpl.
    eexists _, _, old. split; [reflexivity|]. simpl.
    assert (Hst := find_store_blob (input f) (matToBlob frame old 0) (fresh_blobs n)
                     (mk_is_Some _ _ Hold)).
    split_and!; try done. unfold face_input_bound. simpl. by rewrite Hst.
Qed.

(** X10.  [FaceDetection::submitRequest] without a frame enqueued changes
    nothing and calls nothing; with one, it empties [results], clears
    [resultsFetched] and leaves no frame enqueued.  Hence a second
    [submitRequest] in a row does nothing: the request runs once for each
    enqueued frame. *)
Theorem face_submitRequest_once (f : FaceDetection.t) :
  (enquedFrames f = 0 → FaceDetection.submitRequest f = f)
  ∧ (enquedFrames f ≠ 0 →
     results (FaceDetection.submitRequest f) = []
     ∧ resultsFetched (FaceDetection.submitRequest f) = false
     ∧ fbase (FaceDetection.submitRequest f) = BaseDetection.submitRequest (fbase f))
  ∧ enquedFrames (FaceDetection.submitRequest f) = 0
  ∧ FaceDetection.submitRequest (FaceDetection.submitRequest f)
    = FaceDetection.submitRequest f.
Proof.
  unfold FaceDetection.submitRequest.
  destruct (Z.eqb_spec (enquedFrames f) 0) as [E|E].
  - split_and!; try done. by rewrite E.
  - split_and!; try done.
Qed.
End FaceFrames.

Section FaceProposals.
Import BaseDetection FaceDetection.

Lemma emit_length f i r acc :
  (length (fst (emit f i r acc)) ≤ S (length (fst acc)))%nat.
Proof.
  unfold emit. simpl. destruct (Flt.ltb _ _); [|lia].
  rewrite length_app. simpl. lia.
Qed.

Lemma loop_seven_length f detections n : ∀ i acc acc',
  loop_seven f detections n i acc = Value acc' →
  (length (fst acc') ≤ length (fst acc) + n)%nat.
Proof.
  induction n as [|n IH]; intros i acc acc' Hrun; simpl in Hrun.
  - injection Hrun as <-. lia.
  - if_inv Hrun; try (injection Hrun as <-; lia).
    apply bind_Value in Hrun as (image_id & _ & Hrun).
    if_inv Hrun; try (injection Hrun as <-; lia).
    apply bind_Value in Hrun as (lbl_f & _ & Hrun).
    apply bind_Value in Hrun as (lbl & _ & Hrun).
    apply bind_Value in Hrun as (conf & _ & Hrun).
    if_inv Hrun.
    + apply IH in Hrun. lia.
    + bind_inv Hrun. apply IH in Hrun.
      match type of Hrun with
      | context [emit f i ?r acc] => pose proof (emit_length f i r acc)
      end.
      lia.
Qed.

Lemma loop_boxes_length f detections labels n : ∀ i acc acc',
  loop_boxes f detections labels n i acc = Value acc' →
  (length (fst acc') ≤ length (fst acc) + n)%nat.
Proof.
  induction n as [|n IH]; intros i acc acc' Hrun; simpl in Hrun.
  - injection Hrun as <-. lia.
  - if_inv Hrun; try (injection Hrun as <-; lia).
    apply bind_Value in Hrun as (lbl & _ & Hrun).
    apply bind_Value in Hrun as (conf & _ & Hrun).
    if_inv Hrun.
    + apply IH in Hrun. lia.
    + bind_inv Hrun. apply IH in Hrun.
      match type of Hrun with
      | context [emit f i ?r acc] => pose proof (emit_length f i r acc)
      end.
      lia.
Qed.

(** X11.  [fetchResults] stores at most [maxProposalCount] detections, and
    none when [objectSize] is neither 5 nor 7 (or is 5 without a labels
    output): only the loop of the matching format runs. *)
Theorem fetched_at_most_maxProposalCount (f f' : FaceDetection.t) :
  fst (enabled (fbase f)) = true →
  fetchResults f = Value f' →
  (length (results f') ≤ Z.to_nat (maxProposalCount f))%nat
  ∧ (objectSize f ≠ 7 → objectSize f ≠ 5 ∨ labels_output f = "" → results f' = []).
Proof.
  intros Hen. unfold fetchResults. rewrite (enabled_true _ Hen). simpl.
  destruct (resultsFetched f); simpl.
  { intros [= <-]. simpl. split; [lia|done]. }
  intros Hrun.
  apply bind_Value in Hrun as (r & _ & Hrun).
  apply bind_Value in Hrun as (detections & _ & Hrun).
  apply bind_Value in Hrun as ([acc calls2] & Hacc & Hrun).
  apply bind_Value in Hrun as (acc' & Hloop & Hrun).
  injection Hrun as <-. simpl.
  destruct (String.eqb (labels_output f) "") eqn:Hlab; simpl in Hacc.
  - injection Hacc as <- _.
    split.
    + apply loop_seven_length in Hloop. simpl in Hloop. lia.
    + intros H7 _. rewrite loop_seven_other_size in Hloop by done.
      by injection Hloop as <-.
  - apply bind_Value in Hacc as (labels & _ & Hacc).
    apply bind_Value in Hacc as (acc0 & Hboxes & Hacc).
    injection Hacc as <- _.
    destruct (decide (objectSize f = 7)) as [E7|N7].
    + rewrite loop_boxes_other_size in Hboxes by (simpl; lia).
      injection Hboxes as <-.
      split; [|done]. apply loop_seven_length in Hloop. simpl in Hloop. lia.
    + rewrite loop_seven_other_size in Hloop by done. injection Hloop as <-.
      split.
      * apply loop_boxes_length in Hboxes. simpl in Hboxes. lia.
      * intros _ [N5|Hl].
        -- rewrite loop_boxes_other_size in Hboxes by done. by injection Hboxes as <-.
        -- apply String.eqb_neq in Hlab. done.
Qed.

(** X12.  In the 7-wide format a proposal with negative [image_id] ends the
    list: the loop over more proposals gives what the loop over the
    proposals before it gives, so nothing at or after that row is read or
    stored. *)
Theorem loop_seven_stops_at_sentinel
    (f : FaceDetection.t) (detections : Blob) (k m : nat) (image_id : spec_float) :
  ∀ (i : Z) (acc : list Result * list LogEvent),
    objectSize f = 7 →
    detection_at f detections (i + Z.of_nat k) 0 = Value image_id →
    Flt.ltb image_id (F32.of_Z 0) = true →
    loop_seven f detections (k + S m) i acc = loop_seven f detections k i acc.
Proof.
  induction k as [|k IH]; intros i acc H7 Hid Hneg.
  - cbn [Nat.add loop_seven]. rewrite H7.
    replace (i + Z.of_nat 0) with i in Hid by lia.
    rewrite Hid. change (negb (7 =? 7)) with false. cbn beta iota.
    change (Value image_id ≫= ?k) with (k image_id). cbn beta.
    by rewrite Hneg.
  - replace (i + Z.of_nat (S k)) with ((i + 1) + Z.of_nat k) in Hid by lia.
    change (S k + S m)%nat with (S (k + S m)).
    cbn [loop_seven]. rewrite H7. change (negb (7 =? 7)) with false. cbn beta iota.
    repeat (lazymatch goal with
            | |- (?m ≫= _) = (?m ≫= _) =>
                destruct m; [|reflexivity..];
                lazymatch goal with
                | |- (Value ?a ≫= ?k1) = (Value ?a ≫= ?k2) =>
                    change (k1 a = k2 a); cbn beta
                end
            | |- (if ?c then _ else _) = (if ?c then _ else _) =>
                destruct c; [first [reflexivity | by apply IH]|]
            end).
    all: first [reflexivity | by apply IH].
Qed.
End FaceProposals.



Section RawOutput.
Import BaseDetection FaceDetection.

Lemma detection_at_agree fr fn detections i k :
  objectSize fr = objectSize fn →
  detection_at fr detections i k = detection_at fn detections i k.
Proof. intros E. unfold detection_at. by rewrite E. Qed.

Lemma enlarge_agree fr fn loc :
  raw_and_quiet fr fn → enlarge fr loc = enlarge fn loc.
Proof.
  intros (_ & _ & _ & _ & _ & _ & He & Hdx & Hdy & _). unfold enlarge.
  by rewrite He, Hdx, Hdy.
Qed.

Lemma emit_quiet fr fn i r accr accn :
  raw_and_quiet fr fn → fst accr = fst accn →
  fst (emit fn i r accn) = fst (emit fr i r accr)
  ∧ snd (emit fn i r accn) = snd accn.
Proof.
  intros (_ & Hthr & _ & _ & _ & _ & _ & _ & _ & _ & Hq) Hacc.
  unfold emit. simpl. by rewrite Hq, Hthr, Hacc.
Qed.

Lemma emit_below fr i r acc :
  Flt.leb (F64.of_float (confidence r)) (detectionThreshold fr) = true →
  fst (emit fr i r acc) = fst acc.
Proof. intros Hle. unfold emit. simpl. by rewrite (leb_not_ltb _ _ Hle). Qed.

(** Moves one step of the run [Hrun] of the raw loop to the goal. *)
Ltac follow Hrun :=
  lazymatch type of Hrun with
  | (?m ≫= _) = Value _ =>
      let a := fresh "a" in
      let E := fresh "E" in
      apply bind_Value in Hrun as (a & E & Hrun);
      rewrite E;
      lazymatch goal with
      | |- ∃ _, (Value ?a ≫= ?k) = _ ∧ _ => change (Value a ≫= k) with (k a); cbn beta
      end
  end.

Lemma loop_seven_quiet fr fn detections n :
  raw_and_quiet fr fn →
  ∀ i accr accn accr',
    fst accr = fst accn →
    loop_seven fr detections n i accr = Value accr' →
    ∃ accn', loop_seven fn detections n i accn = Value accn'
             ∧ fst accn' = fst accr' ∧ snd accn' = snd accn.
Proof.
  intros Hrq.
  pose proof Hrq as (Hos & Hthr & Hw & Hh & _ & _ & _ & _ & _ & Hr & Hq).
  induction n as [|n IH]; intros i accr accn accr' Hacc Hrun; cbn [loop_seven] in *.
  - injection Hrun as <-. by exists accn.
  - rewrite <- !(detection_at_agree fr fn) by done.
    rewrite <- Hos, <- Hthr, <- Hw, <- Hh, Hq. rewrite Hr in Hrun.
    destruct (negb (objectSize fr =? 7)); [injection Hrun as <-; by exists accn|].
    follow Hrun.
    destruct (Flt.ltb a (F32.of_Z 0)); [injection Hrun as <-; by exists accn|].
    follow Hrun. follow Hrun. follow Hrun.
    rewrite andb_false_r in Hrun. rewrite andb_true_r.
    destruct (Flt.leb (F64.of_float a2) (detectionThreshold fr)) eqn:Hle.
    + bind_inv Hrun. apply (IH _ _ accn) in Hrun; [exact Hrun|].
      by rewrite emit_below.
    + repeat (try rewrite <- (enlarge_agree fr fn) by done; follow Hrun).
      destruct (emit_quiet fr fn i
                  {| label := a1; confidence := a2; location := a11 |} accr accn Hrq Hacc)
        as [Hf Hs].
      destruct (IH _ _ (emit fn i {| label := a1; confidence := a2; location := a11 |} accn)
                  _ (eq_sym Hf) Hrun) as (accn' & Hn & Hfn & Hsn).
      exists accn'. split; [exact Hn|]. split; [exact Hfn|]. by rewrite Hsn.
Qed.

Lemma loop_boxes_quiet fr fn detections labels n :
  raw_and_quiet fr fn →
  ∀ i accr accn accr',
    fst accr = fst accn →
    loop_boxes fr detections labels n i accr = Value accr' →
    ∃ accn', loop_boxes fn detections labels n i accn = Value accn'
             ∧ fst accn' = fst accr' ∧ snd accn' = snd accn.
Proof.
  intros Hrq.
  pose proof Hrq as (Hos & Hthr & Hw & Hh & Hniw & Hnih & _ & _ & _ & Hr & Hq).
  induction n as [|n IH]; intros i accr accn accr' Hacc Hrun; cbn [loop_boxes] in *.
  - injection Hrun as <-. by exists accn.
  - rewrite <- !(detection_at_agree fr fn) by done.
    rewrite <- Hos, <- Hthr, <- Hw, <- Hh, <- Hniw, <- Hnih, Hq. rewrite Hr in Hrun.
    destruct (negb (objectSize fr =? 5)); [injection Hrun as <-; by exists accn|].
    follow Hrun. follow Hrun.
    rewrite andb_false_r in Hrun. rewrite andb_true_r.
    destruct (Flt.leb (F64.of_float a0) (detectionThreshold fr)) eqn:Hle.
    + bind_inv Hrun. apply (IH _ _ accn) in Hrun; [exact Hrun|].
      by rewrite emit_below.
    + repeat (try rewrite <- (enlarge_agree fr fn) by done; follow Hrun).
      match type of Hrun with
      | loop_boxes _ _ _ _ _ (emit fr i ?r accr) = _ =>
          destruct (emit_quiet fr fn i r accr accn Hrq Hacc) as [Hf Hs];
          destruct (IH _ _ (emit fn i r accn) _ (eq_sym Hf) Hrun)
            as (accn' & Hn & Hfn & Hsn)
      end.
      exists accn'. split; [exact Hn|]. split; [exact Hfn|]. by rewrite Hsn.
Qed.

(** X13.  Raw output changes no result: when [fetchResults] of the detector
    that logs raw output returns, [fetchResults] of the same detector
    without raw output returns the same detections, having logged nothing;
    it decodes no box of a proposal at or below the threshold. *)
Theorem raw_output_keeps_results (f f1 : FaceDetection.t) :
  fst (enabled (fbase f)) = true →
  fetchResults (with_raw true f) = Value f1 →
  ∃ f2, fetchResults (with_raw false f) = Value f2
        ∧ results f2 = results f1
        ∧ resultsFetched f2 = resultsFetched f1
        ∧ calls (fbase f2) = calls (fbase f1)
        ∧ slog (fbase f2) = slog (fbase f).
Proof.
  intros Hen Hrun. revert Hrun. unfold fetchResults.
  assert (Her : fst (enabled (fbase (with_raw true f))) = true)
    by (revert Hen; unfold enabled; simpl; by destruct (enablingChecked (fbase f))).
  assert (Hen' : fst (enabled (fbase (with_raw false f))) = true)
    by (revert Hen; unfold enabled; simpl; by destruct (enablingChecked (fbase f))).
  rewrite (enabled_true _ Her), (enabled_true _ Hen'). simpl.
  destruct (resultsFetched f); simpl.
  { intros [= <-]. eexists. split; [reflexivity|]. by simpl. }
  destruct (request (fbase f)) as [r|]; simpl; [|done].
  destruct (GetBlob r (output f)) as [detections| |]; simpl; [|done..].
  intros Hrun.
  apply bind_Value in Hrun as ([acc5 calls2] & H5 & Hrun).
  apply bind_Value in Hrun as (acc7 & H7 & Hrun).
  injection Hrun as <-.
  lazymatch type of H7 with
  | loop_seven ?fr _ _ _ _ = _ =>
      lazymatch goal with
      | |- context [loop_seven ?fn _ _ _ _] =>
          assert (Hrq : raw_and_quiet fr fn) by (unfold raw_and_quiet; by split_and!)
      end
  end.
  lazymatch goal with
  | |- ∃ _, (?m ≫= _) = _ ∧ _ =>
      assert (Hboxes : ∃ accn, m = Value (accn, calls2)
                               ∧ fst accn = fst acc5 ∧ snd accn = [])
  end.
  { destruct (negb (String.eqb (labels_output f) "")).
    - apply bind_Value in H5 as (labels & -> & H5).
      apply bind_Value in H5 as (acc & Hb & H5). injection H5 as <- <-.
      destruct (loop_boxes_quiet _ _ detections labels _ Hrq 0 _ ([], []) _ eq_refl Hb)
        as (accn & Hn & Hfn & Hsn).
      exists accn. simpl. rewrite Hn. by simpl.
    - injection H5 as <- <-. by exists ([], []). }
  destruct Hboxes as (accn & -> & Hfn & Hsn).
  lazymatch goal with
  | |- ∃ _, (Value ?a ≫= ?k) = _ ∧ _ => change (Value a ≫= k) with (k a); cbn beta iota
  end.
  destruct (loop_seven_quiet _ _ detections _ Hrq 0 _ accn _ (eq_sym Hfn) H7)
    as (accn' & -> & Hfn' & Hsn').
  lazymatch goal with
  | |- ∃ _, (Value ?a ≫= ?k) = _ ∧ _ => change (Value a ≫= k) with (k a); cbn beta iota
  end.
  eexists. split; [reflexivity|]. cbn [results resultsFetched fbase set_fetch set_base].
  rewrite Hsn', Hsn. cbn [fold_left].
  split_and!; [exact Hfn'|reflexivity| |].
  - lazymatch goal with
    | |- calls (fold_left _ ?cs ?x) = calls (fold_left _ ?ls (fold_left _ ?cs ?y)) =>
        assert (Hxy : calls x = calls y) by done;
        generalize dependent x; generalize dependent y; generalize ls; generalize cs
    end.
    clear. intros cs ls y x Hxy.
    assert (Hc : calls (fold_left (λ b c, called c b) cs x)
                 = calls (fold_left (λ b c, called c b) cs y)).
    { revert x y Hxy. induction cs as [|c cs IH]; intros x y Hxy; simpl; [done|].
      apply IH. simpl. by rewrite Hxy. }
    rewrite Hc. generalize (fold_left (λ b c, called c b) cs y).
    induction ls as [|l ls IH]; intros b0; simpl; [done|]. by rewrite <- IH.
  - lazymatch goal with
    | |- slog (fold_left _ ?cs ?x) = _ =>
        assert (Hx : slog x = slog (fbase f)) by done;
        generalize dependent x; generalize cs
    end.
    clear. intros cs. induction cs as [|c cs IH]; intros x Hx; simpl; [done|]. by apply IH.
Qed.
End RawOutput.

(** ** Reading the models *)

Section Reads.
Import BaseDetection.

(** What [read_one_input] leaves when the model has one input. *)
Lemma read_one_input_Value {D} topo ie (s : Stage D) network inName inInfo :
  ReadNetwork ie (pathToModel (sbase s)) = Value network →
  inputsInfo network = [(inName, inInfo)] →
  read_one_input topo ie s
  = Value (setInputPrecision inName U8 (setBatchSize (maxBatch (sbase s)) network),
           Stage.set_input inName
             (Stage.set_base (called (CallReadNetwork (pathToModel (sbase s))) (sbase s)) s)).
Proof. intros Hrd Hin. unfold read_one_input. rewrite Hrd. simpl. by rewrite Hin. Qed.

Lemma read_one_input_Thrown {D} topo ie (s : Stage D) network :
  ReadNetwork ie (pathToModel (sbase s)) = Value network →
  length (inputsInfo network) ≠ 1%nat →
  read_one_input topo ie s
  = Thrown (logic_error (topo ++ " network should have only one input")).
Proof.
  intros Hrd Hin. unfold read_one_input. rewrite Hrd. simpl.
  destruct (inputsInfo network) as [|[n i] [|? ?]]; simpl in *; done.
Qed.

(** X14.  [AgeGenderDetection::read] of a model that the engine can read: it
    throws [std::logic_error] unless the model has exactly one input and
    exactly two outputs; otherwise it returns, with the batch size of the
    network set to [maxBatch], the stage marked enabled, and the age and
    gender outputs taken to be the first and the second output in the order
    of the output map, whatever their shapes. *)
Theorem age_gender_read_contract (ie : Core) (s : AgeGenderDetection.t)
    (network : CNNNetwork) :
  ReadNetwork ie (pathToModel (sbase s)) = Value network →
  (length (inputsInfo network) ≠ 1%nat ∨ length (outputsInfo network) ≠ 2%nat →
   ∃ what, AgeGenderDetection.read ie s = Thrown (logic_error what))
  ∧ (∀ inName inInfo first firstInfo second secondInfo,
       inputsInfo network = [(inName, inInfo)] →
       outputsInfo network = [(first, firstInfo); (second, secondInfo)] →
       ∃ network' s',
         AgeGenderDetection.read ie s = Value (network', s')
         ∧ batchSize network' = maxBatch (sbase s)
         ∧ inputsInfo network' = [(inName, setPrecision U8 inInfo)]
         ∧ outputsInfo network' = outputsInfo network
         ∧ input s' = inName
         ∧ AgeGenderDetection.outputAge (self s') = first
         ∧ AgeGenderDetection.outputGender (self s') = second
         ∧ _enabled (sbase s') = true
         ∧ enquedFaces s' = enquedFaces s
         ∧ calls (sbase s') = calls (sbase s) ++ [CallReadNetwork (pathToModel (sbase s))]).
Proof.
  intros Hrd. split.
  - intros Hbad. unfold AgeGenderDetection.read.
    destruct (decide (length (inputsInfo network) = 1%nat)) as [H1|H1].
    + destruct Hbad as [?|H2]; [done|].
      destruct (inputsInfo network) as [|[inName inInfo] [|? ?]] eqn:Hin; try done.
      rewrite (read_one_input_Value _ _ _ _ _ _ Hrd Hin). simpl.
      destruct (outputsInfo network) as [|[? ?] [|[? ?] [|? ?]]]; simpl in *; try done;
        by eexists.
    + rewrite (read_one_input_Thrown _ _ _ _ Hrd H1). simpl. by eexists.
  - intros inName inInfo first firstInfo second secondInfo Hin Hout.
    unfold AgeGenderDetection.read.
    rewrite (read_one_input_Value _ _ _ _ _ _ Hrd Hin). simpl. rewrite Hout.
    eexists _, _. split; [reflexivity|]. simpl. rewrite Hin. simpl.
    rewrite String.eqb_refl. by split_and!.
Qed.

(** X15.  [AntispoofingClassifier::read] and [EmotionsDetection::read] of a
    model that the engine can read throw [std::logic_error] unless the model
    has exactly one input and exactly one output; otherwise they return with
    that output as the output of the stage and the stage marked enabled.
    The shape of the output is not looked at. *)
Theorem single_output_read_contract (ie : Core) (network : CNNNetwork) :
  (∀ s : AntispoofingClassifier.t,
     ReadNetwork ie (pathToModel (sbase s)) = Value network →
     (length (inputsInfo network) ≠ 1%nat ∨ length (outputsInfo network) ≠ 1%nat →
      ∃ what, AntispoofingClassifier.read ie s = Thrown (logic_error what))
     ∧ (∀ inName inInfo outName outInfo,
          inputsInfo network = [(inName, inInfo)] →
          outputsInfo network = [(outName, outInfo)] →
          ∃ network' s',
            AntispoofingClassifier.read ie s = Value (network', s')
            ∧ batchSize network' = maxBatch (sbase s)
            ∧ input s' = inName
            ∧ AntispoofingClassifier.prob_output (self s') = outName
            ∧ _enabled (sbase s') = true))
  ∧ (∀ s : EmotionsDetection.t,
       ReadNetwork ie (pathToModel (sbase s)) = Value network →
       (length (inputsInfo network) ≠ 1%nat ∨ length (outputsInfo network) ≠ 1%nat →
        ∃ what, EmotionsDetection.read ie s = Thrown (logic_error what))
       ∧ (∀ inName inInfo outName outInfo,
            inputsInfo network = [(inName, inInfo)] →
            outputsInfo network = [(outName, outInfo)] →
            ∃ network' s',
              EmotionsDetection.read ie s = Value (network', s')
              ∧ batchSize network' = maxBatch (sbase s)
              ∧ outputsInfo network' = [(outName, setPrecision FP32 outInfo)]
              ∧ input s' = inName
              ∧ EmotionsDetection.outputEmotions (self s') = outName
              ∧ EmotionsDetection.emotionsVec (self s')
                = EmotionsDetection.emotionsVec (self s)
              ∧ _enabled (sbase s') = true)).
Proof.
  split; intros s Hrd; split.
  - intros Hbad. unfold AntispoofingClassifier.read.
    destruct (decide (length (inputsInfo network) = 1%nat)) as [H1|H1].
    + destruct Hbad as [?|H2]; [done|].
      destruct (inputsInfo network) as [|[inName inInfo] [|? ?]] eqn:Hin; try done.
      rewrite (read_one_input_Value _ _ _ _ _ _ Hrd Hin). simpl.
      destruct (outputsInfo network) as [|[? ?] [|? ?]]; simpl in *; try done; by eexists.
    + rewrite (read_one_input_Thrown _ _ _ _ Hrd H1). simpl. by eexists.
  - intros inName inInfo outName outInfo Hin Hout.
    unfold AntispoofingClassifier.read.
    rewrite (read_one_input_Value _ _ _ _ _ _ Hrd Hin). simpl. rewrite Hout.
    eexists _, _. split; [reflexivity|]. by simpl.
  - intros Hbad. unfold EmotionsDetection.read.
    destruct (decide (length (inputsInfo network) = 1%nat)) as [H1|H1].
    + destruct Hbad as [?|H2]; [done|].
      destruct (inputsInfo network) as [|[inName inInfo] [|? ?]] eqn:Hin; try done.
      rewrite (read_one_input_Value _ _ _ _ _ _ Hrd Hin). simpl.
      destruct (outputsInfo network) as [|[? ?] [|? ?]]; simpl in *; try done; by eexists.
    + rewrite (read_one_input_Thrown _ _ _ _ Hrd H1). simpl. by eexists.
  - intros inName inInfo outName outInfo Hin Hout.
    unfold EmotionsDetection.read.
    rewrite (read_one_input_Value _ _ _ _ _ _ Hrd Hin). simpl. rewrite Hout.
    eexists _, _. split; [reflexivity|]. simpl. rewrite Hout. simpl.
    rewrite String.eqb_refl. by split_and!.
Qed.

Lemma has_output_elem name outs :
  HeadPoseDetection.has_output name outs = true ↔ name ∈ outs.*1.
Proof.
  induction outs as [|[n d] outs IH]; simpl.
  - split; [done|]. by intros ?%elem_of_nil.
  - rewrite orb_true_iff, IH, elem_of_cons, String.eqb_eq.
    split; (intros [->|?]; [by left|by right]).
Qed.

Lemma first_missing_None names outs :
  HeadPoseDetection.first_missing names outs = None ↔ ∀ n, n ∈ names → n ∈ outs.*1.
Proof.
  induction names as [|n names IH]; simpl.
  - split; [|done]. by intros _ n ?%elem_of_nil.
  - destruct (HeadPoseDetection.has_output n outs) eqn:E.
    + apply has_output_elem in E. rewrite IH. split.
      * intros Hall m [->|Hm]%elem_of_cons; auto.
      * intros Hall m Hm. apply Hall. by right.
    + split; [done|]. intros Hall.
      assert (Hn : n ∈ outs.*1) by (apply Hall; by left).
      apply has_output_elem in Hn. congruence.
Qed.

Lemma first_missing_Some names outs n :
  HeadPoseDetection.first_missing names outs = Some n → n ∈ names ∧ n ∉ outs.*1.
Proof.
  induction names as [|m names IH]; simpl; [done|].
  destruct (HeadPoseDetection.has_output m outs) eqn:E.
  - intros [? ?]%IH. split; [by right|done].
  - intros [= <-]. split; [by left|].
    intros Hin%has_output_elem. congruence.
Qed.

Lemma all_fp32_names outs : (HeadPoseDetection.all_fp32 outs).*1 = outs.*1.
Proof. induction outs as [|[n d] outs IH]; simpl; [done|]. by f_equal. Qed.

(** X16.  [HeadPoseDetection::read] of a model with one input that the
    engine can read: it returns exactly when the outputs of the model
    include the three angle outputs of the stage, other outputs being
    allowed, and it makes every output [FP32]; otherwise it throws
    [std::logic_error] naming an angle output that is missing. *)
Theorem head_pose_read_contract (ie : Core) (s : HeadPoseDetection.t)
    (network : CNNNetwork) (inName : string) (inInfo : DataInfo) :
  ReadNetwork ie (pathToModel (sbase s)) = Value network →
  inputsInfo network = [(inName, inInfo)] →
  let angles := [HeadPoseDetection.outputAngleR (self s);
                 HeadPoseDetection.outputAngleP (self s);
                 HeadPoseDetection.outputAngleY (self s)] in
  ((∀ n, n ∈ angles → n ∈ (outputsInfo network).*1)
   ↔ ∃ network' s', HeadPoseDetection.read ie s = Value (network', s'))
  ∧ (∀ network' s',
       HeadPoseDetection.read ie s = Value (network', s') →
       outputsInfo network' = HeadPoseDetection.all_fp32 (outputsInfo network)
       ∧ (∀ n d, (n, d) ∈ outputsInfo network' → precision d = FP32)
       ∧ input s' = inName ∧ self s' = self s
       ∧ _enabled (sbase s') = true)
  ∧ ((∃ n, n ∈ angles ∧ n ∉ (outputsInfo network).*1)
     ↔ ∃ missing,
         missing ∈ angles ∧ (missing ∉ (outputsInfo network).*1)
         ∧ HeadPoseDetection.read ie s
           = Thrown (logic_error ("There is no " ++ missing
                                  ++ " output in Head Pose Estimation network"))).
Proof.
  intros Hrd Hin angles.
  set (s1 := Stage.set_input inName
               (Stage.set_base (called (CallReadNetwork (pathToModel (sbase s))) (sbase s))
                  s)).
  set (network1 := setInputPrecision inName U8 (setBatchSize (maxBatch (sbase s)) network)).
  assert (Hread :
    HeadPoseDetection.read ie s
    = match HeadPoseDetection.first_missing angles
              (HeadPoseDetection.all_fp32 (outputsInfo network)) with
      | Some outName =>
          Thrown (logic_error ("There is no " ++ outName
                               ++ " output in Head Pose Estimation network"))
      | None =>
          Value ({| batchSize := batchSize network1; inputsInfo := inputsInfo network1;
                    outputsInfo := HeadPoseDetection.all_fp32 (outputsInfo network) |},
                 mark_enabled s1)
      end).
  { unfold HeadPoseDetection.read.
    by rewrite (read_one_input_Value _ _ _ _ _ _ Hrd Hin). }
  rewrite Hread. clear Hread.
  destruct (HeadPoseDetection.first_missing angles
              (HeadPoseDetection.all_fp32 (outputsInfo network))) as [missing|] eqn:E.
  - apply first_missing_Some in E as [Hm Hout]. rewrite all_fp32_names in Hout.
    split_and!.
    + split; [|by intros (? & ? & ?)]. intros Hall. destruct Hout. by apply Hall.
    + by intros ? ?.
    + split; [|by intros (m & ? & ? & _); exists m]. intros _. by exists missing.
  - pose proof (proj1 (first_missing_None _ _) E) as Hall.
    rewrite all_fp32_names in Hall.
    split_and!.
    + split; [by eexists _, _|]. by intros _.
    + intros network' s' [= <- <-]. simpl. split_and!; try done.
      clear. induction (outputsInfo network) as [|[n0 d0] outs IH]; simpl.
      * by intros n d ?%elem_of_nil.
      * intros n d [[= -> ->]|Hnd]%elem_of_cons; [done|]. by eapply IH.
    + split; [|by intros (m & ? & ? & ?)]. intros (n & Hn & Hnot). destruct Hnot. auto.
Qed.
End Reads.

(** ** Running a request *)

Section SubmitAndWait.
Import BaseDetection.

(** X17.  [submitRequest] followed by [wait] on an enabled detector that has
    a request runs the network once on the blobs of the request, in both
    modes: synchronously by [Infer], asynchronously by [StartAsync] and
    [Wait].  In the asynchronous mode the blobs are still the old ones
    between the two calls.  A further [wait] leaves the request as it is. *)
Theorem submit_then_wait_infers (b : BaseDetection.t) (r : InferRequest) :
  fst (enabled b) = true →
  request b = Some r →
  request (wait (submitRequest b)) = Some (Infer r)
  ∧ calls (wait (submitRequest b))
    = calls b ++ (if isAsync b then [CallStartAsync; CallWait] else [CallInfer])
  ∧ slog (wait (submitRequest b)) = slog b
  ∧ (isAsync b = true →
     ∃ r1, request (submitRequest b) = Some r1 ∧ blobs r1 = blobs r)
  ∧ request (wait (wait (submitRequest b))) = Some (Infer r).
Proof.
  intros Hen Hr.
  assert (Hs : settled (set_enabling true true b)) by done.
  unfold submitRequest. rewrite (enabled_true _ Hen). simpl. rewrite Hr.
  destruct (isAsync b) eqn:Ha.
  - unfold wait. simpl. rewrite Ha. simpl. rewrite Ha. simpl.
    split_and!; try done.
    + by rewrite <- app_assoc.
    + intros _. by eexists.
  - unfold wait. simpl. rewrite Ha. simpl. rewrite Ha. simpl.
    split_and!; done.
Qed.
End SubmitAndWait.

(** ** Reading the results of the face-attribute stages *)

Section DecodedValues.
Import BaseDetection.

Lemma collect_content n b v :
  mem b = DataF32 v →
  ∀ i acc,
    0 ≤ i →
    2 * (i + Z.of_nat n) ≤ Z.of_nat (length v) →
    2 * (i + Z.of_nat n) < SizeT.modulus →
    FacialLandmarksDetection.collect n b i acc
    = Value (acc ++ take (2 * n) (drop (Z.to_nat (2 * i)) v)).
Proof.
  intros Hm. rewrite size_bound.
  induction n as [|n IH]; intros i acc H0 Hlen Hsz.
  - simpl. by rewrite app_nil_r.
  - assert (E1 : SizeT.mul 2 i = 2 * i).
    { unfold SizeT.mul, SizeT.wrap. rewrite size_bound. apply Z.mod_small. lia. }
    assert (E2 : SizeT.add (2 * i) 1 = 2 * i + 1).
    { unfold SizeT.add, SizeT.wrap. rewrite size_bound. apply Z.mod_small. lia. }
    cbn [FacialLandmarksDetection.collect]. rewrite E1, E2.
    destruct (read_f32_Value b v (2 * i) Hm ltac:(lia)) as (x & Hx & ->). simpl.
    destruct (read_f32_Value b v (2 * i + 1) Hm ltac:(lia)) as (y & Hy & ->). simpl.
    rewrite (IH (i + 1) (acc ++ [x; y])) by lia.
    f_equal. rewrite <- app_assoc. f_equal.
    replace (Z.to_nat (2 * i + 1)) with (S (Z.to_nat (2 * i))) in Hy by lia.
    rewrite (drop_S v x (Z.to_nat (2 * i)) Hx).
    rewrite (drop_S v y (S (Z.to_nat (2 * i))) Hy).
    replace (Z.to_nat (2 * (i + 1))) with (S (S (Z.to_nat (2 * i)))) by lia.
    replace (n + S (n + 0))%nat with (S (2 * n)) by lia. reflexivity.
Qed.

(** X18.  [FacialLandmarksDetection::operator[]] with [k = channels / 2]:
    the result is the [2 * k] values of the output blob that start at offset
    [2 * k * idx], in the order of the blob.  With an odd number of channels
    these are not the values of row [idx], which starts at [channels * idx].
    *)
Theorem landmarks_decode_row
    (s : FacialLandmarksDetection.t) (r : InferRequest) (b : Blob)
    (v : list spec_float) (N idx : Z) :
  request (sbase s) = Some r →
  GetBlob r (FacialLandmarksDetection.outputFacialLandmarksBlobName (self s)) = Value b →
  mem b = DataF32 v →
  0 ≤ channels b →
  Z.of_nat (length v) = N * channels b →
  N * channels b < SizeT.modulus →
  0 ≤ idx < N → idx ≤ Int.max_int →
  FacialLandmarksDetection.decode s idx
  = Value (take (2 * Z.to_nat (channels b / 2))
             (drop (2 * Z.to_nat (channels b / 2) * Z.to_nat idx) v)).
Proof.
  intros Hr Hb Hm Hc Hl Hsz Hi Hint.
  destruct int_bounds as [Hmin Hmax].
  unfold FacialLandmarksDetection.decode, Stage.deref_request. rewrite Hr. simpl.
  rewrite Hb. simpl.
  set (c := channels b) in *. set (k := c / 2).
  assert (Hk : 0 ≤ k ∧ 2 * k ≤ c).
  { subst k. split; [by apply Z.div_pos|]. apply Z.mul_div_le. lia. }
  rewrite size_bound in Hsz.
  assert (Hw : SizeT.wrap idx = idx).
  { unfold SizeT.wrap. rewrite size_bound. apply Z.mod_small. lia. }
  assert (Hbegin : SizeT.mul k (SizeT.wrap idx) = k * idx).
  { rewrite Hw. unfold SizeT.mul, SizeT.wrap. rewrite size_bound.
    apply Z.mod_small. nia. }
  assert (Hend : SizeT.add (k * idx) k = k * idx + k).
  { unfold SizeT.add, SizeT.wrap. rewrite size_bound. apply Z.mod_small. nia. }
  rewrite Hbegin, Hend.
  replace (k * idx + k - k * idx) with k by lia.
  rewrite (collect_content (Z.to_nat k) b v Hm (k * idx) [])
    by (rewrite ?size_bound; nia).
  simpl. do 3 f_equal. nia.
Qed.

(** X19.  [operator[]] of the age/gender, head pose and antispoofing stages
    on output blobs of [N] rows, for an index within the rows: the age is
    100 times element [idx] of the age blob and the male probability is the
    second value of pair [idx] of the gender blob; the three angles are
    element [idx] of their blobs; the real-face score is 100 times the first
    value of pair [idx]. *)
Theorem attribute_values_decoded (N idx : Z) (r : InferRequest) :
  0 ≤ idx < N →
  2 * N ≤ Int.max_int →
  (∀ (s : AgeGenderDetection.t) ba va bg vg,
     request (sbase s) = Some r →
     GetBlob r (AgeGenderDetection.outputAge (self s)) = Value ba →
     mem ba = DataF32 va → Z.of_nat (length va) = N →
     GetBlob r (AgeGenderDetection.outputGender (self s)) = Value bg →
     mem bg = DataF32 vg → Z.of_nat (length vg) = 2 * N →
     ∃ a g, va !! Z.to_nat idx = Some a
            ∧ vg !! Z.to_nat (2 * idx + 1) = Some g
            ∧ AgeGenderDetection.decode s idx
              = Value {| AgeGenderDetection.age := F32.mul a (F32.of_Z 100);
                         AgeGenderDetection.maleProb := g |})
  ∧ (∀ (s : HeadPoseDetection.t) br vr bp vp by_ vy,
       request (sbase s) = Some r →
       GetBlob r (HeadPoseDetection.outputAngleR (self s)) = Value br →
       mem br = DataF32 vr → Z.of_nat (length vr) = N →
       GetBlob r (HeadPoseDetection.outputAngleP (self s)) = Value bp →
       mem bp = DataF32 vp → Z.of_nat (length vp) = N →
       GetBlob r (HeadPoseDetection.outputAngleY (self s)) = Value by_ →
       mem by_ = DataF32 vy → Z.of_nat (length vy) = N →
       ∃ x p y, vr !! Z.to_nat idx = Some x
                ∧ vp !! Z.to_nat idx = Some p
                ∧ vy !! Z.to_nat idx = Some y
                ∧ HeadPoseDetection.decode s idx
                  = Value {| HeadPoseDetection.angle_r := x;
                             HeadPoseDetection.angle_p := p;
                             HeadPoseDetection.angle_y := y |})
  ∧ (∀ (s : AntispoofingClassifier.t) b v,
       request (sbase s) = Some r →
       GetBlob r (AntispoofingClassifier.prob_output (self s)) = Value b →
       mem b = DataF32 v → Z.of_nat (length v) = 2 * N →
       ∃ x, v !! Z.to_nat (2 * idx) = Some x
            ∧ AntispoofingClassifier.decode s idx
              = Value (F32.mul x (F32.of_Z 100))).
Proof.
  intros Hi HN. destruct int_bounds as [Hmin Hmax]. split_and!.
  - intros s ba va bg vg Hr Hba Hma Hla Hbg Hmg Hlg.
    unfold AgeGenderDetection.decode, Stage.deref_request. rewrite Hr. simpl.
    rewrite Hbg. simpl. rewrite Hba. simpl.
    destruct (read_f32_Value ba va idx Hma ltac:(lia)) as (a & Ha & ->). simpl.
    unfold int_mul, int_add. rewrite int_result_in_range by lia. simpl.
    rewrite int_result_in_range by lia. simpl.
    destruct (read_f32_Value bg vg (idx * 2 + 1) Hmg ltac:(lia)) as (g & Hg & ->).
    simpl. exists a, g. split; [done|]. split; [|done].
    by replace (2 * idx + 1) with (idx * 2 + 1) by lia.
  - intros s br vr bp vp by_ vy Hr Hbr Hmr Hlr Hbp Hmp Hlp Hby Hmy Hly.
    unfold HeadPoseDetection.decode, Stage.deref_request. rewrite Hr. simpl.
    rewrite Hbr. simpl. rewrite Hbp. simpl. rewrite Hby. simpl.
    destruct (read_f32_Value br vr idx Hmr ltac:(lia)) as (x & Hx & ->). simpl.
    destruct (read_f32_Value bp vp idx Hmp ltac:(lia)) as (p & Hp & ->). simpl.
    destruct (read_f32_Value by_ vy idx Hmy ltac:(lia)) as (y & Hy & ->). simpl.
    by exists x, p, y.
  - intros s b v Hr Hb Hm Hl.
    unfold AntispoofingClassifier.decode, Stage.deref_request. rewrite Hr. simpl.
    rewrite Hb. simpl. unfold int_mul. rewrite int_result_in_range by lia. simpl.
    destruct (read_f32_Value b v (2 * idx) Hm ltac:(lia)) as (x & Hx & ->). simpl.
    by exists x.
Qed.
End DecodedValues.

(** ** What [FaceDetection::read] learns of the network *)






Section FaceContract.
Import BaseDetection FaceDetection.

Lemma pick_cons {A} (P : A → bool) x l :
  pick P (x :: l)
  = match pick P l with
    | Some e => Some e
    | None => if P x then Some x else None
    end.
Proof.
  unfold pick. simpl. destruct (P x); [|by destruct (last _)].
  by rewrite last_cons.
Qed.

Lemma vec_at_Some v i a : v !! i = Some a → vec_at v i = Value a.
Proof. unfold vec_at. by intros ->. Qed.

Lemma vec_at_Value v i a : vec_at v i = Value a → v !! i = Some a.
Proof. unfold vec_at. destruct (v !! i); [by intros [= ->]|done]. Qed.

Lemma is_boxes_dims e : is_boxes e = true → ∃ c, info_dims e.2 = [c; 5].
Proof.
  unfold is_boxes. intros [H2 H5]%andb_prop.
  apply Z.eqb_eq in H2. apply bool_decide_eq_true in H5.
  destruct (info_dims e.2) as [|c [|c' [|]]]; simpl in H2; try lia.
  simpl in H5. injection H5 as ->. by exists c.
Qed.

Lemma boxes_not_labels e : is_boxes e = true → is_labels e = false.
Proof.
  intros [c Hc]%is_boxes_dims. unfold is_labels. by rewrite Hc.
Qed.

Lemma scan_outputs_spec outs : ∀ out lab count size seen,
  scan_outputs outs (out, lab, count, size, seen)
  = Value (from_option fst out (pick is_boxes outs),
           from_option fst lab (pick is_labels outs),
           from_option first_dim count (pick is_boxes outs),
           from_option (λ _, 5) size (pick is_boxes outs),
           seen ++ map fp32_if_boxes outs).
Proof.
  induction outs as [|[name d] outs IH]; intros out lab count size seen.
  - simpl. by rewrite app_nil_r.
  - rewrite !pick_cons. cbn [scan_outputs map].
    change ((Z.of_nat (length (info_dims d)) =? 2)
            && bool_decide (last (info_dims d) = Some 5)) with (is_boxes (name, d)).
    change ((Z.of_nat (length (info_dims d)) =? 1)
            && match precision d with I32 => true | _ => false end)
      with (is_labels (name, d)).
    assert (Hfp : fp32_if_boxes (name, d)
                  = if is_boxes (name, d) then (name, setPrecision FP32 d) else (name, d))
      by done.
    rewrite Hfp. clear Hfp.
    destruct (is_boxes (name, d)) eqn:Eb.
    + rewrite (boxes_not_labels _ Eb).
      destruct (is_boxes_dims _ Eb) as [c Hc]. simpl in Hc.
      assert (Hf : first_dim (name, d) = narrow_int c).
      { unfold first_dim. simpl. by rewrite Hc. }
      rewrite Hc. simpl. rewrite IH, <- app_assoc. simpl.
      change (narrow_int 5) with 5.
      destruct (pick is_boxes outs), (pick is_labels outs); simpl; by rewrite ?Hf.
    + destruct (is_labels (name, d)); rewrite IH, <- app_assoc; simpl;
        by destruct (pick is_boxes outs), (pick is_labels outs).
Qed.

(** [FaceDetection::read] once the model is read and has one input of four
    dimensions and one output. *)
Lemma read_single_output_eq
    (ie : Core) (f : FaceDetection.t) (network : CNNNetwork)
    (inName outName : string) (inInfo outInfo : DataInfo) (h w : Z) :
  ReadNetwork ie (pathToModel (fbase f)) = Value network →
  inputsInfo network = [(inName, inInfo)] →
  outputsInfo network = [(outName, outInfo)] →
  info_dims inInfo !! 2%nat = Some h →
  info_dims inInfo !! 3%nat = Some w →
  FaceDetection.read ie f
    = (count ← vec_at (info_dims outInfo) 2;
       size ← vec_at (info_dims outInfo) 3;
       if negb (narrow_int size =? 7) then
         Thrown (logic_error
                   "Face Detection network output layer should have 7 as a last dimension")
       else if negb (Z.of_nat (length (info_dims outInfo)) =? 4) then
         Thrown (logic_error ("Face Detection network output should have 4 dimentions, but had "
                              ++ to_string (Z.of_nat (length (info_dims outInfo)))))
       else
         Value (setOutputPrecision outName FP32
                  (setInputPrecision inName U8 (setBatchSize (maxBatch (fbase f)) network)),
                set_contract inName outName (labels_output f)
                  (narrow_int count) (narrow_int size) (F32.of_Z w) (F32.of_Z h)
                  (set_base (called (CallReadNetwork (pathToModel (fbase f))) (fbase f))
                     f))).
Proof.
  intros Hnet Hin Hout Hh Hw.
  unfold FaceDetection.read. rewrite Hnet. simpl. rewrite Hin. simpl.
  rewrite (vec_at_Some _ _ _ Hh), (vec_at_Some _ _ _ Hw). simpl. rewrite Hout. simpl.
  destruct (vec_at (info_dims outInfo) 2) as [count| |]; simpl; [|done..].
  destruct (vec_at (info_dims outInfo) 3) as [size| |]; simpl; [|done..].
  destruct (narrow_int size =? 7); simpl; [|done].
  by destruct (Z.of_nat (length (info_dims outInfo)) =? 4).
Qed.

(** [FaceDetection::read] once the model is read and has one input of four
    dimensions and no or several outputs. *)
Lemma read_several_outputs_eq
    (ie : Core) (f : FaceDetection.t) (network : CNNNetwork)
    (inName : string) (inInfo : DataInfo) (h w : Z) :
  ReadNetwork ie (pathToModel (fbase f)) = Value network →
  inputsInfo network = [(inName, inInfo)] →
  length (outputsInfo network) ≠ 1%nat →
  info_dims inInfo !! 2%nat = Some h →
  info_dims inInfo !! 3%nat = Some w →
  let outs := outputsInfo network in
  let out := from_option fst (output f) (pick is_boxes outs) in
  let lab := from_option fst (labels_output f) (pick is_labels outs) in
  FaceDetection.read ie f
    = if String.eqb out "" || String.eqb lab "" then
        Thrown (logic_error
          "Face Detection network must contain either single DetectionOutput or 'boxes' [nx5] and 'labels' [n] at least, where 'n' is a number of detected objects.")
      else
        Value ({| batchSize := maxBatch (fbase f);
                  inputsInfo := [(inName, setPrecision U8 inInfo)];
                  outputsInfo := map fp32_if_boxes outs |},
               set_contract inName out lab
                 (from_option first_dim (maxProposalCount f) (pick is_boxes outs))
                 (from_option (λ _, 5) (objectSize f) (pick is_boxes outs))
                 (F32.of_Z w) (F32.of_Z h)
                 (set_base (called (CallReadNetwork (pathToModel (fbase f))) (fbase f))
                    f)).
Proof.
  intros Hnet Hin Hlen Hh Hw outs out lab.
  unfold FaceDetection.read. rewrite Hnet. cbn -[scan_outputs]. rewrite Hin.
  cbn -[scan_outputs].
  rewrite (vec_at_Some _ _ _ Hh), (vec_at_Some _ _ _ Hw). cbn -[scan_outputs].
  rewrite String.eqb_refl.
  subst out lab outs.
  destruct (outputsInfo network) as [|[n1 d1] [|[n2 d2] rest]] eqn:Eo;
    [|by simpl in Hlen|]; rewrite scan_outputs_spec; done.
Qed.

(** X20.  [FaceDetection::read] of a model with one input of four dimensions
    and one output.  Dimensions 2 and 3 of the output are read before its
    rank is tested: with fewer than four dimensions the read is outside the
    vector.  Otherwise [read] succeeds exactly when there are four
    dimensions and the last one is 7; it then records the names of the input
    and the output, the size of the input and the number of proposals, asks
    for [U8] on the input and [FP32] on the output, and leaves
    [labels_output] as it was. *)
Theorem face_read_single_output
    (ie : Core) (f : FaceDetection.t) (network : CNNNetwork)
    (inName outName : string) (inInfo outInfo : DataInfo) (h w : Z) :
  ReadNetwork ie (pathToModel (fbase f)) = Value network →
  inputsInfo network = [(inName, inInfo)] →
  outputsInfo network = [(outName, outInfo)] →
  info_dims inInfo !! 2%nat = Some h →
  info_dims inInfo !! 3%nat = Some w →
  ((length (info_dims outInfo) < 4)%nat → FaceDetection.read ie f = Undefined)
  ∧ (∀ count size,
       info_dims outInfo !! 2%nat = Some count →
       info_dims outInfo !! 3%nat = Some size →
       (narrow_int size ≠ 7 →
        FaceDetection.read ie f
        = Thrown (logic_error
                    "Face Detection network output layer should have 7 as a last dimension"))
       ∧ (narrow_int size = 7 → length (info_dims outInfo) ≠ 4%nat →
          ∃ e, FaceDetection.read ie f = Thrown e ∧ is_logic_error e = true)
       ∧ (narrow_int size = 7 → length (info_dims outInfo) = 4%nat →
          ∃ network' f',
            FaceDetection.read ie f = Value (network', f')
            ∧ input f' = inName ∧ output f' = outName
            ∧ labels_output f' = labels_output f
            ∧ maxProposalCount f' = narrow_int count ∧ objectSize f' = 7
            ∧ network_input_height f' = F32.of_Z h
            ∧ network_input_width f' = F32.of_Z w
            ∧ batchSize network' = maxBatch (fbase f)
            ∧ inputsInfo network' = [(inName, setPrecision U8 inInfo)]
            ∧ outputsInfo network' = [(outName, setPrecision FP32 outInfo)]
            ∧ calls (fbase f')
              = calls (fbase f) ++ [CallReadNetwork (pathToModel (fbase f))]
            ∧ slog (fbase f') = slog (fbase f))).
Proof.
  intros Hnet Hin Hout Hh Hw.
  rewrite (read_single_output_eq ie f network inName outName inInfo outInfo h w
             Hnet Hin Hout Hh Hw).
  split.
  - intros Hlen. unfold vec_at.
    destruct (info_dims outInfo !! 2%nat) eqn:E2; simpl; [|done].
    rewrite (lookup_ge_None_2 (info_dims outInfo) 3) by lia. done.
  - intros count size Hc Hs. unfold vec_at. rewrite Hc, Hs. simpl.
    destruct (Z.eqb_spec (narrow_int size) 7) as [E7|E7]; simpl.
    + split; [done|].
      destruct (Z.eqb_spec (Z.of_nat (length (info_dims outInfo))) 4) as [E4|E4]; simpl.
      * split; [lia|]. intros _ _. eexists _, _. split; [reflexivity|].
        simpl. rewrite Hin, Hout. simpl. rewrite !String.eqb_refl.
        by split_and!.
      * split; [|lia]. intros _ _. eexists. by split.
    + split; [done|]. split; intros; done.
Qed.

(** X21.  [FaceDetection::read] of a model with one input of four dimensions
    and no or several outputs.  The loop keeps the last output of shape [n x
    5] as the boxes and the last one-dimensional [I32] output as the labels;
    [read] throws when the name of either is still empty after the loop.  On
    success the object size is 5 and the number of proposals the [n] of the
    boxes (when the loop met boxes), and every output of shape [n x 5] has
    been asked for [FP32]. *)
Theorem face_read_several_outputs
    (ie : Core) (f : FaceDetection.t) (network : CNNNetwork)
    (inName : string) (inInfo : DataInfo) (h w : Z) :
  ReadNetwork ie (pathToModel (fbase f)) = Value network →
  inputsInfo network = [(inName, inInfo)] →
  length (outputsInfo network) ≠ 1%nat →
  info_dims inInfo !! 2%nat = Some h →
  info_dims inInfo !! 3%nat = Some w →
  let outs := outputsInfo network in
  let out := from_option fst (output f) (pick is_boxes outs) in
  let lab := from_option fst (labels_output f) (pick is_labels outs) in
  (out = "" ∨ lab = "" →
   FaceDetection.read ie f
   = Thrown (logic_error
       "Face Detection network must contain either single DetectionOutput or 'boxes' [nx5] and 'labels' [n] at least, where 'n' is a number of detected objects."))
  ∧ (out ≠ "" → lab ≠ "" →
     ∃ network' f',
       FaceDetection.read ie f = Value (network', f')
       ∧ input f' = inName ∧ output f' = out ∧ labels_output f' = lab
       ∧ maxProposalCount f'
         = from_option first_dim (maxProposalCount f) (pick is_boxes outs)
       ∧ objectSize f' = from_option (λ _, 5) (objectSize f) (pick is_boxes outs)
       ∧ network_input_height f' = F32.of_Z h
       ∧ network_input_width f' = F32.of_Z w
       ∧ batchSize network' = maxBatch (fbase f)
       ∧ inputsInfo network' = [(inName, setPrecision U8 inInfo)]
       ∧ outputsInfo network' = map fp32_if_boxes outs
       ∧ calls (fbase f')
         = calls (fbase f) ++ [CallReadNetwork (pathToModel (fbase f))]).
Proof.
  intros Hnet Hin Hlen Hh Hw outs out lab.
  rewrite (read_several_outputs_eq ie f network inName inInfo h w Hnet Hin Hlen Hh Hw).
  fold outs. fold out. fold lab. split.
  - intros [->| ->]; [done|]. by rewrite orb_true_r.
  - intros Ho Hl.
    destruct (String.eqb_spec out "") as [|_]; [done|].
    destruct (String.eqb_spec lab "") as [|_]; [done|]. simpl.
    eexists _, _. split; [reflexivity|]. simpl. by split_and!.
Qed.

(** X22.  A detector whose [output] and [labels_output] are empty, as the
    constructor leaves them: when [read] returns, either there are no labels
    and the object size is 7, or both names are set and the object size is
    5.  So exactly one of the two loops of [fetchResults] is taken. *)
Theorem face_read_fixes_layout
    (ie : Core) (f f' : FaceDetection.t) (network' : CNNNetwork) :
  output f = "" → labels_output f = "" →
  FaceDetection.read ie f = Value (network', f') →
  (labels_output f' = "" ∧ objectSize f' = 7)
  ∨ (labels_output f' ≠ "" ∧ output f' ≠ "" ∧ objectSize f' = 5).
Proof.
  intros Ho Hl Hrun.
  destruct (ReadNetwork ie (pathToModel (fbase f))) as [network| |] eqn:Hnet;
    [|by unfold FaceDetection.read in Hrun; rewrite Hnet in Hrun..].
  destruct (inputsInfo network) as [|[inName inInfo] [|]] eqn:Hin;
    [by unfold FaceDetection.read in Hrun; rewrite Hnet in Hrun; simpl in Hrun;
        rewrite Hin in Hrun| |
     by unfold FaceDetection.read in Hrun; rewrite Hnet in Hrun; simpl in Hrun;
        rewrite Hin in Hrun].
  destruct (vec_at (info_dims inInfo) 2) as [h| |] eqn:Hh;
    [|by unfold FaceDetection.read in Hrun; rewrite Hnet in Hrun;
         cbn -[vec_at scan_outputs] in Hrun; rewrite Hin in Hrun;
         cbn -[vec_at scan_outputs] in Hrun; rewrite Hh in Hrun..].
  destruct (vec_at (info_dims inInfo) 3) as [w| |] eqn:Hw;
    [|by unfold FaceDetection.read in Hrun; rewrite Hnet in Hrun;
         cbn -[vec_at scan_outputs] in Hrun; rewrite Hin in Hrun;
         cbn -[vec_at scan_outputs] in Hrun; rewrite Hh, Hw in Hrun..].
  apply vec_at_Value in Hh, Hw.
  destruct (decide (length (outputsInfo network) = 1%nat)) as [H1|H1].
  - destruct (outputsInfo network) as [|[outName outInfo] [|]] eqn:Hout; try done.
    rewrite (read_single_output_eq ie f network inName outName inInfo outInfo h w
               Hnet Hin Hout Hh Hw) in Hrun.
    destruct (vec_at (info_dims outInfo) 2) as [count| |]; simpl in Hrun; [|done..].
    destruct (vec_at (info_dims outInfo) 3) as [size| |]; simpl in Hrun; [|done..].
    destruct (Z.eqb_spec (narrow_int size) 7) as [E7|E7]; simpl in Hrun; [|done].
    destruct (Z.of_nat (length (info_dims outInfo)) =? 4); simpl in Hrun; [|done].
    injection Hrun as <- <-. left. simpl. by split.
  - rewrite (read_several_outputs_eq ie f network inName inInfo h w Hnet Hin H1 Hh Hw)
      in Hrun.
    rewrite Ho, Hl in Hrun.
    destruct (pick is_boxes (outputsInfo network)) as [bx|] eqn:Eb; simpl in Hrun;
      [|done].
    destruct (String.eqb_spec bx.1 "") as [E|E]; simpl in Hrun; [done|].
    destruct (pick is_labels (outputsInfo network)) as [lb|] eqn:El; simpl in Hrun;
      [|done].
    destruct (String.eqb_spec lb.1 "") as [E'|E']; simpl in Hrun; [done|].
    injection Hrun as <- <-. right. simpl. by split_and!.
Qed.
End FaceContract.

(** ** Loading a detector *)

Section LoadInto.
Context {T : Type} `{Detection T}.
Import BaseDetection.

(** X23.  [Load::into] on any detector whose [BaseDetection] part is a part
    of the object.  A disabled detector is left alone: nothing is read or
    loaded.  For an enabled one the model is read, then loaded on the
    device; dynamic batching is asked for only if the flag is set and the
    name of the device contains CPU or GPU; an exception of [read] or of
    [LoadNetwork] passes through; on success the network is bound and two
    lines are logged, and the request is not touched. *)
Theorem load_into_contract (ie : Core) (deviceName : string) (dyn : bool) (detector : T) :
  (∀ b d, base (with_base b d) = b) →
  let d0 := with_base (snd (enabled (base detector))) detector in
  let config :=
    if dyn && (contains "CPU" deviceName || contains "GPU" deviceName)
    then [("DYN_BATCH_ENABLED", "YES")] else [] in
  (fst (enabled (base detector)) = false →
   Load.into ie deviceName dyn detector = Value d0)
  ∧ (fst (enabled (base detector)) = true →
     (∀ e, read ie d0 = Thrown e → Load.into ie deviceName dyn detector = Thrown e)
     ∧ (∀ network d1, read ie d0 = Value (network, d1) →
          (∀ e, LoadNetwork ie network deviceName config = Thrown e →
                Load.into ie deviceName dyn detector = Thrown e)
          ∧ (∀ n, LoadNetwork ie network deviceName config = Value n →
               ∃ d', Load.into ie deviceName dyn detector = Value d'
                     ∧ net (base d') = Some n
                     ∧ request (base d') = request (base d1)
                     ∧ calls (base d') = calls (base d1) ++ [CallLoadNetwork deviceName]
                     ∧ slog (base d')
                       = slog (base d1)
                         ++ [LogNetworkInfo (pathToModel (base d1)) deviceName
                               (topoName (base d1));
                             LogBatchSize (maxBatch (base d1))])))
  ∧ (contains "CPU" deviceName = false → contains "GPU" deviceName = false →
     Load.into ie deviceName true detector = Load.into ie deviceName false detector).
Proof.
  intros Hlaw d0 config. subst d0 config. unfold Load.into.
  destruct (enabled (base detector)) as [en b]. simpl. split_and!.
  - by intros ->.
  - intros ->. split.
    + by intros e ->.
    + intros network d1 ->. simpl. split.
      * by intros e ->.
      * intros n ->. simpl. eexists. split; [reflexivity|].
        rewrite Hlaw. simpl. split_and!; try done. by rewrite <- app_assoc.
  - by intros -> ->.
Qed.
End LoadInto.

(** ** The properties on concrete stages *)

Lemma timer_other_records_kept_witness :
  Timer.start "age" 2000000 (Timer.start "face" 0 ∅) !! "face"
  = Some (CallStat.setStartTime 0 CallStat.make)
  ∧ ∃ timers',
      @Timer.finish ms_double "face" 5000000
        (Timer.start "age" 2000000 (Timer.start "face" 0 ∅)) = Value timers'
      ∧ timers' !! "age" = Some (CallStat.setStartTime 2000000 CallStat.make).
Proof.
  split.
  - rewrite (proj1 (@timer_other_records_kept ms_double "age" "face" 2000000
                      (Timer.start "face" 0 ∅) ltac:(discriminate))).
    by rewrite start_lookup, lookup_empty.
  - assert (E : ∃ timers',
               @Timer.finish ms_double "face" 5000000
                 (Timer.start "age" 2000000 (Timer.start "face" 0 ∅)) = Value timers').
    { eexists. apply (@finish_Value ms_double).
      rewrite start_lookup_ne by done. by rewrite start_lookup. }
    destruct E as [timers' E]. exists timers'. split; [exact E|].
    rewrite (proj2 (@timer_other_records_kept ms_double "face" "age" 5000000 _
                      ltac:(discriminate)) timers' E).
    by rewrite start_lookup, start_lookup_ne, lookup_empty.
Defined.

Lemma timer_finish_restarts_witness :
  ∃ timers1 timers2 c2,
    @Timer.finish ms_double "face" 8000000 (Timer.start "face" 0 ∅) = Value timers1
    ∧ @Timer.finish ms_double "face" 11000000 timers1 = Value timers2
    ∧ timers2 !! "face" = Some c2
    ∧ CallStat._last_call_duration c2 = F64.of_Z 3
    ∧ CallStat._total_duration c2 = F64.of_Z 11.
Proof.
  assert (E : @Timer.finish ms_double "face" 8000000 (Timer.start "face" 0 ∅)
              = Value (<[ "face" := @CallStat.calculateDuration ms_double 8000000
                                      (CallStat.setStartTime 0 CallStat.make) ]>
                         (Timer.start "face" 0 ∅))).
  { apply (@finish_Value ms_double). by rewrite start_lookup. }
  destruct (@timer_finish_restarts ms_double "face" 8000000 11000000
              (Timer.start "face" 0 ∅) _ (CallStat.setStartTime 0 CallStat.make)
              ltac:(by rewrite start_lookup) E)
    as (_ & timers2 & c1 & c2 & H1 & _ & H3 & _ & H5 & Hfin & Hc2 & Hlast & Htotal).
  eexists _, timers2, c2. split; [exact E|]. split; [exact Hfin|].
  split; [exact Hc2|]. split.
  - rewrite Hlast. vm_compute. reflexivity.
  - rewrite Htotal, H5, H3. vm_compute. reflexivity.
Defined.

Lemma timer_durations_not_negative_witness :
  ∃ timers c,
    @Timer.finish ms_double "face" 8000000 (Timer.start "face" 0 ∅) = Value timers
    ∧ timers !! "face" = Some c
    ∧ Flt.nonneg (CallStat.getTotalDuration c) = true
    ∧ 0 ≤ CallStat._number_of_calls c < SizeT.modulus.
Proof.
  assert (E : @Timer.finish ms_double "face" 8000000 (Timer.start "face" 0 ∅)
              = Value (<[ "face" := @CallStat.calculateDuration ms_double 8000000
                                      (CallStat.setStartTime 0 CallStat.make) ]>
                         (Timer.start "face" 0 ∅))).
  { apply (@finish_Value ms_double). by rewrite start_lookup. }
  eexists _, _. split; [exact E|]. split; [apply lookup_insert_eq|].
  destruct (@timer_durations_not_negative ms_double ms_double_nonneg 8000000
              _ ({[ "face" ]} ∪ ∅) "face" _
              (@reach_finish ms_double 0 _ ∅ "face" 8000000 _
                 (@reach_start ms_double 0 ∅ ∅ "face" 0 (@reach_init ms_double 0)
                    ltac:(lia))
                 ltac:(lia) E)
              (lookup_insert_eq _ _ _))
    as (_ & Ht & Hn & _).
  by split.
Defined.

Lemma stage_submitRequest_runs_batch_witness :
  ∃ s',
    Stage.submitRequest Demo.age_gender_full = Value s'
    ∧ enquedFaces s' = 0
    ∧ BaseDetection.calls (sbase s')
      = BaseDetection.calls (sbase Demo.age_gender_full) ++ [CallInfer].
Proof.
  destruct (proj2 (stage_submitRequest_runs_batch Demo.age_gender_full
                     (Demo.request_of Demo.age_gender_full)
                     ltac:(vm_compute; reflexivity) ltac:(vm_compute; reflexivity))
              ltac:(vm_compute; discriminate))
    as (s' & Hrun & Hq & Hc & _).
  exists s'. split; [exact Hrun|]. split; [exact Hq|]. exact Hc.
Defined.

Lemma enqueue_all_fills_to_capacity_witness :
  ∃ s',
    @enqueue_all store_mat _ "Age/Gender Recognition network"
      [Demo.frame; Demo.frame; Demo.frame] Sample.age_gender_loaded = Value s'
    ∧ enquedFaces s' = 2
    ∧ BaseDetection.slog (sbase s')
      = BaseDetection.slog (sbase Sample.age_gender_loaded)
        ++ [LogTooManyFaces 2 "Age/Gender Recognition network"].
Proof.
  destruct (@enqueue_all_fills_to_capacity store_mat _ "Age/Gender Recognition network"
              [Demo.frame; Demo.frame; Demo.frame] Sample.age_gender_loaded)
    as (s' & Hrun & Hq & Hlog & _).
  - vm_compute. reflexivity.
  - vm_compute. eexists. split; [reflexivity|]. by eexists.
  - unfold batch_ok. split_and!; try (vm_compute; discriminate).
    intros Hq. exfalso. apply Hq. vm_compute. reflexivity.
  - exists s'. split; [exact Hrun|].
    assert (Hq' : enquedFaces s' = 2) by (rewrite Hq; vm_compute; reflexivity).
    split; [exact Hq'|]. rewrite Hlog, Hq'. reflexivity.
Defined.

Lemma stage_calls_are_defined_witness :
  @stage_run store_mat _ AgeGenderDetection.read "Age/Gender Recognition network"
    [DoSubmit; DoEnqueue Demo.frame; DoWait; DoEnqueue Demo.frame; DoEnqueue Demo.frame;
     DoSubmit; DoSubmit; DoWait]
    Sample.age_gender_loaded ≠ Undefined.
Proof.
  apply (@stage_calls_are_defined store_mat _ AgeGenderDetection.read
           "Age/Gender Recognition network" _ Sample.age_gender_loaded).
  - reflexivity.
  - unfold batch_ok. split_and!; try (vm_compute; discriminate).
    intros Hq. exfalso. apply Hq. vm_compute. reflexivity.
Defined.

Lemma face_enqueue_replaces_frame_witness :
  ∃ f',
    @FaceDetection.enqueue store_mat Demo.frame (Demo.face_loaded (Demo.q32 7 5) false)
    = Value f'
    ∧ FaceDetection.enquedFrames f' = 1
    ∧ FaceDetection.width f' = F32.of_Z 200.
Proof.
  destruct (@face_enqueue_replaces_frame store_mat Demo.frame
              (Demo.face_loaded (Demo.q32 7 5) false))
    as (f' & r' & old & Hrun & Hq & Hw & _).
  - vm_compute. reflexivity.
  - vm_compute. by eexists.
  - exists f'. split; [exact Hrun|]. split; [exact Hq|]. exact Hw.
Defined.

Lemma fetched_at_most_maxProposalCount_witness :
  ∃ f',
    FaceDetection.fetchResults (Demo.face_submitted (Demo.q32 7 5) true) = Value f'
    ∧ (length (FaceDetection.results f') ≤ 2)%nat.
Proof.
  assert (E : ∃ f', FaceDetection.fetchResults (Demo.face_submitted (Demo.q32 7 5) true)
                    = Value f')
    by (vm_compute; eexists; reflexivity).
  destruct E as [f' E]. exists f'. split; [exact E|].
  apply (fetched_at_most_maxProposalCount (Demo.face_submitted (Demo.q32 7 5) true) f'
           ltac:(vm_compute; reflexivity) E).
Defined.

Lemma loop_seven_stops_at_sentinel_witness :
  FaceDetection.loop_seven (Demo.face_submitted (Demo.q32 7 5) false)
    Sample.sentinel 3 0 ([], [])
  = Value ([], []).
Proof.
  etrans.
  - apply (loop_seven_stops_at_sentinel (Demo.face_submitted (Demo.q32 7 5) false)
             Sample.sentinel 0 2 (F32.of_Z (-1)) 0 ([], []));
      vm_compute; reflexivity.
  - reflexivity.
Defined.

Lemma raw_output_keeps_results_witness :
  ∃ f1 f2,
    FaceDetection.fetchResults (with_raw true (Demo.face_submitted (Demo.q32 7 5) false))
    = Value f1
    ∧ FaceDetection.fetchResults
        (with_raw false (Demo.face_submitted (Demo.q32 7 5) false)) = Value f2
    ∧ FaceDetection.results f2 = FaceDetection.results f1
    ∧ length (BaseDetection.slog (FaceDetection.fbase f1))
      = S (S (length (BaseDetection.slog (FaceDetection.fbase f2)))).
Proof.
  assert (E : ∃ f1, FaceDetection.fetchResults
                      (with_raw true (Demo.face_submitted (Demo.q32 7 5) false))
                    = Value f1
                    ∧ length (BaseDetection.slog (FaceDetection.fbase f1))
                      = S (S (length (BaseDetection.slog
                                        (FaceDetection.fbase
                                           (Demo.face_submitted (Demo.q32 7 5) false)))))).
  { vm_compute. eexists. split; reflexivity. }
  destruct E as (f1 & E & Hlen).
  destruct (raw_output_keeps_results (Demo.face_submitted (Demo.q32 7 5) false) f1
              ltac:(vm_compute; reflexivity) E)
    as (f2 & Hrun & Hres & _ & _ & Hlog).
  exists f1, f2. split; [exact E|]. split; [exact Hrun|]. split; [exact Hres|].
  rewrite Hlog. exact Hlen.
Defined.

Lemma age_gender_read_contract_witness :
  ∃ network' s',
    AgeGenderDetection.read (Demo.core Demo.age_gender_cnn Demo.age_gender_net)
      Demo.age_gender = Value (network', s')
    ∧ AgeGenderDetection.outputAge (self s') = "age_conv3"
    ∧ AgeGenderDetection.outputGender (self s') = "prob"
    ∧ batchSize network' = 2.
Proof.
  destruct (proj2 (age_gender_read_contract
                     (Demo.core Demo.age_gender_cnn Demo.age_gender_net)
                     Demo.age_gender Demo.age_gender_cnn eq_refl)
              _ _ _ _ _ _ eq_refl eq_refl)
    as (network' & s' & Hrun & Hb & _ & _ & _ & Ha & Hg & _).
  exists network', s'. split; [exact Hrun|]. split; [exact Ha|]. split; [exact Hg|].
  exact Hb.
Defined.

Lemma head_pose_read_contract_witness :
  (∃ network' s',
     HeadPoseDetection.read (Demo.core Sample.head_pose_cnn Demo.no_net) Sample.head_pose
     = Value (network', s'))
  ∧ ∃ missing,
      HeadPoseDetection.read (Demo.core (Demo.landmarks_cnn [1; 70]) Demo.no_net)
        Sample.head_pose
      = Thrown (logic_error ("There is no " ++ missing
                             ++ " output in Head Pose Estimation network")).
Proof.
  split.
  - apply (proj1 (head_pose_read_contract
                    (Demo.core Sample.head_pose_cnn Demo.no_net) Sample.head_pose
                    Sample.head_pose_cnn _ _ eq_refl eq_refl)).
    intros n Hn.
    repeat (apply elem_of_cons in Hn as [->|Hn];
            [apply (bool_decide_unpack (_ ∈ _)); vm_compute; exact I|]).
    by apply elem_of_nil in Hn.
  - destruct (proj1 (proj2 (proj2 (head_pose_read_contract
                    (Demo.core (Demo.landmarks_cnn [1; 70]) Demo.no_net) Sample.head_pose
                    (Demo.landmarks_cnn [1; 70]) _ _ eq_refl eq_refl))))
      as (missing & _ & _ & Hrun).
    + exists "angle_r_fc". split; [by left|].
      apply (bool_decide_unpack (_ ∉ _)). vm_compute. exact I.
    + by exists missing.
Defined.

Lemma submit_then_wait_infers_witness :
  BaseDetection.request
    (BaseDetection.wait (BaseDetection.submitRequest (sbase Demo.age_gender_full)))
  = Some (Infer (Demo.request_of Demo.age_gender_full))
  ∧ BaseDetection.calls
      (BaseDetection.wait (BaseDetection.submitRequest (sbase Demo.age_gender_full)))
    = BaseDetection.calls (sbase Demo.age_gender_full) ++ [CallInfer].
Proof.
  destruct (submit_then_wait_infers (sbase Demo.age_gender_full)
              (Demo.request_of Demo.age_gender_full)
              ltac:(vm_compute; reflexivity) ltac:(vm_compute; reflexivity))
    as (Hr & Hc & _).
  split; [exact Hr|exact Hc].
Defined.

Lemma landmarks_decode_row_witness :
  FacialLandmarksDetection.decode Sample.landmarks 1
  = Value [F32.of_Z 5; F32.of_Z 6; F32.of_Z 7; F32.of_Z 8].
Proof.
  rewrite (landmarks_decode_row Sample.landmarks Sample.landmarks_request
             Sample.landmarks_blob (map F32.of_Z (seqZ 1 8)) 2 1);
    try reflexivity; vm_compute; try split; discriminate || reflexivity.
Defined.

Lemma attribute_values_decoded_witness :
  AgeGenderDetection.decode Demo.age_gender_submitted 1
  = Value {| AgeGenderDetection.age := F32.mul (Demo.q32 1 2) (F32.of_Z 100);
             AgeGenderDetection.maleProb := Demo.q32 1 5 |}.
Proof.
  assert (Hr : BaseDetection.request (sbase Demo.age_gender_submitted)
               = Some (Demo.request_of Demo.age_gender_submitted))
    by (vm_compute; reflexivity).
  assert (Hba : GetBlob (Demo.request_of Demo.age_gender_submitted)
                  (AgeGenderDetection.outputAge (self Demo.age_gender_submitted))
                = Value {| dims := [2; 1; 1; 1]; channels := 1;
                           mem := DataF32 [Demo.q32 1 4; Demo.q32 1 2] |})
    by (vm_compute; reflexivity).
  assert (Hbg : GetBlob (Demo.request_of Demo.age_gender_submitted)
                  (AgeGenderDetection.outputGender (self Demo.age_gender_submitted))
                = Value {| dims := [2; 2; 1; 1]; channels := 2;
                           mem := DataF32 [Demo.q32 1 10; Demo.q32 9 10;
                                           Demo.q32 4 5; Demo.q32 1 5] |})
    by (vm_compute; reflexivity).
  destruct (proj1 (attribute_values_decoded 2 1
                     (Demo.request_of Demo.age_gender_submitted)
                     ltac:(lia) ltac:(vm_compute; discriminate))
              Demo.age_gender_submitted _ _ _ _
              Hr Hba eq_refl eq_refl Hbg eq_refl eq_refl)
    as (a & g & Ha & Hg & Hrun).
  injection Ha as <-. injection Hg as <-. exact Hrun.
Defined.

Lemma face_read_single_output_witness :
  ∃ network' f',
    FaceDetection.read (Demo.core Demo.face_cnn Demo.face_net)
      (Demo.face (Demo.q32 7 5) false) = Value (network', f')
    ∧ FaceDetection.maxProposalCount f' = 2
    ∧ FaceDetection.objectSize f' = 7
    ∧ FaceDetection.output f' = "detection_out".
Proof.
  destruct (proj2 (face_read_single_output (Demo.core Demo.face_cnn Demo.face_net)
                     (Demo.face (Demo.q32 7 5) false) Demo.face_cnn
                     "data" "detection_out" _ _ 300 300
                     eq_refl eq_refl eq_refl eq_refl eq_refl)
              2 7 eq_refl eq_refl)
    as (_ & _ & Hok).
  destruct (Hok eq_refl eq_refl)
    as (network' & f' & Hrun & _ & Ho & _ & Hc & Hs & _).
  exists network', f'. split; [exact Hrun|]. split; [exact Hc|]. split; [exact Hs|].
  exact Ho.
Defined.

Lemma face_read_several_outputs_witness :
  ∃ network' f',
    FaceDetection.read (Demo.core Sample.boxes_cnn Demo.no_net)
      (Demo.face (Demo.q32 7 5) false) = Value (network', f')
    ∧ FaceDetection.output f' = "boxes"
    ∧ FaceDetection.labels_output f' = "labels"
    ∧ FaceDetection.maxProposalCount f' = 100
    ∧ FaceDetection.objectSize f' = 5.
Proof.
  destruct (proj2 (face_read_several_outputs (Demo.core Sample.boxes_cnn Demo.no_net)
                     (Demo.face (Demo.q32 7 5) false) Sample.boxes_cnn
                     "image" _ 384 672
                     eq_refl eq_refl ltac:(discriminate) eq_refl eq_refl)
              ltac:(discriminate) ltac:(discriminate))
    as (network' & f' & Hrun & _ & Ho & Hl & Hc & Hs & _).
  exists network', f'. split; [exact Hrun|]. split; [exact Ho|]. split; [exact Hl|].
  split; [exact Hc|exact Hs].
Defined.

Lemma face_read_fixes_layout_witness :
  ∃ network' f',
    FaceDetection.read (Demo.core Sample.boxes_cnn Demo.no_net)
      (Demo.face (Demo.q32 7 5) false) = Value (network', f')
    ∧ ((FaceDetection.labels_output f' = "" ∧ FaceDetection.objectSize f' = 7)
       ∨ (FaceDetection.labels_output f' ≠ "" ∧ FaceDetection.output f' ≠ ""
          ∧ FaceDetection.objectSize f' = 5)).
Proof.
  assert (E : ∃ network' f',
             FaceDetection.read (Demo.core Sample.boxes_cnn Demo.no_net)
               (Demo.face (Demo.q32 7 5) false) = Value (network', f'))
    by (vm_compute; eexists _, _; reflexivity).
  destruct E as (network' & f' & E). exists network', f'. split; [exact E|].
  apply (face_read_fixes_layout (Demo.core Sample.boxes_cnn Demo.no_net)
           (Demo.face (Demo.q32 7 5) false) f' network' eq_refl eq_refl E).
Defined.

Lemma load_into_contract_witness :
  ∃ s',
    Load.into (Demo.core Demo.age_gender_cnn Demo.age_gender_net) "MYRIAD" true
      Demo.age_gender = Value s'
    ∧ BaseDetection.net (sbase s') = Some Demo.age_gender_net
    ∧ Load.into (Demo.core Demo.age_gender_cnn Demo.age_gender_net) "MYRIAD" false
        Demo.age_gender = Value s'.
Proof.
  destruct (@load_into_contract AgeGenderDetection.t AgeGender_Detection
              (Demo.core Demo.age_gender_cnn Demo.age_gender_net) "MYRIAD" true
              Demo.age_gender ltac:(reflexivity))
    as (_ & Hen & Hsame).
  assert (E : ∃ network d1,
             AgeGenderDetection.read (Demo.core Demo.age_gender_cnn Demo.age_gender_net)
               (Stage.set_base (BaseDetection.enabled (sbase Demo.age_gender)).2
                  Demo.age_gender)
             = Value (network, d1))
    by (vm_compute; eexists _, _; reflexivity).
  destruct E as (network & d1 & E).
  destruct (Hen eq_refl) as [_ Hload].
  destruct (Hload network d1 E) as [_ Hok].
  destruct (Hok Demo.age_gender_net eq_refl) as (s' & Hrun & Hnet & _).
  exists s'. split; [exact Hrun|]. split; [exact Hnet|].
  rewrite <- Hsame by reflexivity. exact Hrun.
Defined.

Lemma stage_enqueue_contract_witness :
  (∃ s', @Stage.enqueue _ store_mat "Age/Gender Recognition network" Demo.frame
           Sample.age_gender_loaded = Value s'
         ∧ enquedFaces s' = 1
         ∧ BaseDetection.calls (sbase s')
           = BaseDetection.calls (sbase Sample.age_gender_loaded)
             ++ [CallCreateInferRequest; CallGetBlob "data"])
  ∧ ∃ s', @Stage.enqueue _ store_mat "Age/Gender Recognition network" Demo.frame
            Demo.age_gender_full = Value s'
          ∧ enquedFaces s' = 2.
Proof.
  split.
  - destruct (proj1 (@stage_enqueue_contract store_mat _
                       "Age/Gender Recognition network" Demo.frame
                       Sample.age_gender_loaded ltac:(vm_compute; reflexivity)))
      as (s' & r' & old & Hrun & Hq & _ & _ & _ & _ & Hcalls).
    + vm_compute. eexists. split; [reflexivity|]. by eexists.
    + vm_compute. discriminate.
    + vm_compute. split; discriminate.
    + exists s'. split; [exact Hrun|]. split; [exact Hq|]. exact Hcalls.
  - destruct (proj1 (proj2 (@stage_enqueue_contract store_mat _
                       "Age/Gender Recognition network" Demo.frame
                       Demo.age_gender_full ltac:(vm_compute; reflexivity))))
      as (s' & Hrun & Hq & _).
    + vm_compute. reflexivity.
    + exists s'. split; [exact Hrun|]. exact Hq.
Defined.
